(** * rbot: prompt assembly, provider dispatch and session files

    A shallow embedding of [rbot.py]: the [chat] function (lines 57-125) and
    the body of [main] after argument parsing (lines 199-290), with the
    pieces of the Python runtime they lean on (string methods, truthiness,
    [json.dump] / [json.load], [re.search] for the one pattern used).

    [ragbot_streamlit.py] is a form front end; the history it assembles goes
    through [helpers.chat], which is not part of these sources, and it is not
    modelled.

    Python [str] values are sequences of Unicode code points, modelled as
    [list N].  Python objects that reach the code are modelled by [pyval];
    the one mutable object that is shared between [main] and [chat], the
    history list, lives in an explicit heap. *)

From Stdlib Require Import Ascii String.
From Stdlib Require Import List Bool Arith NArith ZArith QArith Lia.
Import ListNotations.

Set Implicit Arguments.
Set Warnings "-register-all".
Local Open Scope N_scope.
Local Open Scope list_scope.

(* ================================================================== *)
(** ** Python strings *)

Definition codepoint := N.
Definition pystr := list codepoint.

(** A Rocq string literal read as a Python string of the same characters. *)
Definition str (s : string) : pystr := map N_of_ascii (list_ascii_of_string s).

Definition c_quote : codepoint := 34.      (* the double quote character *)
Definition c_backslash : codepoint := 92.
Definition c_newline : codepoint := 10.
Definition c_space : codepoint := 32.

Fixpoint pystr_eqb (a b : pystr) : bool :=
  match a, b with
  | [], [] => true
  | x :: a', y :: b' => N.eqb x y && pystr_eqb a' b'
  | _, _ => false
  end.

(** [s.startswith(p)] *)
Fixpoint startswith (s p : pystr) {struct p} : bool :=
  match p with
  | [] => true
  | x :: p' =>
      match s with
      | y :: s' => N.eqb x y && startswith s' p'
      | [] => false
      end
  end.

(** [str.isspace] on one character: the code points Python strips. *)
Definition is_space (c : codepoint) : bool :=
  ((9 <=? c) && (c <=? 13)) || ((28 <=? c) && (c <=? 32))
  || (c =? 133) || (c =? 160) || (c =? 5760)
  || ((8192 <=? c) && (c <=? 8202))
  || (c =? 8232) || (c =? 8233) || (c =? 8239) || (c =? 8287) || (c =? 12288).

Fixpoint lstrip (s : pystr) : pystr :=
  match s with
  | c :: s' => if is_space c then lstrip s' else s
  | [] => []
  end.

Definition rstrip (s : pystr) : pystr := rev (lstrip (rev s)).

(** [s.strip()] *)
Definition strip (s : pystr) : pystr := rstrip (lstrip s).

(** [str.lower] on one character.  ASCII letters are exact.  Of the
    characters outside ASCII only U+212A (Kelvin sign) and U+0130 lower to
    text containing an ASCII letter; they are given as Python gives them.
    Every other character outside ASCII is left as it is, which differs from
    Python only in which character outside ASCII results, so comparisons of
    the result with ASCII literals are exact. *)
Definition lower_char (c : codepoint) : pystr :=
  if (65 <=? c) && (c <=? 90) then [c + 32]
  else if c =? 8490 then [107]
  else if c =? 304 then [105; 775]
  else [c].

Definition lower (s : pystr) : pystr := flat_map lower_char s.

(** [sep.join(parts)] *)
Fixpoint join (sep : pystr) (parts : list pystr) : pystr :=
  match parts with
  | [] => []
  | [p] => p
  | p :: rest => p ++ sep ++ join sep rest
  end.

(** [s.split(sep)] for a separator of one character. *)
Fixpoint split_on (sep : codepoint) (s : pystr) : list pystr :=
  match s with
  | [] => [[]]
  | c :: s' =>
      if c =? sep then [] :: split_on sep s'
      else match split_on sep s' with
           | w :: ws => (c :: w) :: ws
           | [] => [[c]]
           end
  end.

(* ================================================================== *)
(** ** Python values *)

(** The objects the program handles: what [json.load] can return (floats
    apart), and the message dictionaries the program builds itself.  A
    dictionary is the list of its items in insertion order. *)
Inductive pyval : Type :=
| PNone
| PBool (b : bool)
| PInt (z : Z)
| PStr (s : pystr)
| PList (l : list pyval)
| PDict (d : list (pystr * pyval)).

(** Truth value testing, as in [if history:] and [if args.prompt:]. *)
Definition truthy (v : pyval) : bool :=
  match v with
  | PNone => false
  | PBool b => b
  | PInt z => negb (Z.eqb z 0)
  | PStr s => match s with [] => false | _ => true end
  | PList l => match l with [] => false | _ => true end
  | PDict d => match d with [] => false | _ => true end
  end.

(** An optional string argument: [None] or a [str]. *)
Definition of_opt (o : option pystr) : pyval :=
  match o with
  | None => PNone
  | Some s => PStr s
  end.

(** [f"{x}"] for [x] a string or [None]. *)
Definition format_opt (o : option pystr) : pystr :=
  match o with
  | None => str "None"
  | Some s => s
  end.

Definition k_role : pystr := Eval cbv in str "role".
Definition k_content : pystr := Eval cbv in str "content".
Definition r_system : pystr := Eval cbv in str "system".
Definition r_user : pystr := Eval cbv in str "user".
Definition r_assistant : pystr := Eval cbv in str "assistant".

(** [{"role": role, "content": content}] *)
Definition turn (role : pystr) (content : pyval) : pyval :=
  PDict [(k_role, PStr role); (k_content, content)].

Definition system_turn (text : pystr) : pyval := turn r_system (PStr text).
Definition user_turn (text : pystr) : pyval := turn r_user (PStr text).
Definition assistant_turn (text : pystr) : pyval := turn r_assistant (PStr text).

(* ================================================================== *)
(** ** Exceptions and results *)

Inductive exn : Type :=
| APIError (cause : pystr)      (* whatever the provider library raises *)
| TypeError
| AttributeError
| KeyError
| EOFError
| FileNotFoundError
| JSONDecodeError
| IsADirectoryError
| OSError (reason : pystr).      (* any other refusal of the operating system *)

Inductive outcome (A : Type) : Type :=
| Returned (a : A)
| Raised (e : exn).
Arguments Returned {A} a.
Arguments Raised {A} e.

(* ================================================================== *)
(** ** The heap of shared objects *)

Definition loc := nat.
Definition heap := list pyval.

Definition heap_get (h : heap) (l : loc) : pyval := nth l h PNone.

Fixpoint heap_set (h : heap) (l : loc) (v : pyval) : heap :=
  match h, l with
  | [], _ => []
  | _ :: h', O => v :: h'
  | x :: h', S l' => x :: heap_set h' l' v
  end.

(** A new object; its location is the next free one. *)
Definition heap_alloc (h : heap) (v : pyval) : heap * loc := (h ++ [v], length h).

(** [obj.append(v)]: lists have the method, nothing else here does. *)
Definition py_append (h : heap) (l : loc) (v : pyval) : outcome heap :=
  match heap_get h l with
  | PList items => Returned (heap_set h l (PList (items ++ [v])))
  | _ => Raised AttributeError
  end.

(* ================================================================== *)
(** ** The providers *)

(** Constants of the [anthropic] library. *)
Definition HUMAN_PROMPT : pystr := Eval cbv in [10; 10] ++ str "Human:".
Definition AI_PROMPT : pystr := Eval cbv in [10; 10] ++ str "Assistant:".

Definition e_openai : pystr := Eval cbv in str "openai".
Definition e_anthropic : pystr := Eval cbv in str "anthropic".

(** The keyword arguments of [openai.ChatCompletion.create]; [messages] is
    the value of the history list at the time of the call.  The credential
    is the library global [openai.api_key]. *)
Record openai_request : Type := {
  o_max_tokens : Z;
  o_model : pystr;
  o_request_timeout : Z;
  o_stream : bool;
  o_temperature : Q;
  o_messages : pyval;
  o_api_key : option pystr
}.

(** The arguments of [anthropic.Client(api_key).completion]. *)
Record anthropic_request : Type := {
  a_api_key : option pystr;
  a_prompt : pystr;
  a_stop_sequences : list pystr;
  a_model : pystr;
  a_max_tokens_to_sample : Z
}.

Inductive request : Type :=
| ToOpenAI (r : openai_request)
| ToAnthropic (r : anthropic_request).

(** One element of a streamed response, seen through
    [token["choices"][0]["delta"].get("content")]: the text of the fragment,
    or [None] when the delta has no content. *)
Definition fragment := option pystr.

(** The text of a fragment; a delta without content has none. *)
Definition fragment_text (f : fragment) : pystr :=
  match f with
  | Some s => s
  | None => []
  end.

(** What [openai.ChatCompletion.create] gives back: a generator of
    fragments, which may end in a failure of the transport; or, when the
    request says [stream=False], one dictionary-like payload; or an
    exception. *)
Inductive openai_response : Type :=
| Stream (fragments : list fragment) (ending : option exn)
| Payload (fields : list (pystr * pyval))
| OpenAIFails (e : exn).

(** What [Client.completion] gives back: a dictionary whose ["completion"]
    entry is the generated text, or an exception. *)
Inductive anthropic_response : Type :=
| Completion (text : pystr)
| AnthropicFails (e : exn).

(** The providers are outside the program: an oracle answers each request,
    and may answer differently depending on the requests sent before. *)
Record providers : Type := {
  openai_create : list request -> openai_request -> openai_response;
  anthropic_completion : list request -> anthropic_request -> anthropic_response
}.

(** The library globals [openai.api_key] and [anthropic.api_key]. *)
Record globals : Type := {
  openai_api_key : option pystr;
  anthropic_api_key : option pystr
}.

(** The state a call of [chat] can touch: the heap, and the requests
    transmitted so far. *)
Record pstate : Type := {
  st_heap : heap;
  st_sent : list request
}.

(* ================================================================== *)
(** ** [chat] (rbot.py, lines 57-125) *)

(** Lines 96-105: a list built from the decorators and the prompt. *)
Fixpoint append_decorators (h : heap) (l : loc) (decorators : list pystr) : outcome heap :=
  match decorators with
  | [] => Returned h
  | decorator :: rest =>
      match py_append h l (system_turn decorator) with
      | Returned h' => append_decorators h' l rest
      | Raised e => Raised e
      end
  end.

(** Lines 92-106: the list bound to [args["messages"]], and the heap after. *)
Definition chat_messages (h : heap) (prompt : option pystr) (decorators : list pystr)
    (history : option loc) : outcome (heap * loc) :=
  let supplied :=
    match history with
    | Some l => if truthy (heap_get h l) then Some l else None
    | None => None
    end in
  match supplied with
  | Some l => Returned (h, l)
  | None =>
      let (h0, l) := heap_alloc h (PList []) in
      match append_decorators h0 l decorators with
      | Raised e => Raised e
      | Returned h1 =>
          match py_append h1 l (turn r_user (of_opt prompt)) with
          | Raised e => Raised e
          | Returned h2 => Returned (h2, l)
          end
      end
  end.

(** Lines 110-115: the loop over the response. *)
Fixpoint accumulate (response : pystr) (fragments : list fragment) : pystr :=
  match fragments with
  | [] => response
  | text :: rest =>
      if truthy (of_opt text)
      then accumulate (response ++ fragment_text text) rest
      else accumulate response rest
  end.

Definition drain (resp : openai_response) : outcome pystr :=
  match resp with
  | OpenAIFails e => Raised e
  | Stream fragments ending =>
      match ending with
      | None => Returned (accumulate [] fragments)
      | Some e => Raised e
      end
  | Payload fields =>
      (* iterating a dictionary yields its keys, and a key is a string:
         [token["choices"]] is an index of a string by a string *)
      match fields with
      | [] => Returned []
      | _ :: _ => Raised TypeError
      end
  end.

Section Chat.
Variable P : providers.
Variable G : globals.

Definition chat (st : pstate) (prompt : option pystr) (decorators : list pystr)
    (model : pystr) (max_tokens : Z) (stream : bool) (request_timeout : Z)
    (temperature : Q) (history : option loc) (engine : pystr)
    : pstate * outcome (option pystr) :=
  if pystr_eqb engine e_openai then
    match chat_messages st.(st_heap) prompt decorators history with
    | Raised e => (st, Raised e)
    | Returned (h, l) =>
        let req := {| o_max_tokens := max_tokens;
                      o_model := model;
                      o_request_timeout := request_timeout;
                      o_stream := stream;
                      o_temperature := temperature;
                      o_messages := heap_get h l;
                      o_api_key := G.(openai_api_key) |} in
        let st' := {| st_heap := h; st_sent := st.(st_sent) ++ [ToOpenAI req] |} in
        match drain (P.(openai_create) st.(st_sent) req) with
        | Returned response => (st', Returned (Some response))
        | Raised e => (st', Raised e)
        end
    end
  else if pystr_eqb engine e_anthropic then
    let req := {| a_api_key := G.(anthropic_api_key);
                  a_prompt := HUMAN_PROMPT ++ [c_space] ++ format_opt prompt
                                ++ [c_space] ++ AI_PROMPT;
                  a_stop_sequences := [HUMAN_PROMPT];
                  a_model := model;
                  a_max_tokens_to_sample := max_tokens |} in
    let st' := {| st_heap := st.(st_heap); st_sent := st.(st_sent) ++ [ToAnthropic req] |} in
    match P.(anthropic_completion) st.(st_sent) req with
    | Completion text => (st', Returned (Some text))
    | AnthropicFails e => (st', Raised e)
    end
  else (st, Returned None).

End Chat.

(* ================================================================== *)
(** ** [json.dump] and [json.load]

    The encoder with its default settings ([ensure_ascii], separators
    [", "] and [": "]) and the decoder in strict mode.  Floats are not among
    [pyval]: a number with a fraction or an exponent, [NaN] and [Infinity]
    are reported as undecodable. *)

Definition hex_digit (d : N) : codepoint := if d <? 10 then 48 + d else 87 + d.

(** [\uXXXX] with lower-case digits *)
Definition u_escape (c : N) : pystr :=
  [c_backslash; 117;
   hex_digit ((c / 4096) mod 16); hex_digit ((c / 256) mod 16);
   hex_digit ((c / 16) mod 16); hex_digit (c mod 16)].

Definition escape_char (c : codepoint) : pystr :=
  if c =? 34 then [c_backslash; 34]
  else if c =? 92 then [c_backslash; 92]
  else if c =? 10 then [c_backslash; 110]
  else if c =? 13 then [c_backslash; 114]
  else if c =? 9 then [c_backslash; 116]
  else if c =? 8 then [c_backslash; 98]
  else if c =? 12 then [c_backslash; 102]
  else if (32 <=? c) && (c <=? 126) then [c]
  else if c <? 65536 then u_escape c
  else
    let n := c - 65536 in
    u_escape (N.lor 55296 (N.land (N.shiftr n 10) 1023))
      ++ u_escape (N.lor 56320 (N.land n 1023)).

Definition encode_string (s : pystr) : pystr :=
  [c_quote] ++ flat_map escape_char s ++ [c_quote].

Fixpoint digits_of (fuel : nat) (n : N) (acc : pystr) : pystr :=
  match fuel with
  | O => acc
  | S f =>
      let acc' := (48 + n mod 10) :: acc in
      if n / 10 =? 0 then acc' else digits_of f (n / 10) acc'
  end.

Definition int_repr (z : Z) : pystr :=
  let n := Z.abs_N z in
  let ds := digits_of (S (N.to_nat (N.log2 n))) n [] in
  if (z <? 0)%Z then 45 :: ds else ds.

Definition s_null : pystr := Eval cbv in str "null".
Definition s_true : pystr := Eval cbv in str "true".
Definition s_false : pystr := Eval cbv in str "false".
Definition s_item_sep : pystr := Eval cbv in str ", ".
Definition s_key_sep : pystr := Eval cbv in str ": ".

(** The encoder: [', '.join] of the encoded items between the brackets. *)
Fixpoint dumps (v : pyval) : pystr :=
  match v with
  | PNone => s_null
  | PBool true => s_true
  | PBool false => s_false
  | PInt z => int_repr z
  | PStr s => encode_string s
  | PList l => [91] ++ join s_item_sep (map dumps l) ++ [93]
  | PDict d =>
      [123]
        ++ join s_item_sep
             (map (fun kv => encode_string (fst kv) ++ s_key_sep ++ dumps (snd kv)) d)
        ++ [125]
  end.

Definition hex_val (c : codepoint) : option N :=
  if (48 <=? c) && (c <=? 57) then Some (c - 48)
  else if (97 <=? c) && (c <=? 102) then Some (c - 87)
  else if (65 <=? c) && (c <=? 70) then Some (c - 55)
  else None.

Definition hex4 (a b c d : codepoint) : option N :=
  match hex_val a, hex_val b, hex_val c, hex_val d with
  | Some x, Some y, Some z, Some w => Some (4096 * x + 256 * y + 16 * z + w)
  | _, _, _, _ => None
  end.

Definition unescape (c : codepoint) : option codepoint :=
  if c =? 34 then Some 34
  else if c =? 92 then Some 92
  else if c =? 47 then Some 47
  else if c =? 98 then Some 8
  else if c =? 102 then Some 12
  else if c =? 110 then Some 10
  else if c =? 114 then Some 13
  else if c =? 116 then Some 9
  else None.

Definition is_high_surrogate (c : N) : bool := (55296 <=? c) && (c <=? 56319).
Definition is_low_surrogate (c : N) : bool := (56320 <=? c) && (c <=? 57343).

Definition push (c : codepoint) (r : option (pystr * pystr)) : option (pystr * pystr) :=
  match r with
  | Some (s, rest) => Some (c :: s, rest)
  | None => None
  end.

(** [scanstring], from just after the opening quote: the decoded string and
    the text after the closing quote. *)
Fixpoint scanstring (s : pystr) : option (pystr * pystr) :=
  match s with
  | [] => None
  | c :: t =>
      if c =? 34 then Some ([], t)
      else if c =? 92 then
        match t with
        | [] => None
        | esc :: t1 =>
            if esc =? 117 then
              match t1 with
              | h1 :: h2 :: h3 :: h4 :: t2 =>
                  match hex4 h1 h2 h3 h4 with
                  | None => None
                  | Some uni =>
                      if is_high_surrogate uni then
                        match t2 with
                        | b :: u :: g1 :: g2 :: g3 :: g4 :: t3 =>
                            if (b =? 92) && (u =? 117) then
                              match hex4 g1 g2 g3 g4 with
                              | None => None
                              | Some uni2 =>
                                  if is_low_surrogate uni2
                                  then push (65536 + (N.lor (N.shiftl (uni - 55296) 10)
                                                            (uni2 - 56320)))
                                            (scanstring t3)
                                  else push uni (scanstring t2)
                              end
                            else push uni (scanstring t2)
                        | _ => push uni (scanstring t2)
                        end
                      else push uni (scanstring t2)
                  end
              | _ => None
              end
            else
              match unescape esc with
              | Some ch => push ch (scanstring t1)
              | None => None
              end
        end
      else if c <? 32 then None
      else push c (scanstring t)
  end.

Definition is_json_ws (c : codepoint) : bool :=
  (c =? 32) || (c =? 9) || (c =? 10) || (c =? 13).

Fixpoint skip_ws (s : pystr) : pystr :=
  match s with
  | c :: t => if is_json_ws c then skip_ws t else s
  | [] => []
  end.

Definition is_digit (c : codepoint) : bool := (48 <=? c) && (c <=? 57).

Fixpoint take_digits (acc : N) (s : pystr) : N * pystr :=
  match s with
  | c :: t => if is_digit c then take_digits (10 * acc + (c - 48)) t else (acc, s)
  | [] => (acc, [])
  end.

(** What follows the integer part makes the literal a float. *)
Definition float_tail (s : pystr) : bool :=
  match s with
  | c :: d :: t =>
      if c =? 46 then is_digit d
      else if (c =? 101) || (c =? 69) then
        if (d =? 43) || (d =? 45)
        then match t with e :: _ => is_digit e | [] => false end
        else is_digit d
      else false
  | _ => false
  end.

Definition scan_unsigned (s : pystr) : option (N * pystr) :=
  match s with
  | c :: t =>
      if c =? 48 then Some (0, t)
      else if is_digit c then Some (take_digits 0 s)
      else None
  | [] => None
  end.

Definition scan_number (s : pystr) : option (pyval * pystr) :=
  let (negative, body) :=
    match s with
    | c :: t => if c =? 45 then (true, t) else (false, s)
    | [] => (false, s)
    end in
  match scan_unsigned body with
  | Some (n, rest) =>
      if float_tail rest then None
      else Some (PInt (if negative then Z.opp (Z.of_N n) else Z.of_N n), rest)
  | None => None
  end.

(** [d[k] = v] on the list of items. *)
Fixpoint dict_set (d : list (pystr * pyval)) (k : pystr) (v : pyval) : list (pystr * pyval) :=
  match d with
  | [] => [(k, v)]
  | (k', v') :: rest =>
      if pystr_eqb k' k then (k', v) :: rest else (k', v') :: dict_set rest k v
  end.

(** [dict(pairs)] *)
Definition dict_of_pairs (pairs : list (pystr * pyval)) : list (pystr * pyval) :=
  fold_left (fun d kv => dict_set d (fst kv) (snd kv)) pairs [].

Fixpoint scan_once (fuel : nat) (s : pystr) {struct fuel} : option (pyval * pystr) :=
  match fuel with
  | O => None
  | S f =>
      match s with
      | [] => None
      | c :: t =>
          if c =? 34 then
            match scanstring t with
            | Some (x, r) => Some (PStr x, r)
            | None => None
            end
          else if c =? 123 then
            match skip_ws t with
            | c1 :: t1 =>
                if c1 =? 125 then Some (PDict [], t1)
                else if c1 =? 34 then
                  match object_items f t1 with
                  | Some (pairs, r) => Some (PDict (dict_of_pairs pairs), r)
                  | None => None
                  end
                else None
            | [] => None
            end
          else if c =? 91 then
            match skip_ws t with
            | c1 :: t1 =>
                if c1 =? 93 then Some (PList [], t1)
                else
                  match array_items f (c1 :: t1) with
                  | Some (items, r) => Some (PList items, r)
                  | None => None
                  end
            | [] => None
            end
          else if startswith s s_null then Some (PNone, skipn 4 s)
          else if startswith s s_true then Some (PBool true, skipn 4 s)
          else if startswith s s_false then Some (PBool false, skipn 5 s)
          else scan_number s
      end
  end

(** The items of an array, from the first character of an item. *)
with array_items (fuel : nat) (s : pystr) {struct fuel} : option (list pyval * pystr) :=
  match fuel with
  | O => None
  | S f =>
      match scan_once f s with
      | None => None
      | Some (v, r) =>
          match skip_ws r with
          | c :: t =>
              if c =? 93 then Some ([v], t)
              else if c =? 44 then
                match array_items f (skip_ws t) with
                | Some (vs, r2) => Some (v :: vs, r2)
                | None => None
                end
              else None
          | [] => None
          end
      end
  end

(** The items of an object, from just after the opening quote of a key. *)
with object_items (fuel : nat) (s : pystr) {struct fuel}
    : option (list (pystr * pyval) * pystr) :=
  match fuel with
  | O => None
  | S f =>
      match scanstring s with
      | None => None
      | Some (key, r) =>
          match skip_ws r with
          | c :: t =>
              if c =? 58 then
                match scan_once f (skip_ws t) with
                | None => None
                | Some (v, r1) =>
                    match skip_ws r1 with
                    | c1 :: t1 =>
                        if c1 =? 125 then Some ([(key, v)], t1)
                        else if c1 =? 44 then
                          match skip_ws t1 with
                          | c2 :: t2 =>
                              if c2 =? 34 then
                                match object_items f t2 with
                                | Some (kvs, r2) => Some ((key, v) :: kvs, r2)
                                | None => None
                                end
                              else None
                          | [] => None
                          end
                        else None
                    | [] => None
                    end
                end
              else None
          | [] => None
          end
      end
  end.

(** [json.loads] *)
Definition loads (s : pystr) : option pyval :=
  if startswith s [65279] then None
  else
    match scan_once (2 * length s + 2) (skip_ws s) with
    | Some (v, r) =>
        match skip_ws r with
        | [] => Some v
        | _ :: _ => None
        end
    | None => None
    end.

(* ================================================================== *)
(** ** Files *)

(** The files of the machine, by path; the newest entry for a path is the
    file.  Files are told apart by the text of the path they are opened
    with, as the names of one directory are on a case-sensitive file system;
    directories are not recorded.  Opening for writing creates or truncates.
    What the operating system refuses is part of the surroundings (see
    [refuses] below).  A path for which [fs_read] finds nothing is a path
    at which there is nothing to open. *)
Definition filesystem := list (pystr * pystr).

Fixpoint fs_read (fs : filesystem) (path : pystr) : option pystr :=
  match fs with
  | [] => None
  | (p, content) :: rest => if pystr_eqb p path then Some content else fs_read rest path
  end.

Definition fs_write (fs : filesystem) (path content : pystr) : filesystem :=
  (path, content) :: fs.

(** [os.path.join(a, b)] on a POSIX system. *)
Definition path_join (a b : pystr) : pystr :=
  if startswith b [47] then b
  else
    match a with
    | [] => b
    | _ :: _ => if last a 0 =? 47 then a ++ b else a ++ [47] ++ b
    end.

Fixpoint until_slash (s : pystr) : pystr :=
  match s with
  | [] => []
  | c :: t => if c =? 47 then [] else c :: until_slash t
  end.

(** [os.path.basename(path)]: what follows the last slash. *)
Definition basename (path : pystr) : pystr := rev (until_slash (rev path)).

(** A path that cannot name a file, whatever the machine holds: it ends with
    a slash (its last component is empty), or in a component [.] or [..].
    [open(path, 'w')] raises [IsADirectoryError] for it once the directory
    is there. *)
Definition names_directory (path : pystr) : bool :=
  pystr_eqb (basename path) []
  || pystr_eqb (basename path) [46]
  || pystr_eqb (basename path) [46; 46].

(** A name of a file of the directory it is joined to: it is not empty,
    holds no slash, and is neither [.] nor [..]. *)
Definition plain_name (name : pystr) : bool :=
  negb (pystr_eqb name [])
  && negb (existsb (N.eqb 47) name)
  && negb (pystr_eqb name [46])
  && negb (pystr_eqb name [46; 46]).

(* ================================================================== *)
(** ** The structured-output pattern (rbot.py, line 286)

    [OUTPUT ?= ?QQQ((\n|.)*?)QQQ], where QQQ stands for three double quote
    characters, matched the way a backtracking matcher does: the optional
    space is tried first, the group takes as few characters as it can, and
    [search] tries the start positions from the left. *)

Definition s_OUTPUT : pystr := Eval cbv in str "OUTPUT".
Definition triple_quote : pystr := [c_quote; c_quote; c_quote].

Fixpoint strip_prefix (p s : pystr) {struct p} : option pystr :=
  match p with
  | [] => Some s
  | x :: p' =>
      match s with
      | y :: s' => if x =? y then strip_prefix p' s' else None
      | [] => None
      end
  end.

(** [((\n|.)*?)QQQ]: the group, or no match. *)
Fixpoint lazy_group (s : pystr) : option pystr :=
  if startswith s triple_quote then Some []
  else
    match s with
    | [] => None
    | c :: t =>
        match lazy_group t with
        | Some g => Some (c :: g)
        | None => None
        end
    end.

(** [ ?] followed by [k] *)
Definition opt_space (A : Type) (k : pystr -> option A) (s : pystr) : option A :=
  match s with
  | c :: t =>
      if c =? 32 then
        match k t with
        | Some r => Some r
        | None => k s
        end
      else k s
  | [] => k s
  end.

(** A match of the whole pattern at the start of [s]: its group 1. *)
Definition match_here (s : pystr) : option pystr :=
  match strip_prefix s_OUTPUT s with
  | None => None
  | Some s1 =>
      opt_space
        (fun s2 =>
           match s2 with
           | c :: s3 =>
               if c =? 61 then
                 opt_space
                   (fun s4 =>
                      match strip_prefix triple_quote s4 with
                      | Some s5 => lazy_group s5
                      | None => None
                      end) s3
               else None
           | [] => None
           end) s1
  end.

(** [pattern.search(reply)]: group 1 of the leftmost match. *)
Fixpoint search (s : pystr) : option pystr :=
  match match_here s with
  | Some g => Some g
  | None =>
      match s with
      | [] => None
      | _ :: t => search t
      end
  end.

(** Lines 286-289: the text that line 290 prints. *)
Definition structured (reply : pystr) : pystr :=
  match search reply with
  | Some g => strip g
  | None => reply
  end.

(* ================================================================== *)
(** ** [main] (rbot.py, lines 199-290) *)

(** The parsed command line. *)
Record cli_args : Type := {
  list_saved : bool;
  arg_prompt : option pystr;
  prompt_file : option pystr;
  interactive : bool;
  arg_stdin : bool;
  decorator : list pystr;
  load : option pystr;
  engine : pystr;
  arg_model : option pystr;
  temperature : Q;
  nodecorator : bool
}.

(** One entry of [engines.yaml]: each key may be missing. *)
Record engine_config : Type := {
  default_model : option pystr;
  api_key_name : option pystr;
  api_key : option (option pystr)
}.

(** What the program reads from its surroundings: the process environment,
    the engines catalogue, the helper that reads decorator files (of
    [helpers.py], an external collaborator), the data directory of the user
    that [appdirs] gives (line 42), and what the operating system refuses.
    [refuses fs path] is the exception with which [os.makedirs] or
    [open(path, 'w')] fails for [path] on a machine with the files [fs] (a
    file or a directory in the way, permissions, a full disk, a character
    that a path cannot hold), and [None] when they do not fail; the one
    failure that the model decides itself, from the text of the path, is the
    opening of a path that names a directory (see [save_session]). *)
Record environment : Type := {
  getenv : pystr -> option pystr;
  engines_config : pystr -> option engine_config;
  load_decorator_files : list pystr -> list pystr * list pystr;
  data_dir : pystr;
  refuses : filesystem -> pystr -> option exn
}.

Definition s_sessions : pystr := Eval cbv in str "sessions".

(** Line 43 *)
Definition sessions_data_dir (E : environment) : pystr :=
  path_join E.(data_dir) s_sessions.

(** What [print] is called with.  The temperature line formats a float and
    the list of saved files is printed by a helper; both are kept symbolic. *)
Inductive output : Type :=
| Line (s : pystr)
| TemperatureLine (t : Q)
| SavedFiles.

Record mstate : Type := {
  m_fs : filesystem;
  m_st : pstate;
  m_out : list output
}.

Definition say (m : mstate) (o : list output) : mstate :=
  {| m_fs := m.(m_fs); m_st := m.(m_st); m_out := m.(m_out) ++ o |}.

Definition with_heap (m : mstate) (h : heap) : mstate :=
  {| m_fs := m.(m_fs);
     m_st := {| st_heap := h; st_sent := m.(m_st).(st_sent) |};
     m_out := m.(m_out) |}.

Definition with_st (m : mstate) (st : pstate) : mstate :=
  {| m_fs := m.(m_fs); m_st := st; m_out := m.(m_out) |}.

Definition s_quit : pystr := Eval cbv in str "/quit".
Definition s_save : pystr := Eval cbv in str "/save ".
Definition s_DECORATORS : pystr := Eval cbv in str "DECORATORS".

(** Lines 262-265: the directories of the path are made, the file is opened
    for writing and the history is written to it.  When the system refuses
    nothing, the directory of the path is there once it has been made, so
    that the opening of a path that names a directory raises
    [IsADirectoryError].  An exception leaves the files as they were. *)
Definition save_session (E : environment) (fs : filesystem) (history : pyval)
    (filename : pystr) : outcome filesystem :=
  let full_path := path_join (sessions_data_dir E) filename in
  match E.(refuses) fs full_path with
  | Some e => Raised e
  | None =>
      if names_directory full_path then Raised IsADirectoryError
      else Returned (fs_write fs full_path (dumps history))
  end.

(** Lines 232-235: the session file is read. *)
Definition load_session (dir : pystr) (fs : filesystem) (name : pystr) : outcome pyval :=
  let filename := strip name in
  match fs_read fs (path_join dir filename) with
  | None => Raised FileNotFoundError
  | Some text =>
      match loads text with
      | None => Raised JSONDecodeError
      | Some v => Returned v
      end
  end.

Section Main.
Variable E : environment.
Variable P : providers.

(** What lines 203-252 leave for the rest of [main]. *)
Record session : Type := {
  s_interactive : bool;
  s_decorators : list pystr;
  s_history : loc;
  s_model : pystr;
  s_globals : globals
}.

(** Lines 207-221 *)
Definition read_decorators (a : cli_args) (no_decorator : bool) : list pystr * list pystr :=
  if no_decorator then ([], [])
  else
    let default_decorator_paths :=
      filter (fun path => negb (pystr_eqb (strip path) []))
             (split_on c_newline
                (match E.(getenv) s_DECORATORS with Some v => v | None => [] end)) in
    E.(load_decorator_files) (default_decorator_paths ++ a.(decorator)).

Definition decorator_report (decorator_files : list pystr) : list output :=
  match decorator_files with
  | [] => [Line (str "No decorator files are being used.")]
  | _ :: _ =>
      Line (str "Decorators being used:")
        :: map (fun file => Line (str " - " ++ file)) decorator_files
  end.

(** Lines 241-249 *)
Definition credentials (a : cli_args) (g : globals) : outcome globals :=
  match E.(engines_config) a.(engine) with
  | None => Raised KeyError
  | Some cfg =>
      let key :=
        if truthy (of_opt cfg.(api_key_name))
        then Some (E.(getenv) (match cfg.(api_key_name) with Some n => n | None => [] end))
        else cfg.(api_key) in
      if pystr_eqb a.(engine) e_openai then
        match key with
        | Some k => Returned {| openai_api_key := k; anthropic_api_key := g.(anthropic_api_key) |}
        | None => Raised KeyError
        end
      else if pystr_eqb a.(engine) e_anthropic then
        match key with
        | Some k => Returned {| openai_api_key := g.(openai_api_key); anthropic_api_key := k |}
        | None => Raised KeyError
        end
      else Returned g
  end.

(** Lines 237-239 *)
Definition resolve_model (a : cli_args) : outcome pystr :=
  match a.(arg_model) with
  | Some m => Returned m
  | None =>
      match E.(engines_config) a.(engine) with
      | None => Raised KeyError
      | Some cfg =>
          match cfg.(default_model) with
          | Some m => Returned m
          | None => Raised KeyError
          end
      end
  end.

(** Lines 203-252 *)
Definition prepare (a : cli_args) (g : globals) (m : mstate) : mstate * outcome session :=
  let loading := truthy (of_opt a.(load)) in
  let interactive' := if loading then true else a.(interactive) in
  let nodecorator' := if loading then true else a.(nodecorator) in
  let (decorators, decorator_files) := read_decorators a nodecorator' in
  let m1 := say m (decorator_report decorator_files) in
  let (h0, fresh) := heap_alloc m1.(m_st).(st_heap) (PList []) in
  match append_decorators h0 fresh decorators with
  | Raised e => (with_heap m1 h0, Raised e)
  | Returned h1 =>
      let loaded :=
        if loading
        then
          match load_session (sessions_data_dir E) m1.(m_fs)
                  (match a.(load) with Some n => n | None => [] end) with
          | Returned v => Returned (heap_alloc h1 v)
          | Raised e => Raised e
          end
        else Returned (h1, fresh) in
      match loaded with
      | Raised e => (with_heap m1 h1, Raised e)
      | Returned (h2, history) =>
          let m2 := with_heap m1 h2 in
          match resolve_model a with
          | Raised e => (m2, Raised e)
          | Returned model =>
              match credentials a g with
              | Raised e => (m2, Raised e)
              | Returned g' =>
                  (say m2 [Line (str "Using AI engine " ++ a.(engine)
                                   ++ str " with model " ++ model);
                           TemperatureLine a.(temperature)],
                   Returned {| s_interactive := interactive';
                               s_decorators := decorators;
                               s_history := history;
                               s_model := model;
                               s_globals := g' |})
              end
          end
      end
  end.

(** Lines 268-271 and 284-285: the prompt is appended to the history and
    [chat] is called with the defaults for [max_tokens], [stream] and
    [request_timeout]. *)
Definition ask (a : cli_args) (s : session) (m : mstate) (prompt : option pystr)
    : mstate * outcome (option pystr) :=
  match py_append m.(m_st).(st_heap) s.(s_history) (turn r_user (of_opt prompt)) with
  | Raised e => (m, Raised e)
  | Returned h1 =>
      let (st2, r) :=
        chat P s.(s_globals) (with_heap m h1).(m_st) prompt s.(s_decorators) s.(s_model)
             1000%Z true 15%Z a.(temperature) (Some s.(s_history)) a.(engine) in
      (with_st m st2, r)
  end.

(** Lines 256-271: one [input()] per element of [inputs]; what is left of
    them when the loop ends is returned. *)
Fixpoint interactive_loop (a : cli_args) (s : session) (inputs : list pystr) (m : mstate)
    : mstate * list pystr * outcome unit :=
  match inputs with
  | [] => (m, [], Raised EOFError)
  | prompt :: rest =>
      if pystr_eqb (lower prompt) s_quit then (m, rest, Returned tt)
      else if startswith (lower prompt) s_save then
        let filename := strip (skipn 6 prompt) in
        match save_session E m.(m_fs)
                (heap_get m.(m_st).(st_heap) s.(s_history)) filename with
        | Raised e => (m, rest, Raised e)
        | Returned fs' =>
            interactive_loop a s rest
              (say {| m_fs := fs'; m_st := m.(m_st); m_out := m.(m_out) |}
                   [Line (str "Conversation saved to "
                            ++ path_join (sessions_data_dir E) filename)])
        end
      else
        match ask a s m (Some prompt) with
        | (m1, Raised e) => (m1, rest, Raised e)
        | (m1, Returned reply) =>
            match py_append m1.(m_st).(st_heap) s.(s_history)
                    (turn r_assistant (of_opt reply)) with
            | Raised e => (m1, rest, Raised e)
            | Returned h2 =>
                interactive_loop a s rest
                  (say (with_heap m1 h2) [Line (str "rbot: " ++ format_opt reply)])
            end
        end
  end.

(** Lines 273-282: the prompt of a non-interactive run.  [stdin] is what
    [sys.stdin.readlines()] returns. *)
Definition resolve_prompt (a : cli_args) (fs : filesystem) (stdin : list pystr)
    : outcome (option pystr) :=
  if truthy (of_opt a.(arg_prompt)) then Returned a.(arg_prompt)
  else if truthy (of_opt a.(prompt_file)) then
    match fs_read fs (match a.(prompt_file) with Some f => f | None => [] end) with
    | Some text => Returned (Some (strip text))
    | None => Raised FileNotFoundError
    end
  else if a.(arg_stdin) then
    match stdin with
    | [] => Returned None
    | _ :: _ => Returned (Some (strip (concat stdin)))
    end
  else Returned None.

(** Lines 273-290 *)
Definition run_once (a : cli_args) (s : session) (stdin : list pystr) (m : mstate)
    : mstate * list pystr * outcome unit :=
  match resolve_prompt a m.(m_fs) stdin with
  | Raised e => (m, stdin, Raised e)
  | Returned prompt =>
      let left := if truthy (of_opt a.(arg_prompt)) || truthy (of_opt a.(prompt_file))
                     || negb a.(arg_stdin)
                  then stdin else [] in
      match ask a s m prompt with
      | (m1, Raised e) => (m1, left, Raised e)
      | (m1, Returned reply) =>
          match reply with
          | None => (m1, left, Raised TypeError)
          | Some text => (say m1 [Line (structured text)], left, Returned tt)
          end
      end
  end.

(** Lines 199-290.  In an interactive run [stdin] holds what the
    successive calls of [input()] return. *)
Definition main (a : cli_args) (g : globals) (stdin : list pystr) (m : mstate)
    : mstate * list pystr * outcome unit :=
  if a.(list_saved) then (say m [SavedFiles], stdin, Returned tt)
  else
    match prepare a g m with
    | (m1, Raised e) => (m1, stdin, Raised e)
    | (m1, Returned s) =>
        if s.(s_interactive)
        then interactive_loop a s stdin (say m1 [Line (str "Entering interactive mode.")])
        else run_once a s stdin m1
    end.

End Main.

(* ================================================================== *)
(** ** Vocabulary of the properties *)

(** The requests transmitted between two states of a run. *)
Definition transmitted (before after : pstate) : list request :=
  skipn (length before.(st_sent)) after.(st_sent).

(** A Unicode scalar value: a code point that is not a surrogate. *)
Definition is_scalar (c : codepoint) : bool :=
  (c <? 55296) || ((57343 <? c) && (c <? 1114112)).

(** Text: a string of scalar values. *)
Definition is_text (s : pystr) : bool := forallb is_scalar s.

Fixpoint distinct (keys : list pystr) : bool :=
  match keys with
  | [] => true
  | k :: rest => negb (existsb (pystr_eqb k) rest) && distinct rest
  end.

(** The values whose strings are text; the keys of a dictionary are
    distinct, as they are in any Python dictionary. *)
Fixpoint well_formed (v : pyval) : bool :=
  match v with
  | PNone | PBool _ | PInt _ => true
  | PStr s => is_text s
  | PList l => forallb well_formed l
  | PDict d =>
      distinct (map fst d)
      && forallb (fun kv => is_text (fst kv) && well_formed (snd kv)) d
  end.

(** A valid history: a list of records with a role and a content, both text. *)
Definition valid_turn (v : pyval) : Prop :=
  exists role content,
    v = turn role (PStr content) /\ is_text role = true /\ is_text content = true.

Definition valid_history (h : list pyval) : Prop := Forall valid_turn h.

(** Fuel that is enough to decode the encoding of a value. *)
Fixpoint need (v : pyval) : nat :=
  match v with
  | PList l => S (list_sum (map (fun x => S (need x)) l))
  | PDict d => S (list_sum (map (fun kv => S (need (snd kv))) d))
  | _ => 1%nat
  end.

(** What may follow a number for it to end there and be an integer. *)
Definition ends_number (rest : pystr) : bool :=
  match rest with
  | [] => true
  | c :: _ => negb (is_digit c) && negb (c =? 46) && negb (c =? 101) && negb (c =? 69)
  end.

(** One item of an encoded dictionary. *)
Definition dumps_item (kv : pystr * pyval) : pystr :=
  encode_string (fst kv) ++ s_key_sep ++ dumps (snd kv).

(** What follows the first item of an encoded dictionary whose other items
    are [d], up to and including the closing brace. *)
Definition object_tail (d : list (pystr * pyval)) (rest : pystr) : pystr :=
  match d with
  | [] => 125 :: rest
  | _ :: _ => s_item_sep ++ join s_item_sep (map dumps_item d) ++ 125 :: rest
  end.

(** The number that a string of decimal digits writes, after [a]. *)
Definition digits_value (ds : pystr) (a : N) : N :=
  fold_left (fun a d => 10 * a + (d - 48)) ds a.

(** The encoding of [v] is decoded to [v], whatever follows it (as long as
    it does not continue a number). *)
Definition decodes (v : pyval) : Prop :=
  forall (fuel : nat) (rest : pystr),
    (need v <= fuel)%nat -> ends_number rest = true ->
    scan_once fuel (dumps v ++ rest) = Some (v, rest).

(** The space that the pattern allows on either side of the equals sign. *)
Definition optional_space (sp : pystr) : Prop := sp = [] \/ sp = [c_space].

(** [s] starts with a structured-output block whose delimited text is
    [inner]: the marker, the equals sign with its optional spaces, three
    quotes, [inner], three quotes. *)
Definition block_at (s inner : pystr) : Prop :=
  exists sp1 sp2 post,
    optional_space sp1 /\ optional_space sp2
    /\ s = s_OUTPUT ++ sp1 ++ [61] ++ sp2 ++ triple_quote ++ inner ++ triple_quote ++ post.

(** The block exactly as the specification writes it, without spaces. *)
Definition plain_block_at (s inner : pystr) : Prop :=
  exists post, s = s_OUTPUT ++ [61] ++ triple_quote ++ inner ++ triple_quote ++ post.

(* ================================================================== *)
(** ** Concrete surroundings, used to run the definitions *)

Module Fixtures.

Definition cause : pystr := Eval cbv in str "connection reset".
Definition hi : pystr := Eval cbv in str "Hi".
Definition be_concise : pystr := Eval cbv in str "Be concise".

(** A provider that streams three fragments, the second without content. *)
Definition streaming : providers :=
  {| openai_create := fun _ _ => Stream [Some (str "Hel"); None; Some (str "lo")] None;
     anthropic_completion := fun _ _ => Completion (str "ok") |}.

(** A provider that fails every call. *)
Definition failing : providers :=
  {| openai_create := fun _ _ => OpenAIFails (APIError cause);
     anthropic_completion := fun _ _ => AnthropicFails (APIError cause) |}.

(** A provider that honours [stream=False] with one whole payload. *)
Definition whole_payload : list (pystr * pyval) :=
  [(str "id", PStr (str "chatcmpl-1"));
   (str "choices",
    PList [PDict [(str "message",
                   PDict [(k_role, PStr r_assistant); (k_content, PStr (str "Hello"))])]])].

Definition unstreamed : providers :=
  {| openai_create := fun _ r =>
       if r.(o_stream) then Stream [Some (str "Hello")] None else Payload whole_payload;
     anthropic_completion := fun _ _ => Completion (str "ok") |}.

Definition no_keys : globals := {| openai_api_key := None; anthropic_api_key := None |}.

Definition empty_state : pstate := {| st_heap := []; st_sent := [] |}.
Definition empty_machine : mstate := {| m_fs := []; m_st := empty_state; m_out := [] |}.

Definition gpt4 : pystr := Eval cbv in str "gpt-4".
Definition claude : pystr := Eval cbv in str "claude-v1".

Definition catalogue (name : pystr) : option engine_config :=
  if pystr_eqb name e_openai
  then Some {| default_model := Some gpt4; api_key_name := None; api_key := Some None |}
  else if pystr_eqb name e_anthropic
  then Some {| default_model := Some claude; api_key_name := None; api_key := Some None |}
  else None.

Definition surroundings : environment :=
  {| getenv := fun _ => None;
     engines_config := catalogue;
     load_decorator_files := fun paths => (paths, paths);
     data_dir := str "/data";
     refuses := fun _ _ => None |}.

Definition args (e : pystr) : cli_args :=
  {| list_saved := false; arg_prompt := None; prompt_file := None; interactive := false;
     arg_stdin := false; decorator := []; load := None; engine := e; arg_model := None;
     temperature := 3 # 4; nodecorator := false |}.

Definition interactive_args (e : pystr) : cli_args :=
  {| list_saved := false; arg_prompt := None; prompt_file := None; interactive := true;
     arg_stdin := false; decorator := []; load := None; engine := e; arg_model := None;
     temperature := 3 # 4; nodecorator := false |}.

Definition loading_args (e name : pystr) : cli_args :=
  {| list_saved := false; arg_prompt := None; prompt_file := None; interactive := false;
     arg_stdin := false; decorator := [str "style.md"]; load := Some name; engine := e;
     arg_model := None; temperature := 3 # 4; nodecorator := false |}.

(** A run whose history object is the first of the heap. *)
Definition session_at_0 (m : pystr) (ds : list pystr) : session :=
  {| s_interactive := true; s_decorators := ds; s_history := 0%nat; s_model := m;
     s_globals := no_keys |}.

Definition machine_with (history : pyval) : mstate :=
  {| m_fs := []; m_st := {| st_heap := [history]; st_sent := [] |}; m_out := [] |}.

Definition demo : pystr := Eval cbv in str "demo.json".

Definition earlier : list pyval :=
  [system_turn be_concise; user_turn (str "Hello"); assistant_turn (str "Hello.")].

(** A machine on which the session [demo.json] has been saved. *)
Definition machine_with_session : mstate :=
  {| m_fs := fs_write [] (path_join (str "/data/sessions") demo) (dumps (PList earlier));
     m_st := empty_state; m_out := [] |}.

Definition result_42 : pystr := Eval cbv in str "Result: 42".

(** A reply whose block has a space on either side of the equals sign. *)
Definition spaced_reply : pystr :=
  Eval cbv in str "OUTPUT = " ++ triple_quote ++ str "x" ++ triple_quote.

Definition google : pystr := Eval cbv in str "google".

End Fixtures.

(* ================================================================== *)
(** ** Vocabulary of the further properties *)

(** A visible ASCII character or a space. *)
Definition printable (c : codepoint) : bool := (32 <=? c) && (c <=? 126).

(** The integers that the interpreter writes and reads in decimal: those of
    at most 4300 digits, the default limit of its conversions. *)
Definition within_digit_limit (z : Z) : bool := (Z.abs z <? 10 ^ 4300)%Z.

(** The values whose integers are within that limit. *)
Fixpoint modest (v : pyval) : bool :=
  match v with
  | PInt z => within_digit_limit z
  | PList l => forallb modest l
  | PDict d => forallb (fun kv => modest (snd kv)) d
  | _ => true
  end.

(* ================================================================== *)
(** ** More concrete surroundings *)

Module Samples.

(** A provider whose stream breaks after one fragment. *)
Definition breaking : providers :=
  {| openai_create := fun _ _ =>
       Stream [Some (str "Hel")] (Some (APIError Fixtures.cause));
     anthropic_completion := fun _ _ => AnthropicFails (APIError Fixtures.cause) |}.

Definition state_with (history : pyval) : pstate :=
  {| st_heap := [history]; st_sent := [] |}.

Definition hello : pystr := Eval cbv in str "Hello".
Definition again : pystr := Eval cbv in str "And again".
Definition shouted_save : pystr := Eval cbv in str "/SaVe ".
Definition other : pystr := Eval cbv in str "other.json".
Definition key_name : pystr := Eval cbv in str "OPENAI_API_KEY".
Definition secret : pystr := Eval cbv in str "sk-123".
Definition style : pystr := Eval cbv in str "style.md".
Definition facts : pystr := Eval cbv in str "facts.md".

(** A history whose last turn has no content and whose first has one field
    more than the program writes. *)
Definition odd_history : pyval :=
  PList [PDict [(k_role, PStr r_user); (k_content, PStr hello); (str "n", PInt (-12))];
         turn r_assistant PNone].

(** Surroundings with a credential in the environment, a default decorator
    and a blank line in [DECORATORS]. *)
Definition keyed_catalogue (name : pystr) : option engine_config :=
  if pystr_eqb name e_openai
  then Some {| default_model := Some Fixtures.gpt4; api_key_name := Some key_name;
               api_key := None |}
  else None.

Definition keyed : environment :=
  {| getenv := fun name =>
       if pystr_eqb name key_name then Some secret
       else if pystr_eqb name s_DECORATORS then Some (style ++ [c_newline; c_newline])
       else None;
     engines_config := keyed_catalogue;
     load_decorator_files := fun paths => (paths, paths);
     data_dir := str "/data";
     refuses := fun _ _ => None |}.

Definition prompt_args (e : pystr) (p : option pystr) (f : option pystr) (ds : list pystr)
    (nd : bool) : cli_args :=
  {| list_saved := false; arg_prompt := p; prompt_file := f; interactive := false;
     arg_stdin := false; decorator := ds; load := None; engine := e; arg_model := None;
     temperature := 3 # 4; nodecorator := nd |}.

(** A machine on which [demo.json] holds a JSON object, not a list. *)
Definition machine_with_object : mstate :=
  {| m_fs := fs_write [] (path_join (str "/data/sessions") Fixtures.demo)
               (dumps (PDict []));
     m_st := Fixtures.empty_state; m_out := [] |}.

Definition absolute : pystr := Eval cbv in str "/tmp/x.json".

(** The arguments of [Fixtures.loading_args] with a prompt and another
    decorator on the command line. *)
Definition loading_with_prompt (e name : pystr) : cli_args :=
  {| list_saved := false; arg_prompt := Some hello; prompt_file := None;
     interactive := false; arg_stdin := false; decorator := [facts]; load := Some name;
     engine := e; arg_model := None; temperature := 3 # 4; nodecorator := true |}.

Definition shouted_quit : pystr := Eval cbv in str "/QUIT".

(** A text of the kind a dataset file holds. *)
Definition capital : pystr := Eval cbv in str "The capital of France is Paris.".

(** Two names that do not name a file: one that is blank, one that ends
    with a slash. *)
Definition blank : pystr := [c_space].
Definition folder : pystr := Eval cbv in str "drafts/".

End Samples.

(* ================================================================== *)
(** * Properties *)

Unset Implicit Arguments.

(** ** Strings and the heap *)

Lemma pystr_eqb_refl (a : pystr) : pystr_eqb a a = true.
Proof.
  induction a as [|x a IH]; simpl; [reflexivity|].
  now rewrite N.eqb_refl, IH.
Qed.

Lemma pystr_eqb_eq (a b : pystr) : pystr_eqb a b = true <-> a = b.
Proof.
  split; [|intros ->; apply pystr_eqb_refl].
  revert b; induction a as [|x a IH]; intros [|y b]; simpl; try discriminate; auto.
  intros H. apply andb_true_iff in H as [Hx Hab].
  apply N.eqb_eq in Hx. now rewrite Hx, (IH b Hab).
Qed.

Lemma pystr_eqb_neq (a b : pystr) : pystr_eqb a b = false <-> a <> b.
Proof.
  split.
  - intros H E. apply pystr_eqb_eq in E. congruence.
  - intros H. destruct (pystr_eqb a b) eqn:E; [|reflexivity].
    apply pystr_eqb_eq in E. contradiction.
Qed.

Lemma heap_get_fresh (h : heap) (v : pyval) : heap_get (h ++ [v]) (length h) = v.
Proof. unfold heap_get. now rewrite nth_middle. Qed.

Lemma heap_get_old (h : heap) (v : pyval) (l : loc) :
  (l < length h)%nat -> heap_get (h ++ [v]) l = heap_get h l.
Proof. intros H. unfold heap_get. now rewrite app_nth1. Qed.

Lemma heap_set_length (h : heap) (l : loc) (v : pyval) :
  length (heap_set h l v) = length h.
Proof.
  revert l; induction h as [|x h IH]; intros [|l]; simpl; auto.
Qed.

Lemma heap_get_set_same (h : heap) (l : loc) (v : pyval) :
  (l < length h)%nat -> heap_get (heap_set h l v) l = v.
Proof.
  unfold heap_get. revert l; induction h as [|x h IH]; intros [|l] H; simpl in *; try lia; auto.
  apply IH. lia.
Qed.

Lemma heap_get_set_other (h : heap) (l l' : loc) (v : pyval) :
  l <> l' -> heap_get (heap_set h l v) l' = heap_get h l'.
Proof.
  unfold heap_get. revert l l'; induction h as [|x h IH]; intros [|l] [|l'] H; simpl; auto.
  contradiction.
Qed.

Lemma heap_set_set (h : heap) (l : loc) (v w : pyval) :
  heap_set (heap_set h l v) l w = heap_set h l w.
Proof.
  revert l; induction h as [|x h IH]; intros [|l]; simpl; auto.
  now rewrite IH.
Qed.

Lemma py_append_list (h : heap) (l : loc) (items : list pyval) (v : pyval) :
  heap_get h l = PList items ->
  py_append h l v = Returned (heap_set h l (PList (items ++ [v]))).
Proof. intros H. unfold py_append. now rewrite H. Qed.

Lemma append_decorators_list (decorators : list pystr) :
  forall (h : heap) (l : loc) (items : list pyval),
    (l < length h)%nat ->
    heap_get h l = PList items ->
    append_decorators h l decorators
    = Returned (heap_set h l (PList (items ++ map system_turn decorators))).
Proof.
  induction decorators as [|d ds IH]; intros h l items Hl Hget; simpl.
  - rewrite app_nil_r, <- Hget. f_equal.
    clear Hget. revert l Hl. induction h as [|x h IHh]; intros [|l] Hl; simpl in *; try lia; auto.
    unfold heap_get in *. simpl. f_equal. apply IHh. lia.
  - rewrite (py_append_list _ _ _ _ Hget).
    rewrite (IH _ l (items ++ [system_turn d])).
    + now rewrite heap_set_set, <- app_assoc.
    + now rewrite heap_set_length.
    + now apply heap_get_set_same.
Qed.

(** The list that [chat] builds when it is given no history. *)
Lemma chat_messages_built (h : heap) (prompt : option pystr) (decorators : list pystr) :
  chat_messages h prompt decorators None
  = Returned (heap_set (h ++ [PList []]) (length h)
                (PList (map system_turn decorators ++ [turn r_user (of_opt prompt)])),
              length h).
Proof.
  unfold chat_messages, heap_alloc.
  assert (Hl : (length h < length (h ++ [PList []]))%nat)
    by (rewrite length_app; simpl; lia).
  rewrite (append_decorators_list decorators _ _ _ Hl (heap_get_fresh h (PList []))).
  simpl app at 2.
  rewrite (py_append_list _ _ (map system_turn decorators) _).
  - now rewrite heap_set_set.
  - now apply heap_get_set_same.
Qed.

(** A history that is supplied and is not empty is used as it is. *)
Lemma chat_messages_supplied (h : heap) (prompt : option pystr) (decorators : list pystr)
    (l : loc) :
  truthy (heap_get h l) = true ->
  chat_messages h prompt decorators (Some l) = Returned (h, l).
Proof. intros H. unfold chat_messages. now rewrite H. Qed.

Lemma chat_messages_returns (h : heap) (prompt : option pystr) (decorators : list pystr)
    (history : option loc) :
  exists h' l, chat_messages h prompt decorators history = Returned (h', l)
               /\ (length h <= length h')%nat
               /\ forall l', (l' < length h)%nat -> heap_get h' l' = heap_get h l'.
Proof.
  assert (Hb := chat_messages_built h prompt decorators).
  assert (Hfresh : exists h' l, chat_messages h prompt decorators None = Returned (h', l)
               /\ (length h <= length h')%nat
               /\ forall l', (l' < length h)%nat -> heap_get h' l' = heap_get h l').
  { eexists _, _. split; [exact Hb|]. split.
    - rewrite heap_set_length, length_app. lia.
    - intros l' Hl'. rewrite heap_get_set_other by lia. now apply heap_get_old. }
  destruct history as [l|]; [|exact Hfresh].
  destruct (truthy (heap_get h l)) eqn:Ht.
  - exists h, l. split; [now apply chat_messages_supplied|]. split; auto.
  - unfold chat_messages in *. rewrite Ht. exact Hfresh.
Qed.

(** ** [chat] *)

Lemma skipn_length_app (A : Type) (a b : list A) : skipn (length a) (a ++ b) = b.
Proof. induction a; simpl; auto. Qed.

Lemma transmitted_app (st : pstate) (h : heap) (more : list request) :
  transmitted st {| st_heap := h; st_sent := st.(st_sent) ++ more |} = more.
Proof. unfold transmitted; simpl. apply skipn_length_app. Qed.

Lemma transmitted_none (st : pstate) : transmitted st st = [].
Proof. unfold transmitted. apply skipn_all. Qed.

Lemma accumulate_concat (fragments : list fragment) :
  forall response, accumulate response fragments
                   = response ++ concat (map fragment_text fragments).
Proof.
  induction fragments as [|f fs IH]; intros response; simpl.
  - now rewrite app_nil_r.
  - destruct f as [[|c s]|]; simpl; rewrite IH; auto.
    now rewrite <- app_assoc.
Qed.

Lemma chat_openai (P : providers) (G : globals) (st : pstate) (prompt : option pystr)
    (decorators : list pystr) (model : pystr) (max_tokens : Z) (stream : bool)
    (request_timeout : Z) (temp : Q) (history : option loc) :
  exists h l,
    chat_messages st.(st_heap) prompt decorators history = Returned (h, l)
    /\ chat P G st prompt decorators model max_tokens stream request_timeout temp history e_openai
       = let req := {| o_max_tokens := max_tokens; o_model := model;
                       o_request_timeout := request_timeout; o_stream := stream;
                       o_temperature := temp; o_messages := heap_get h l;
                       o_api_key := G.(openai_api_key) |} in
         ({| st_heap := h; st_sent := st.(st_sent) ++ [ToOpenAI req] |},
          match drain (P.(openai_create) st.(st_sent) req) with
          | Returned response => Returned (Some response)
          | Raised e => Raised e
          end).
Proof.
  destruct (chat_messages_returns st.(st_heap) prompt decorators history) as (h & l & Hm & _).
  exists h, l. split; [exact Hm|].
  unfold chat. rewrite pystr_eqb_refl, Hm. cbv zeta.
  now destruct (drain _).
Qed.

Lemma chat_anthropic (P : providers) (G : globals) (st : pstate) (prompt : option pystr)
    (decorators : list pystr) (model : pystr) (max_tokens : Z) (stream : bool)
    (request_timeout : Z) (temp : Q) (history : option loc) :
  chat P G st prompt decorators model max_tokens stream request_timeout temp history e_anthropic
  = let req := {| a_api_key := G.(anthropic_api_key);
                  a_prompt := HUMAN_PROMPT ++ [c_space] ++ format_opt prompt
                                ++ [c_space] ++ AI_PROMPT;
                  a_stop_sequences := [HUMAN_PROMPT];
                  a_model := model;
                  a_max_tokens_to_sample := max_tokens |} in
    ({| st_heap := st.(st_heap); st_sent := st.(st_sent) ++ [ToAnthropic req] |},
     match P.(anthropic_completion) st.(st_sent) req with
     | Completion text => Returned (Some text)
     | AnthropicFails e => Raised e
     end).
Proof.
  unfold chat.
  change (pystr_eqb e_anthropic e_openai) with false.
  rewrite pystr_eqb_refl. cbv zeta iota.
  now destruct (anthropic_completion _ _ _).
Qed.

Lemma chat_other_engine (P : providers) (G : globals) (st : pstate) (prompt : option pystr)
    (decorators : list pystr) (model : pystr) (max_tokens : Z) (stream : bool)
    (request_timeout : Z) (temp : Q) (history : option loc) (engine : pystr) :
  engine <> e_openai -> engine <> e_anthropic ->
  chat P G st prompt decorators model max_tokens stream request_timeout temp history engine
  = (st, Returned None).
Proof.
  intros H1 H2. unfold chat.
  apply pystr_eqb_neq in H1, H2. now rewrite H1, H2.
Qed.

(** [chat] never changes an object that exists when it is called: it only
    allocates, and it only adds to the requests sent. *)
Lemma chat_keeps_objects (P : providers) (G : globals) (st : pstate) (prompt : option pystr)
    (decorators : list pystr) (model : pystr) (max_tokens : Z) (stream : bool)
    (request_timeout : Z) (temp : Q) (history : option loc) (engine : pystr) :
  forall st' r,
    chat P G st prompt decorators model max_tokens stream request_timeout temp history engine
    = (st', r) ->
    (length st.(st_heap) <= length st'.(st_heap))%nat
    /\ (forall l, (l < length st.(st_heap))%nat ->
                  heap_get st'.(st_heap) l = heap_get st.(st_heap) l)
    /\ exists more, st'.(st_sent) = st.(st_sent) ++ more /\ (length more <= 1)%nat.
Proof.
  intros st' r H.
  destruct (pystr_eqb engine e_openai) eqn:Eo.
  - apply pystr_eqb_eq in Eo; subst engine.
    destruct (chat_openai P G st prompt decorators model max_tokens stream request_timeout
                temp history) as (h & l & Hm & Hc).
    rewrite Hc in H. cbv zeta in H. inversion H; subst; clear H. simpl.
    destruct (chat_messages_returns st.(st_heap) prompt decorators history)
      as (h' & l' & Hm' & Hlen & Hkeep).
    rewrite Hm in Hm'. inversion Hm'; subst.
    repeat split; auto. eexists; split; [reflexivity|simpl; lia].
  - destruct (pystr_eqb engine e_anthropic) eqn:Ea.
    + apply pystr_eqb_eq in Ea; subst engine.
      rewrite chat_anthropic in H. cbv zeta in H. inversion H; subst; clear H. simpl.
      repeat split; auto. eexists; split; [reflexivity|simpl; lia].
    + apply pystr_eqb_neq in Eo, Ea.
      rewrite chat_other_engine in H by assumption. inversion H; subst; clear H.
      repeat split; auto. exists []. rewrite app_nil_r. split; [reflexivity|simpl; lia].
Qed.

(** With streaming, the reply is the texts of the fragments, in the order
    they arrive, put together. *)
Lemma chat_stream_concatenates (P : providers) (G : globals) (st : pstate)
    (prompt : option pystr) (decorators : list pystr) (model : pystr) (max_tokens : Z)
    (stream : bool) (request_timeout : Z) (temp : Q) (history : option loc)
    (fragments : list fragment) :
  (forall sent req, P.(openai_create) sent req = Stream fragments None) ->
  snd (chat P G st prompt decorators model max_tokens stream request_timeout temp history
         e_openai)
  = Returned (Some (concat (map fragment_text fragments))).
Proof.
  intros HP.
  destruct (chat_openai P G st prompt decorators model max_tokens stream request_timeout
              temp history) as (h & l & _ & Hc).
  rewrite Hc. cbv zeta. simpl snd. rewrite HP. simpl.
  now rewrite accumulate_concat.
Qed.

(** C4, at the failing input: with [stream=False] the provider answers with
    one whole payload, a dictionary; the loop of lines 111-114 iterates over
    its keys and indexes the first key, a string, by ["choices"].  The call
    raises [TypeError] and no reply is returned. *)
Theorem chat_unstreamed_payload_raises (P : providers) (G : globals) (st : pstate)
    (prompt : option pystr) (decorators : list pystr) (model : pystr) (max_tokens : Z)
    (request_timeout : Z) (temp : Q) (history : option loc)
    (field : pystr * pyval) (fields : list (pystr * pyval)) :
  (forall sent req, req.(o_stream) = false ->
                    P.(openai_create) sent req = Payload (field :: fields)) ->
  snd (chat P G st prompt decorators model max_tokens false request_timeout temp history
         e_openai)
  = Raised TypeError.
Proof.
  intros HP.
  destruct (chat_openai P G st prompt decorators model max_tokens false request_timeout
              temp history) as (h & l & _ & Hc).
  rewrite Hc. cbv zeta. simpl snd. now rewrite HP.
Qed.

Lemma chat_unstreamed_payload_raises_witness :
  (forall sent req, req.(o_stream) = false ->
     Fixtures.unstreamed.(openai_create) sent req
     = Payload (hd (k_role, PNone) Fixtures.whole_payload :: tl Fixtures.whole_payload))
  /\ snd (chat Fixtures.unstreamed Fixtures.no_keys Fixtures.empty_state (Some Fixtures.hi) []
            Fixtures.gpt4 1000%Z false 15%Z (3 # 4) None e_openai)
     = Raised TypeError.
Proof.
  assert (Hp : forall sent req, req.(o_stream) = false ->
     Fixtures.unstreamed.(openai_create) sent req
     = Payload (hd (k_role, PNone) Fixtures.whole_payload :: tl Fixtures.whole_payload)).
  { intros sent req Hs. simpl. rewrite Hs. reflexivity. }
  split; [exact Hp|].
  exact (chat_unstreamed_payload_raises Fixtures.unstreamed Fixtures.no_keys
           Fixtures.empty_state (Some Fixtures.hi) [] Fixtures.gpt4 1000%Z 15%Z (3 # 4) None
           _ _ Hp).
Defined.

(** C8, at the failing input: for an engine name that is neither ["openai"]
    nor ["anthropic"] neither branch of lines 82-125 is taken; nothing is
    sent and the call returns [None]. *)
Theorem chat_unknown_engine_returns_none (P : providers) (G : globals) (st : pstate)
    (prompt : option pystr) (decorators : list pystr) (model : pystr) (max_tokens : Z)
    (stream : bool) (request_timeout : Z) (temp : Q) (history : option loc)
    (engine : pystr) :
  engine <> e_openai -> engine <> e_anthropic ->
  chat P G st prompt decorators model max_tokens stream request_timeout temp history engine
  = (st, Returned None).
Proof. apply chat_other_engine. Qed.

Lemma chat_unknown_engine_returns_none_witness :
  Fixtures.google <> e_openai /\ Fixtures.google <> e_anthropic
  /\ chat Fixtures.streaming Fixtures.no_keys Fixtures.empty_state (Some Fixtures.hi) []
       Fixtures.gpt4 1000%Z true 15%Z (3 # 4) None Fixtures.google
     = (Fixtures.empty_state, Returned None).
Proof.
  assert (H1 : Fixtures.google <> e_openai) by discriminate.
  assert (H2 : Fixtures.google <> e_anthropic) by discriminate.
  split; [exact H1|]. split; [exact H2|].
  exact (chat_unknown_engine_returns_none Fixtures.streaming Fixtures.no_keys
           Fixtures.empty_state (Some Fixtures.hi) [] Fixtures.gpt4 1000%Z true 15%Z (3 # 4)
           None Fixtures.google H1 H2).
Defined.

(** C10: with the engine ["anthropic"], two calls of [chat] that agree on
    [prompt], [model] and [max_tokens] transmit the same request, whatever
    their decorators, history, temperature, [stream] and [request_timeout]
    are, whatever the heap holds and whatever was sent before. *)
Theorem anthropic_request_noninterference (P1 P2 : providers) (G : globals)
    (st1 st2 : pstate) (prompt : option pystr) (model : pystr) (max_tokens : Z)
    (decorators1 decorators2 : list pystr) (history1 history2 : option loc)
    (temp1 temp2 : Q) (stream1 stream2 : bool) (request_timeout1 request_timeout2 : Z) :
  transmitted st1
    (fst (chat P1 G st1 prompt decorators1 model max_tokens stream1 request_timeout1 temp1
            history1 e_anthropic))
  = transmitted st2
      (fst (chat P2 G st2 prompt decorators2 model max_tokens stream2 request_timeout2 temp2
              history2 e_anthropic)).
Proof.
  rewrite !chat_anthropic. cbv zeta. simpl fst.
  now rewrite !transmitted_app.
Qed.

(** ** [main]: asking *)

Lemma ask_unfold (P : providers) (a : cli_args) (s : session) (m : mstate)
    (H : list pyval) (prompt : option pystr) :
  heap_get m.(m_st).(st_heap) s.(s_history) = PList H ->
  ask P a s m prompt
  = (with_st m
       (fst (chat P s.(s_globals)
               {| st_heap := heap_set m.(m_st).(st_heap) s.(s_history)
                               (PList (H ++ [turn r_user (of_opt prompt)]));
                  st_sent := m.(m_st).(st_sent) |}
               prompt s.(s_decorators) s.(s_model) 1000%Z true 15%Z a.(temperature)
               (Some s.(s_history)) a.(engine))),
     snd (chat P s.(s_globals)
            {| st_heap := heap_set m.(m_st).(st_heap) s.(s_history)
                            (PList (H ++ [turn r_user (of_opt prompt)]));
               st_sent := m.(m_st).(st_sent) |}
            prompt s.(s_decorators) s.(s_model) 1000%Z true 15%Z a.(temperature)
            (Some s.(s_history)) a.(engine))).
Proof.
  intros Hget. unfold ask. rewrite (py_append_list _ _ _ _ Hget).
  unfold with_heap. simpl m_st.
  now destruct (chat _ _ _ _ _ _ _ _ _ _ _ _).
Qed.

(** After [ask] the history object holds the history it held, followed by
    the user turn; the other objects are as they were. *)
Lemma ask_history (P : providers) (a : cli_args) (s : session) (m : mstate)
    (H : list pyval) (prompt : option pystr) :
  (s.(s_history) < length m.(m_st).(st_heap))%nat ->
  heap_get m.(m_st).(st_heap) s.(s_history) = PList H ->
  heap_get (fst (ask P a s m prompt)).(m_st).(st_heap) s.(s_history)
  = PList (H ++ [turn r_user (of_opt prompt)])
  /\ (forall l, (l < length m.(m_st).(st_heap))%nat -> l <> s.(s_history) ->
        heap_get (fst (ask P a s m prompt)).(m_st).(st_heap) l
        = heap_get m.(m_st).(st_heap) l)
  /\ (length m.(m_st).(st_heap) <= length (fst (ask P a s m prompt)).(m_st).(st_heap))%nat
  /\ (fst (ask P a s m prompt)).(m_out) = m.(m_out)
  /\ (fst (ask P a s m prompt)).(m_fs) = m.(m_fs).
Proof.
  intros Hl Hget. rewrite (ask_unfold P a s m H prompt Hget). simpl fst.
  destruct (chat P s.(s_globals)
              {| st_heap := heap_set m.(m_st).(st_heap) s.(s_history)
                              (PList (H ++ [turn r_user (of_opt prompt)]));
                 st_sent := m.(m_st).(st_sent) |}
              prompt s.(s_decorators) s.(s_model) 1000%Z true 15%Z a.(temperature)
              (Some s.(s_history)) a.(engine)) as [st2 r] eqn:Hc.
  apply chat_keeps_objects in Hc. simpl in Hc.
  rewrite heap_set_length in Hc. destruct Hc as (Hlen & Hkeep & _).
  simpl. repeat split; auto.
  - rewrite Hkeep by exact Hl. now apply heap_get_set_same.
  - intros l Hl' Hne. rewrite Hkeep by exact Hl'. apply heap_get_set_other. congruence.
Qed.

Lemma ask_openai (P : providers) (a : cli_args) (s : session) (m : mstate)
    (H : list pyval) (prompt : option pystr) :
  a.(engine) = e_openai ->
  (s.(s_history) < length m.(m_st).(st_heap))%nat ->
  heap_get m.(m_st).(st_heap) s.(s_history) = PList H ->
  ask P a s m prompt
  = (with_st m
       {| st_heap := heap_set m.(m_st).(st_heap) s.(s_history)
                       (PList (H ++ [turn r_user (of_opt prompt)]));
          st_sent := m.(m_st).(st_sent)
            ++ [ToOpenAI {| o_max_tokens := 1000; o_model := s.(s_model);
                            o_request_timeout := 15; o_stream := true;
                            o_temperature := a.(temperature);
                            o_messages := PList (H ++ [turn r_user (of_opt prompt)]);
                            o_api_key := s.(s_globals).(openai_api_key) |}] |},
     match drain (P.(openai_create) m.(m_st).(st_sent)
                    {| o_max_tokens := 1000; o_model := s.(s_model);
                       o_request_timeout := 15; o_stream := true;
                       o_temperature := a.(temperature);
                       o_messages := PList (H ++ [turn r_user (of_opt prompt)]);
                       o_api_key := s.(s_globals).(openai_api_key) |}) with
     | Returned response => Returned (Some response)
     | Raised e => Raised e
     end).
Proof.
  intros He Hl Hget. rewrite (ask_unfold P a s m H prompt Hget), He.
  destruct (chat_openai P s.(s_globals)
              {| st_heap := heap_set m.(m_st).(st_heap) s.(s_history)
                              (PList (H ++ [turn r_user (of_opt prompt)]));
                 st_sent := m.(m_st).(st_sent) |}
              prompt s.(s_decorators) s.(s_model) 1000%Z true 15%Z a.(temperature)
              (Some s.(s_history))) as (h & l & Hm & Hc).
  rewrite Hc. cbv zeta. simpl fst; simpl snd. simpl st_sent.
  simpl st_heap in Hm. rewrite chat_messages_supplied in Hm.
  - inversion Hm; subst h l. rewrite heap_get_set_same by exact Hl. reflexivity.
  - rewrite heap_get_set_same by exact Hl. simpl. now destruct H.
Qed.

Lemma ask_anthropic (P : providers) (a : cli_args) (s : session) (m : mstate)
    (H : list pyval) (prompt : option pystr) :
  a.(engine) = e_anthropic ->
  heap_get m.(m_st).(st_heap) s.(s_history) = PList H ->
  ask P a s m prompt
  = (with_st m
       {| st_heap := heap_set m.(m_st).(st_heap) s.(s_history)
                       (PList (H ++ [turn r_user (of_opt prompt)]));
          st_sent := m.(m_st).(st_sent)
            ++ [ToAnthropic {| a_api_key := s.(s_globals).(anthropic_api_key);
                               a_prompt := HUMAN_PROMPT ++ [c_space] ++ format_opt prompt
                                             ++ [c_space] ++ AI_PROMPT;
                               a_stop_sequences := [HUMAN_PROMPT];
                               a_model := s.(s_model);
                               a_max_tokens_to_sample := 1000 |}] |},
     match P.(anthropic_completion) m.(m_st).(st_sent)
             {| a_api_key := s.(s_globals).(anthropic_api_key);
                a_prompt := HUMAN_PROMPT ++ [c_space] ++ format_opt prompt
                              ++ [c_space] ++ AI_PROMPT;
                a_stop_sequences := [HUMAN_PROMPT];
                a_model := s.(s_model);
                a_max_tokens_to_sample := 1000 |} with
     | Completion text => Returned (Some text)
     | AnthropicFails e => Raised e
     end).
Proof.
  intros He Hget. rewrite (ask_unfold P a s m H prompt Hget), He.
  rewrite chat_anthropic. reflexivity.
Qed.

(** [ask] only adds to the requests sent. *)
Lemma ask_sent_grows (P : providers) (a : cli_args) (s : session) (m : mstate)
    (prompt : option pystr) :
  exists more, (fst (ask P a s m prompt)).(m_st).(st_sent) = m.(m_st).(st_sent) ++ more.
Proof.
  unfold ask.
  destruct (py_append _ _ _) as [h1|e]; [|exists []; simpl; now rewrite app_nil_r].
  destruct (chat _ _ _ _ _ _ _ _ _ _ _ _) as [st2 r] eqn:Hc.
  apply chat_keeps_objects in Hc. destruct Hc as (_ & _ & more & Hs & _).
  exists more. exact Hs.
Qed.

(** C5: with the engine ["anthropic"], the prompt string that is transmitted
    is the human marker, a space, the content of the latest user turn (the
    prompt that [main] has just appended to the history), a space and the
    assistant marker; nothing of the history before that turn is in it.  The
    stop sequences are the human marker alone.  The last part is [chat] on
    its own: the request is the same for every history and every list of
    decorators. *)
Theorem anthropic_sends_latest_user_turn (P : providers) (a : cli_args) (s : session)
    (m : mstate) (H : list pyval) (prompt : pystr) :
  a.(engine) = e_anthropic ->
  (s.(s_history) < length m.(m_st).(st_heap))%nat ->
  heap_get m.(m_st).(st_heap) s.(s_history) = PList H ->
  heap_get (fst (ask P a s m (Some prompt))).(m_st).(st_heap) s.(s_history)
  = PList (H ++ [user_turn prompt])
  /\ transmitted m.(m_st) (fst (ask P a s m (Some prompt))).(m_st)
     = [ToAnthropic {| a_api_key := s.(s_globals).(anthropic_api_key);
                       a_prompt := HUMAN_PROMPT ++ [c_space] ++ prompt ++ [c_space]
                                     ++ AI_PROMPT;
                       a_stop_sequences := [HUMAN_PROMPT];
                       a_model := s.(s_model);
                       a_max_tokens_to_sample := 1000 |}]
  /\ (forall (P' : providers) (G : globals) (st : pstate) (decorators : list pystr)
             (model : pystr) (max_tokens : Z) (stream : bool) (request_timeout : Z)
             (temp : Q) (history : option loc),
        transmitted st
          (fst (chat P' G st (Some prompt) decorators model max_tokens stream
                  request_timeout temp history e_anthropic))
        = [ToAnthropic {| a_api_key := G.(anthropic_api_key);
                          a_prompt := HUMAN_PROMPT ++ [c_space] ++ prompt ++ [c_space]
                                        ++ AI_PROMPT;
                          a_stop_sequences := [HUMAN_PROMPT];
                          a_model := model;
                          a_max_tokens_to_sample := max_tokens |}]).
Proof.
  intros He Hl Hget. split; [|split].
  - apply (ask_history P a s m H (Some prompt) Hl Hget).
  - rewrite (ask_anthropic P a s m H (Some prompt) He Hget). simpl fst.
    unfold with_st. simpl m_st. now rewrite transmitted_app.
  - intros. rewrite chat_anthropic. cbv zeta. simpl fst. now rewrite transmitted_app.
Qed.

Lemma anthropic_sends_latest_user_turn_witness :
  (Fixtures.args e_anthropic).(engine) = e_anthropic
  /\ ((Fixtures.session_at_0 Fixtures.claude []).(s_history)
      < length (Fixtures.machine_with
                  (PList [system_turn Fixtures.be_concise])).(m_st).(st_heap))%nat
  /\ transmitted (Fixtures.machine_with (PList [system_turn Fixtures.be_concise])).(m_st)
       (fst (ask Fixtures.streaming (Fixtures.args e_anthropic)
               (Fixtures.session_at_0 Fixtures.claude [])
               (Fixtures.machine_with (PList [system_turn Fixtures.be_concise]))
               (Some Fixtures.hi))).(m_st)
     = [ToAnthropic {| a_api_key := None;
                       a_prompt := HUMAN_PROMPT ++ [c_space] ++ Fixtures.hi ++ [c_space]
                                     ++ AI_PROMPT;
                       a_stop_sequences := [HUMAN_PROMPT];
                       a_model := Fixtures.claude;
                       a_max_tokens_to_sample := 1000 |}].
Proof.
  assert (H1 : (Fixtures.args e_anthropic).(engine) = e_anthropic) by reflexivity.
  assert (H2 : ((Fixtures.session_at_0 Fixtures.claude []).(s_history)
      < length (Fixtures.machine_with
                  (PList [system_turn Fixtures.be_concise])).(m_st).(st_heap))%nat)
    by (simpl; lia).
  split; [exact H1|]. split; [exact H2|].
  exact (proj1 (proj2 (anthropic_sends_latest_user_turn Fixtures.streaming
           (Fixtures.args e_anthropic) (Fixtures.session_at_0 Fixtures.claude [])
           (Fixtures.machine_with (PList [system_turn Fixtures.be_concise]))
           [system_turn Fixtures.be_concise] Fixtures.hi H1 H2 eq_refl))).
Defined.

(** ** [main]: the interactive loop *)

Lemma interactive_loop_prompt (E : environment) (P : providers) (a : cli_args) (s : session)
    (prompt : pystr) (rest : list pystr) (m : mstate) :
  lower prompt <> s_quit ->
  startswith (lower prompt) s_save = false ->
  interactive_loop E P a s (prompt :: rest) m
  = match ask P a s m (Some prompt) with
    | (m1, Raised e) => (m1, rest, Raised e)
    | (m1, Returned reply) =>
        match py_append m1.(m_st).(st_heap) s.(s_history)
                (turn r_assistant (of_opt reply)) with
        | Raised e => (m1, rest, Raised e)
        | Returned h2 =>
            interactive_loop E P a s rest
              (say (with_heap m1 h2) [Line (str "rbot: " ++ format_opt reply)])
        end
    end.
Proof.
  intros Hq Hs. cbn [interactive_loop].
  apply pystr_eqb_neq in Hq. now rewrite Hq, Hs.
Qed.

(** The loop only adds to the requests sent. *)
Lemma interactive_loop_sent_grows (E : environment) (P : providers) (a : cli_args)
    (s : session) (inputs : list pystr) :
  forall m, exists more,
    (fst (fst (interactive_loop E P a s inputs m))).(m_st).(st_sent)
    = m.(m_st).(st_sent) ++ more.
Proof.
  induction inputs as [|prompt rest IH]; intros m.
  - exists []. simpl. now rewrite app_nil_r.
  - cbn [interactive_loop].
    destruct (pystr_eqb (lower prompt) s_quit).
    { exists []. simpl. now rewrite app_nil_r. }
    destruct (startswith (lower prompt) s_save).
    { destruct (save_session _ _ _ _) as [fs'|e].
      - match goal with |- context [interactive_loop E P a s rest ?m0] =>
          destruct (IH m0) as [more Hm] end.
        exists more. exact Hm.
      - exists []. simpl. now rewrite app_nil_r. }
    destruct (ask_sent_grows P a s m (Some prompt)) as [more1 H1].
    destruct (ask P a s m (Some prompt)) as [m1 [reply|e]]; simpl fst in H1.
    + destruct (py_append _ _ _) as [h2|e].
      * match goal with |- context [interactive_loop E P a s rest ?m0] =>
          destruct (IH m0) as [more2 H2] end.
        exists (more1 ++ more2). rewrite H2. simpl. rewrite H1. now rewrite app_assoc.
      * exists more1. exact H1.
    + exists more1. exact H1.
Qed.

(** ** [main]: the start of a run that loads a session *)

Lemma prepare_loading (E : environment) (a : cli_args) (g g' : globals) (m : mstate)
    (n model : pystr) (v : pyval) :
  a.(load) = Some n -> n <> [] ->
  load_session (sessions_data_dir E) m.(m_fs) n = Returned v ->
  resolve_model E a = Returned model ->
  credentials E a g = Returned g' ->
  prepare E a g m
  = ({| m_fs := m.(m_fs);
        m_st := {| st_heap := m.(m_st).(st_heap) ++ [PList []] ++ [v];
                   st_sent := m.(m_st).(st_sent) |};
        m_out := m.(m_out)
                 ++ [Line (str "No decorator files are being used.")]
                 ++ [Line (str "Using AI engine " ++ a.(engine) ++ str " with model " ++ model);
                     TemperatureLine a.(temperature)] |},
     Returned {| s_interactive := true; s_decorators := []; s_model := model;
                 s_history := S (length m.(m_st).(st_heap)); s_globals := g' |}).
Proof.
  intros Hload Hn Hfile Hmodel Hcred.
  unfold prepare. rewrite Hload.
  assert (Ht : truthy (of_opt (Some n)) = true) by (destruct n; [contradiction|reflexivity]).
  rewrite Ht. unfold read_decorators. cbv iota. simpl decorator_report.
  unfold heap_alloc. simpl append_decorators. simpl m_fs. rewrite Hfile.
  rewrite Hmodel, Hcred.
  unfold say, with_heap. simpl. rewrite length_app. simpl.
  rewrite <- !app_assoc. simpl.
  replace (length m.(m_st).(st_heap) + 1)%nat with (S (length m.(m_st).(st_heap))) by lia.
  reflexivity.
Qed.

(** C2: a run that loads a session whose file holds the history [H], and
    whose first input line is a prompt (neither of the two commands).  The
    run starts with [H] for history and without decorators: those named on
    the command line are not read and no system turn is added for them.  The
    history handed to [chat] for the prompt is [H] followed by one user turn
    with the prompt.  With the engine that is sent the history, the first
    request transmitted has exactly that for messages. *)
Theorem loaded_history_then_prompt (E : environment) (P : providers) (a : cli_args)
    (g g' : globals) (m : mstate) (n model prompt : pystr) (rest : list pystr)
    (H : list pyval) :
  a.(list_saved) = false ->
  a.(load) = Some n -> n <> [] ->
  load_session (sessions_data_dir E) m.(m_fs) n = Returned (PList H) ->
  resolve_model E a = Returned model ->
  credentials E a g = Returned g' ->
  lower prompt <> s_quit ->
  startswith (lower prompt) s_save = false ->
  (exists m1 s,
     prepare E a g m = (m1, Returned s)
     /\ s.(s_interactive) = true
     /\ s.(s_decorators) = []
     /\ heap_get m1.(m_st).(st_heap) s.(s_history) = PList H
     /\ heap_get (fst (ask P a s m1 (Some prompt))).(m_st).(st_heap) s.(s_history)
        = PList (H ++ [user_turn prompt]))
  /\ (a.(engine) = e_openai ->
      exists more,
        transmitted m.(m_st) (fst (fst (main E P a g (prompt :: rest) m))).(m_st)
        = ToOpenAI {| o_max_tokens := 1000; o_model := model; o_request_timeout := 15;
                      o_stream := true; o_temperature := a.(temperature);
                      o_messages := PList (H ++ [user_turn prompt]);
                      o_api_key := g'.(openai_api_key) |} :: more).
Proof.
  intros Hls Hload Hn Hfile Hmodel Hcred Hq Hs.
  assert (Hprep := prepare_loading E a g g' m n model (PList H) Hload Hn Hfile Hmodel Hcred).
  assert (Hcell : forall (h : heap) (v : pyval),
             heap_get (h ++ [PList []] ++ [v]) (S (length h)) = v).
  { intros h v. unfold heap_get. rewrite app_nth2 by lia.
    replace (S (length h) - length h)%nat with 1%nat by lia. reflexivity. }
  split.
  - eexists _, _. split; [exact Hprep|]. simpl s_history. simpl s_decorators.
    simpl s_interactive. repeat split.
    + apply Hcell.
    + apply ask_history; simpl.
      * rewrite !length_app. simpl. lia.
      * apply Hcell.
  - intros He. unfold main. rewrite Hls, Hprep.
    cbv iota beta. simpl s_interactive. cbv iota.
    rewrite (interactive_loop_prompt E P a _ prompt rest _ Hq Hs).
    rewrite (ask_openai P a _ _ H (Some prompt) He).
    2: { simpl. rewrite length_app. simpl. lia. }
    2: { simpl. apply Hcell. }
    simpl s_model. simpl s_globals. simpl s_history. simpl of_opt.
    set (req := ToOpenAI _).
    assert (Hskip : forall (h : heap) (more : list request),
               transmitted m.(m_st)
                 {| st_heap := h; st_sent := (m.(m_st).(st_sent) ++ [req]) ++ more |}
               = req :: more).
    { intros h more. unfold transmitted. simpl st_sent.
      rewrite <- app_assoc. now rewrite skipn_length_app. }
    destruct (drain _) as [response|e].
    + simpl m_st. simpl st_heap.
      match goal with |- context [py_append ?h ?l ?v] =>
        destruct (py_append h l v) as [h2|e] end.
      * match goal with |- context [interactive_loop E P a ?s rest ?m0] =>
          destruct (interactive_loop_sent_grows E P a s rest m0) as [more Hmore] end.
        exists more. unfold transmitted. rewrite Hmore. simpl st_sent.
        rewrite <- app_assoc. now rewrite skipn_length_app.
      * exists []. simpl fst. unfold with_st. simpl m_st.
        rewrite <- (app_nil_r (_ ++ [req])). apply Hskip.
    + exists []. simpl fst. unfold with_st. simpl m_st.
      rewrite <- (app_nil_r (_ ++ [req])). apply Hskip.
Qed.

Lemma loaded_history_then_prompt_witness :
  (Fixtures.loading_args e_openai Fixtures.demo).(list_saved) = false
  /\ (Fixtures.loading_args e_openai Fixtures.demo).(load) = Some Fixtures.demo
  /\ Fixtures.demo <> []
  /\ load_session (sessions_data_dir Fixtures.surroundings)
       Fixtures.machine_with_session.(m_fs) Fixtures.demo
     = Returned (PList Fixtures.earlier)
  /\ lower Fixtures.hi <> s_quit
  /\ startswith (lower Fixtures.hi) s_save = false
  /\ exists more,
       transmitted Fixtures.machine_with_session.(m_st)
         (fst (fst (main Fixtures.surroundings Fixtures.streaming
                      (Fixtures.loading_args e_openai Fixtures.demo) Fixtures.no_keys
                      [Fixtures.hi; s_quit] Fixtures.machine_with_session))).(m_st)
       = ToOpenAI {| o_max_tokens := 1000; o_model := Fixtures.gpt4;
                     o_request_timeout := 15; o_stream := true; o_temperature := 3 # 4;
                     o_messages := PList (Fixtures.earlier ++ [user_turn Fixtures.hi]);
                     o_api_key := None |} :: more.
Proof.
  assert (H1 : (Fixtures.loading_args e_openai Fixtures.demo).(list_saved) = false)
    by reflexivity.
  assert (H2 : (Fixtures.loading_args e_openai Fixtures.demo).(load) = Some Fixtures.demo)
    by reflexivity.
  assert (H3 : Fixtures.demo <> []) by discriminate.
  assert (H4 : load_session (sessions_data_dir Fixtures.surroundings)
                 Fixtures.machine_with_session.(m_fs) Fixtures.demo
               = Returned (PList Fixtures.earlier)) by (vm_compute; reflexivity).
  assert (H5 : resolve_model Fixtures.surroundings
                 (Fixtures.loading_args e_openai Fixtures.demo) = Returned Fixtures.gpt4)
    by reflexivity.
  assert (H6 : credentials Fixtures.surroundings
                 (Fixtures.loading_args e_openai Fixtures.demo) Fixtures.no_keys
               = Returned Fixtures.no_keys) by reflexivity.
  assert (H8 : lower Fixtures.hi <> s_quit) by (vm_compute; discriminate).
  assert (H9 : startswith (lower Fixtures.hi) s_save = false) by (vm_compute; reflexivity).
  repeat (split; [assumption|]).
  exact (proj2 (loaded_history_then_prompt Fixtures.surroundings Fixtures.streaming
                  (Fixtures.loading_args e_openai Fixtures.demo) Fixtures.no_keys
                  Fixtures.no_keys Fixtures.machine_with_session Fixtures.demo Fixtures.gpt4
                  Fixtures.hi [s_quit] Fixtures.earlier H1 H2 H3 H4 H5 H6 H8 H9) eq_refl).
Defined.

(** ** [main]: a failure of the provider *)

(** C6, as the code has it: when the dispatch of a prompt raises [e] in the
    interactive loop, the loop ends there with [e] itself: the exception is
    not caught, not wrapped and not reported, and the input that follows is
    not read.  At that point the history object holds what it held followed
    by the user turn of the prompt, no assistant turn has been added, the
    other objects, the files and the output are as they were.  The last part:
    the exception is the one the provider library raised. *)
Theorem dispatch_failure_ends_loop (E : environment) (P : providers) (a : cli_args)
    (s : session) (m : mstate) (H : list pyval) (prompt : pystr) (rest : list pystr)
    (e : exn) :
  (s.(s_history) < length m.(m_st).(st_heap))%nat ->
  heap_get m.(m_st).(st_heap) s.(s_history) = PList H ->
  lower prompt <> s_quit ->
  startswith (lower prompt) s_save = false ->
  snd (ask P a s m (Some prompt)) = Raised e ->
  interactive_loop E P a s (prompt :: rest) m
  = (fst (ask P a s m (Some prompt)), rest, Raised e)
  /\ heap_get (fst (ask P a s m (Some prompt))).(m_st).(st_heap) s.(s_history)
     = PList (H ++ [user_turn prompt])
  /\ (forall l, (l < length m.(m_st).(st_heap))%nat -> l <> s.(s_history) ->
        heap_get (fst (ask P a s m (Some prompt))).(m_st).(st_heap) l
        = heap_get m.(m_st).(st_heap) l)
  /\ (fst (ask P a s m (Some prompt))).(m_out) = m.(m_out)
  /\ (fst (ask P a s m (Some prompt))).(m_fs) = m.(m_fs)
  /\ (forall e0,
        (forall sent req, P.(openai_create) sent req = OpenAIFails e0) ->
        (forall sent req, P.(anthropic_completion) sent req = AnthropicFails e0) ->
        e = e0).
Proof.
  intros Hl Hget Hq Hs Hraise.
  destruct (ask_history P a s m H (Some prompt) Hl Hget) as (Hh & Hkeep & _ & Hout & Hfs).
  split; [|repeat split; auto].
  - rewrite (interactive_loop_prompt E P a s prompt rest m Hq Hs).
    destruct (ask P a s m (Some prompt)) as [m1 r]. simpl in Hraise. now subst r.
  - intros e0 Ho Ha.
    rewrite (ask_unfold P a s m H (Some prompt) Hget) in Hraise. simpl snd in Hraise.
    destruct (pystr_eqb a.(engine) e_openai) eqn:Eo.
    + apply pystr_eqb_eq in Eo. rewrite Eo in Hraise.
      match type of Hraise with snd (chat ?P ?G ?st ?p ?d ?mo ?mt ?sm ?rt ?t ?h _) = _ =>
        destruct (chat_openai P G st p d mo mt sm rt t h) as (h' & l' & _ & Hc) end.
      rewrite Hc in Hraise. cbv zeta in Hraise. simpl snd in Hraise.
      rewrite Ho in Hraise. simpl in Hraise. congruence.
    + destruct (pystr_eqb a.(engine) e_anthropic) eqn:Ea.
      * apply pystr_eqb_eq in Ea. rewrite Ea, chat_anthropic in Hraise.
        cbv zeta in Hraise. simpl snd in Hraise. rewrite Ha in Hraise. congruence.
      * apply pystr_eqb_neq in Eo, Ea.
        rewrite chat_other_engine in Hraise by assumption. discriminate.
Qed.

Lemma dispatch_failure_ends_loop_witness :
  ((Fixtures.session_at_0 Fixtures.gpt4 []).(s_history)
   < length (Fixtures.machine_with (PList Fixtures.earlier)).(m_st).(st_heap))%nat
  /\ lower Fixtures.hi <> s_quit
  /\ startswith (lower Fixtures.hi) s_save = false
  /\ snd (ask Fixtures.failing (Fixtures.interactive_args e_openai)
            (Fixtures.session_at_0 Fixtures.gpt4 [])
            (Fixtures.machine_with (PList Fixtures.earlier)) (Some Fixtures.hi))
     = Raised (APIError Fixtures.cause)
  /\ interactive_loop Fixtures.surroundings Fixtures.failing
       (Fixtures.interactive_args e_openai) (Fixtures.session_at_0 Fixtures.gpt4 [])
       [Fixtures.hi; s_quit] (Fixtures.machine_with (PList Fixtures.earlier))
     = (fst (ask Fixtures.failing (Fixtures.interactive_args e_openai)
               (Fixtures.session_at_0 Fixtures.gpt4 [])
               (Fixtures.machine_with (PList Fixtures.earlier)) (Some Fixtures.hi)),
        [s_quit], Raised (APIError Fixtures.cause)).
Proof.
  assert (H1 : ((Fixtures.session_at_0 Fixtures.gpt4 []).(s_history)
                < length (Fixtures.machine_with (PList Fixtures.earlier)).(m_st).(st_heap))%nat)
    by (simpl; lia).
  assert (H3 : lower Fixtures.hi <> s_quit) by (vm_compute; discriminate).
  assert (H4 : startswith (lower Fixtures.hi) s_save = false) by (vm_compute; reflexivity).
  assert (H5 : snd (ask Fixtures.failing (Fixtures.interactive_args e_openai)
                      (Fixtures.session_at_0 Fixtures.gpt4 [])
                      (Fixtures.machine_with (PList Fixtures.earlier)) (Some Fixtures.hi))
               = Raised (APIError Fixtures.cause)) by (vm_compute; reflexivity).
  repeat (split; [assumption|]).
  exact (proj1 (dispatch_failure_ends_loop Fixtures.surroundings Fixtures.failing
                  (Fixtures.interactive_args e_openai)
                  (Fixtures.session_at_0 Fixtures.gpt4 [])
                  (Fixtures.machine_with (PList Fixtures.earlier)) Fixtures.earlier
                  Fixtures.hi [s_quit] (APIError Fixtures.cause) H1 eq_refl H3 H4 H5)).
Defined.

(** C6 as it is written fails: an interactive run whose provider fails on
    the first prompt.  The run ends with the exception of the provider; the
    line that follows, a quit command, is never read, and nothing about the
    failure is printed. *)
Lemma dispatch_failure_is_fatal :
  snd (main Fixtures.surroundings Fixtures.failing (Fixtures.interactive_args e_openai)
         Fixtures.no_keys [Fixtures.hi; s_quit] Fixtures.empty_machine)
  = Raised (APIError Fixtures.cause)
  /\ snd (fst (main Fixtures.surroundings Fixtures.failing
                 (Fixtures.interactive_args e_openai) Fixtures.no_keys
                 [Fixtures.hi; s_quit] Fixtures.empty_machine))
     = [s_quit]
  /\ (fst (fst (main Fixtures.surroundings Fixtures.failing
                  (Fixtures.interactive_args e_openai) Fixtures.no_keys
                  [Fixtures.hi; s_quit] Fixtures.empty_machine))).(m_out)
     = [Line (str "No decorator files are being used.");
        Line (str "Using AI engine openai with model gpt-4");
        TemperatureLine (3 # 4);
        Line (str "Entering interactive mode.")].
Proof. vm_compute. repeat split; reflexivity. Qed.

(** ** [main]: a run without a prompt *)


Lemma run_once_state (P : providers) (a : cli_args) (s : session) (stdin : list pystr)
    (m : mstate) (prompt : option pystr) :
  resolve_prompt a m.(m_fs) stdin = Returned prompt ->
  (fst (fst (run_once P a s stdin m))).(m_st) = (fst (ask P a s m prompt)).(m_st).
Proof.
  intros Hp. unfold run_once. rewrite Hp.
  destruct (ask P a s m prompt) as [m1 [[text|]|e]]; reflexivity.
Qed.




(** ** The structured-output pattern *)

Lemma startswith_iff (p : pystr) : forall s,
  startswith s p = true <-> exists post, s = p ++ post.
Proof.
  induction p as [|x p IH]; intros s; simpl.
  - split; [intros _; now exists s|intros _; now destruct s].
  - destruct s as [|y s].
    + split; [discriminate|intros [post H]; discriminate].
    + simpl. rewrite andb_true_iff, N.eqb_eq, IH. split.
      * intros [-> [post ->]]. now exists post.
      * intros [post H]. injection H as -> ->. split; [reflexivity|now exists post].
Qed.

Lemma strip_prefix_iff (p : pystr) : forall s r,
  strip_prefix p s = Some r <-> s = p ++ r.
Proof.
  induction p as [|x p IH]; intros s r; simpl.
  - split; [now intros [= ->]|now intros ->].
  - destruct s as [|y s]; [split; discriminate|].
    destruct (x =? y) eqn:Exy.
    + apply N.eqb_eq in Exy; subst y. rewrite IH. split; [now intros ->|now intros [= ->]].
    + apply N.eqb_neq in Exy. split; [discriminate|intros [= -> _]; contradiction].
Qed.

Lemma lazy_group_step (c : codepoint) (t : pystr) :
  lazy_group (c :: t)
  = if startswith (c :: t) triple_quote then Some []
    else match lazy_group t with
         | Some g => Some (c :: g)
         | None => None
         end.
Proof. reflexivity. Qed.

(** The group is followed by the three quotes, and it is the shortest text
    that is. *)
Lemma lazy_group_sound : forall s g,
  lazy_group s = Some g ->
  (exists post, s = g ++ triple_quote ++ post)
  /\ forall g' post', s = g' ++ triple_quote ++ post' -> (length g <= length g')%nat.
Proof.
  induction s as [|c t IH]; intros g H.
  - simpl in H. discriminate.
  - rewrite lazy_group_step in H.
    destruct (startswith (c :: t) triple_quote) eqn:Es.
    + injection H as <-. apply startswith_iff in Es as [post Hp].
      split; [now exists post|]. intros; simpl; lia.
    + destruct (lazy_group t) as [g0|] eqn:Eg; [|discriminate].
      injection H as <-. destruct (IH g0 eq_refl) as [[post Hp] Hmin].
      split; [exists post; now rewrite Hp|].
      intros [|c' g'] post' Hd.
      * assert (Hs : startswith (c :: t) triple_quote = true)
          by (apply startswith_iff; now exists post').
        congruence.
      * simpl in Hd. injection Hd as _ Hd. simpl. apply le_n_S. now apply (Hmin g' post').
Qed.

Lemma lazy_group_complete : forall g' post',
  exists g, lazy_group (g' ++ triple_quote ++ post') = Some g.
Proof.
  induction g' as [|c g' IH]; intros post'.
  - exists []. reflexivity.
  - destruct (IH post') as [g Hg].
    change ((c :: g') ++ triple_quote ++ post') with (c :: (g' ++ triple_quote ++ post')).
    rewrite lazy_group_step.
    destruct (startswith _ triple_quote); [now exists []|].
    rewrite Hg. now exists (c :: g).
Qed.

Lemma opt_space_iff (A : Type) (k : pystr -> option A) (s : pystr) (r : A) :
  (forall t, k (c_space :: t) = None) ->
  opt_space k s = Some r
  <-> exists sp s', optional_space sp /\ s = sp ++ s' /\ k s' = Some r.
Proof.
  intros Hk. unfold opt_space. split.
  - destruct s as [|c t].
    + intros H. exists [], []. repeat split; auto. now left.
    + destruct (c =? 32) eqn:Ec.
      * apply N.eqb_eq in Ec; subst c.
        change 32 with c_space. rewrite (Hk t).
        destruct (k t) eqn:Ekt; [|discriminate].
        intros [= ->]. exists [c_space], t. repeat split; auto. now right.
      * intros H. exists [], (c :: t). repeat split; auto. now left.
  - intros (sp & s' & [->| ->] & -> & Hr); simpl.
    + destruct s' as [|c t]; [exact Hr|].
      destruct (c =? 32) eqn:Ec; [|exact Hr].
      apply N.eqb_eq in Ec; subst c. change 32 with c_space in Hr.
      rewrite Hk in Hr. discriminate.
    + now rewrite Hr.
Qed.

Lemma match_here_iff (s g : pystr) :
  match_here s = Some g
  <-> exists sp1 sp2 rest,
        optional_space sp1 /\ optional_space sp2
        /\ s = s_OUTPUT ++ sp1 ++ [61] ++ sp2 ++ triple_quote ++ rest
        /\ lazy_group rest = Some g.
Proof.
  unfold match_here. split.
  - destruct (strip_prefix s_OUTPUT s) as [s1|] eqn:E1; [|discriminate].
    apply strip_prefix_iff in E1. subst s.
    intros H. apply opt_space_iff in H.
    2: { intros t. reflexivity. }
    destruct H as (sp1 & s2 & Hsp1 & -> & H).
    destruct s2 as [|c s3]; [discriminate|].
    destruct (c =? 61) eqn:Ec; [|discriminate].
    apply N.eqb_eq in Ec; subst c.
    apply opt_space_iff in H.
    2: { intros t. reflexivity. }
    destruct H as (sp2 & s4 & Hsp2 & -> & H).
    destruct (strip_prefix triple_quote s4) as [s5|] eqn:E5; [|discriminate].
    apply strip_prefix_iff in E5. subst s4.
    exists sp1, sp2, s5. repeat split; auto.
  - intros (sp1 & sp2 & rest & Hsp1 & Hsp2 & -> & Hg).
    assert (E1 : strip_prefix s_OUTPUT
                   (s_OUTPUT ++ sp1 ++ [61] ++ sp2 ++ triple_quote ++ rest)
                 = Some (sp1 ++ [61] ++ sp2 ++ triple_quote ++ rest))
      by now apply strip_prefix_iff.
    rewrite E1. apply opt_space_iff; [intros t; reflexivity|].
    exists sp1, ([61] ++ sp2 ++ triple_quote ++ rest). repeat split; auto.
    change ([61] ++ sp2 ++ triple_quote ++ rest) with (61 :: (sp2 ++ triple_quote ++ rest)).
    cbv beta iota. rewrite N.eqb_refl.
    apply opt_space_iff; [intros t; reflexivity|].
    exists sp2, (triple_quote ++ rest). repeat split; auto.
Qed.

(** The text before the group is determined by the string. *)
Lemma opener_unique (sp1 sp2 sp1' sp2' rest rest' : pystr) :
  optional_space sp1 -> optional_space sp2 ->
  optional_space sp1' -> optional_space sp2' ->
  s_OUTPUT ++ sp1 ++ [61] ++ sp2 ++ triple_quote ++ rest
  = s_OUTPUT ++ sp1' ++ [61] ++ sp2' ++ triple_quote ++ rest' ->
  rest = rest'.
Proof.
  intros [->| ->] [->| ->] [->| ->] [->| ->] H;
    apply app_inv_head in H; unfold triple_quote, c_quote, c_space in H; simpl in H;
    congruence.
Qed.

Lemma same_length_prefix (A : Type) (a b x y : list A) :
  a ++ x = b ++ y -> length a = length b -> a = b.
Proof.
  revert b; induction a as [|c a IH]; intros [|d b] H Hl; simpl in *; try discriminate; auto.
  injection H as -> H. f_equal. apply (IH b H). lia.
Qed.

(** What [match_here] finds is a block, with the shortest delimited text. *)
Lemma match_here_block (s g : pystr) :
  match_here s = Some g ->
  block_at s g /\ forall inner, block_at s inner -> (length g <= length inner)%nat.
Proof.
  intros H. apply match_here_iff in H as (sp1 & sp2 & rest & H1 & H2 & -> & Hg).
  apply lazy_group_sound in Hg as [[post Hp] Hmin]. split.
  - exists sp1, sp2, post. subst rest. repeat split; auto.
  - intros inner (sp1' & sp2' & post' & H1' & H2' & Hd).
    apply (opener_unique sp1 sp2 sp1' sp2' _ _ H1 H2 H1' H2') in Hd.
    now apply (Hmin inner post').
Qed.

Lemma block_is_matched (s inner : pystr) :
  block_at s inner -> exists g, match_here s = Some g.
Proof.
  intros (sp1 & sp2 & post & H1 & H2 & ->).
  destruct (lazy_group_complete inner post) as [g Hg].
  exists g. apply match_here_iff. exists sp1, sp2, (inner ++ triple_quote ++ post).
  repeat split; auto.
Qed.

Lemma block_shortest_unique (s g inner : pystr) :
  block_at s g -> block_at s inner -> length g = length inner -> g = inner.
Proof.
  intros (sp1 & sp2 & post & H1 & H2 & Hs) (sp1' & sp2' & post' & H1' & H2' & Hs') Hl.
  rewrite Hs in Hs'.
  apply (opener_unique sp1 sp2 sp1' sp2' _ _ H1 H2 H1' H2') in Hs'.
  now apply (same_length_prefix _ _ _ _ _ Hs').
Qed.

Lemma search_step (s : pystr) :
  search s
  = match match_here s with
    | Some g => Some g
    | None =>
        match s with
        | [] => None
        | _ :: t => search t
        end
    end.
Proof. destruct s; reflexivity. Qed.

(** [search] finds the first block of the reply, closed at the first
    closing quotes. *)
Lemma search_first_block : forall pre s inner,
  block_at s inner ->
  (forall pre' s' inner',
     pre ++ s = pre' ++ s' -> block_at s' inner' ->
     (length pre <= length pre')%nat
     /\ (length pre' = length pre -> (length inner <= length inner')%nat)) ->
  search (pre ++ s) = Some inner.
Proof.
  induction pre as [|c pre IH]; intros s inner Hb Hfirst.
  - simpl app. destruct (block_is_matched s inner Hb) as [g Hg].
    assert (Hs : search s = Some g) by (rewrite search_step; now rewrite Hg).
    rewrite Hs. f_equal.
    destruct (match_here_block s g Hg) as [Hbg Hmin].
    apply (block_shortest_unique s g inner Hbg Hb).
    apply Nat.le_antisymm; [now apply Hmin|].
    now apply (Hfirst [] s g eq_refl Hbg).
  - change ((c :: pre) ++ s) with (c :: (pre ++ s)). rewrite search_step.
    destruct (match_here (c :: pre ++ s)) as [g|] eqn:Hg.
    + apply match_here_block in Hg as [Hbg _].
      destruct (Hfirst [] (c :: pre ++ s) g eq_refl Hbg) as [Hle _]. simpl in Hle. lia.
    + apply (IH s inner Hb). intros pre' s' inner' Heq Hb'.
      destruct (Hfirst (c :: pre') s' inner') as [Hle Hsame]; auto.
      * simpl. now rewrite Heq.
      * simpl in *. split; [lia|]. intros Hl. apply Hsame. lia.
Qed.

Lemma search_no_block : forall reply,
  (forall pre s inner, reply = pre ++ s -> ~ block_at s inner) ->
  search reply = None.
Proof.
  induction reply as [|c t IH]; intros Hnone.
  - rewrite search_step. destruct (match_here []) as [g|] eqn:Hg; [|reflexivity].
    apply match_here_block in Hg as [Hb _]. now destruct (Hnone [] [] g eq_refl).
  - rewrite search_step. destruct (match_here (c :: t)) as [g|] eqn:Hg.
    + apply match_here_block in Hg as [Hb _]. now destruct (Hnone [] (c :: t) g eq_refl).
    + apply IH. intros pre s inner -> Hb.
      now apply (Hnone (c :: pre) s inner eq_refl).
Qed.

(** C7, as the code has it: the block may have one space on either side of
    its equals sign.  When the reply has such a block, what is emitted is the
    delimited text, stripped, of the first block of the reply, closed at the
    first closing quotes after its opening; when the reply has no such block,
    the reply is emitted as it is.  The reply of the scenario emits exactly
    [Result: 42].  The last part: this text is what a run that is not
    interactive prints, after what it has printed before. *)
Theorem structured_output_emitted (reply : pystr) :
  (forall pre s inner,
     reply = pre ++ s -> block_at s inner ->
     (forall pre' s' inner',
        reply = pre' ++ s' -> block_at s' inner' ->
        (length pre <= length pre')%nat
        /\ (length pre' = length pre -> (length inner <= length inner')%nat)) ->
     structured reply = strip inner)
  /\ ((forall pre s inner, reply = pre ++ s -> ~ block_at s inner) ->
      structured reply = reply)
  /\ structured (s_OUTPUT ++ [61] ++ triple_quote ++ Fixtures.result_42 ++ triple_quote)
     = Fixtures.result_42
  /\ (forall (P : providers) (a : cli_args) (s : session) (stdin : list pystr) (m : mstate)
             (prompt : option pystr),
        resolve_prompt a m.(m_fs) stdin = Returned prompt ->
        snd (ask P a s m prompt) = Returned (Some reply) ->
        snd (run_once P a s stdin m) = Returned tt
        /\ (fst (fst (run_once P a s stdin m))).(m_out)
           = (fst (ask P a s m prompt)).(m_out) ++ [Line (structured reply)]).
Proof.
  split; [|split; [|split]].
  - intros pre s inner -> Hb Hfirst. unfold structured.
    now rewrite (search_first_block pre s inner Hb Hfirst).
  - intros Hnone. unfold structured. now rewrite (search_no_block reply Hnone).
  - vm_compute. reflexivity.
  - intros P a s stdin m prompt Hp Hr. unfold run_once. rewrite Hp.
    destruct (ask P a s m prompt) as [m1 r]. simpl in Hr. subst r. now simpl.
Qed.

(** C7 as it is written fails: this reply has no block of the form the
    specification gives, the marker directly followed by the equals sign and
    the quotes, and yet it is not emitted as it is: the text between the
    quotes is. *)
Lemma spaced_block_is_extracted :
  (forall pre s inner, Fixtures.spaced_reply = pre ++ s -> ~ plain_block_at s inner)
  /\ structured Fixtures.spaced_reply = [120]
  /\ structured Fixtures.spaced_reply <> Fixtures.spaced_reply.
Proof.
  split; [|split; [vm_compute; reflexivity|vm_compute; discriminate]].
  intros pre s inner H [post ->].
  unfold Fixtures.spaced_reply, s_OUTPUT, triple_quote, c_quote in H.
  repeat (destruct pre as [|? pre]; simpl in H;
          [discriminate H|try discriminate H; injection H as _ H]).
Qed.

(** ** Strings through [json.dump] and [json.load] *)

Lemma hex_val_digit (d : N) : d < 16 -> hex_val (hex_digit d) = Some d.
Proof.
  intros H.
  assert (Hd : d = 0 \/ d = 1 \/ d = 2 \/ d = 3 \/ d = 4 \/ d = 5 \/ d = 6 \/ d = 7
               \/ d = 8 \/ d = 9 \/ d = 10 \/ d = 11 \/ d = 12 \/ d = 13 \/ d = 14 \/ d = 15)
    by lia.
  repeat (destruct Hd as [->|Hd]; [reflexivity|]). subst d. reflexivity.
Qed.

Lemma hex4_digits (x : N) :
  x < 65536 ->
  hex4 (hex_digit ((x / 4096) mod 16)) (hex_digit ((x / 256) mod 16))
       (hex_digit ((x / 16) mod 16)) (hex_digit (x mod 16))
  = Some x.
Proof.
  intros Hx. unfold hex4.
  rewrite !hex_val_digit by (apply N.mod_lt; discriminate).
  f_equal.
  assert (H0 := N.div_mod' x 16).
  assert (H1 := N.div_mod' (x / 16) 16).
  assert (H2 := N.div_mod' (x / 256) 16).
  rewrite N.Div0.div_div in H1.
  rewrite N.Div0.div_div in H2.
  change (16 * 16) with 256 in H1. change (256 * 16) with 4096 in H2.
  assert (H3 : (x / 4096) mod 16 = x / 4096).
  { apply N.mod_small. apply N.Div0.div_lt_upper_bound; exact Hx. }
  rewrite H3.
  assert (Ha := N.mod_lt x 16). assert (Hb := N.mod_lt (x / 16) 16).
  assert (Hc := N.mod_lt (x / 256) 16).
  lia.
Qed.

Lemma scanstring_unicode (h1 h2 h3 h4 : codepoint) (t2 : pystr) (uni : N) :
  hex4 h1 h2 h3 h4 = Some uni ->
  is_high_surrogate uni = false ->
  scanstring (c_backslash :: 117 :: h1 :: h2 :: h3 :: h4 :: t2) = push uni (scanstring t2).
Proof.
  intros Hh Hs.
  change (scanstring (c_backslash :: 117 :: h1 :: h2 :: h3 :: h4 :: t2))
    with (match hex4 h1 h2 h3 h4 with
          | None => None
          | Some uni =>
              if is_high_surrogate uni then
                match t2 with
                | b :: u :: g1 :: g2 :: g3 :: g4 :: t3 =>
                    if (b =? 92) && (u =? 117) then
                      match hex4 g1 g2 g3 g4 with
                      | None => None
                      | Some uni2 =>
                          if is_low_surrogate uni2
                          then push (65536 + (N.lor (N.shiftl (uni - 55296) 10)
                                                    (uni2 - 56320)))
                                    (scanstring t3)
                          else push uni (scanstring t2)
                      end
                    else push uni (scanstring t2)
                | _ => push uni (scanstring t2)
                end
              else push uni (scanstring t2)
          end).
  now rewrite Hh, Hs.
Qed.

Lemma scanstring_pair (h1 h2 h3 h4 g1 g2 g3 g4 : codepoint) (t3 : pystr) (uni uni2 : N) :
  hex4 h1 h2 h3 h4 = Some uni ->
  is_high_surrogate uni = true ->
  hex4 g1 g2 g3 g4 = Some uni2 ->
  is_low_surrogate uni2 = true ->
  scanstring (c_backslash :: 117 :: h1 :: h2 :: h3 :: h4
                :: c_backslash :: 117 :: g1 :: g2 :: g3 :: g4 :: t3)
  = push (65536 + (N.lor (N.shiftl (uni - 55296) 10) (uni2 - 56320))) (scanstring t3).
Proof.
  intros Hh Hs Hg Hl.
  change (scanstring (c_backslash :: 117 :: h1 :: h2 :: h3 :: h4
                        :: c_backslash :: 117 :: g1 :: g2 :: g3 :: g4 :: t3))
    with (match hex4 h1 h2 h3 h4 with
          | None => None
          | Some uni =>
              if is_high_surrogate uni then
                match hex4 g1 g2 g3 g4 with
                | None => None
                | Some uni2 =>
                    if is_low_surrogate uni2
                    then push (65536 + (N.lor (N.shiftl (uni - 55296) 10) (uni2 - 56320)))
                              (scanstring t3)
                    else push uni (scanstring (c_backslash :: 117 :: g1 :: g2 :: g3 :: g4 :: t3))
                end
              else push uni (scanstring (c_backslash :: 117 :: g1 :: g2 :: g3 :: g4 :: t3))
          end).
  now rewrite Hh, Hs, Hg, Hl.
Qed.

Lemma scanstring_plain (c : codepoint) (t : pystr) :
  (c =? 34) = false -> (c =? 92) = false -> (c <? 32) = false ->
  scanstring (c :: t) = push c (scanstring t).
Proof.
  intros H1 H2 H3.
  change (scanstring (c :: t))
    with (if c =? 34 then Some ([], t)
          else if c =? 92 then
                 match t with
                 | [] => None
                 | esc :: t1 =>
                     if esc =? 117 then
                       match t1 with
                       | h1 :: h2 :: h3 :: h4 :: t2 =>
                           match hex4 h1 h2 h3 h4 with
                           | None => None
                           | Some uni =>
                               if is_high_surrogate uni then
                                 match t2 with
                                 | b :: u :: g1 :: g2 :: g3 :: g4 :: t3 =>
                                     if (b =? 92) && (u =? 117) then
                                       match hex4 g1 g2 g3 g4 with
                                       | None => None
                                       | Some uni2 =>
                                           if is_low_surrogate uni2
                                           then push (65536 + (N.lor (N.shiftl (uni - 55296) 10)
                                                                     (uni2 - 56320)))
                                                     (scanstring t3)
                                           else push uni (scanstring t2)
                                       end
                                     else push uni (scanstring t2)
                                 | _ => push uni (scanstring t2)
                                 end
                               else push uni (scanstring t2)
                           end
                       | _ => None
                       end
                     else
                       match unescape esc with
                       | Some ch => push ch (scanstring t1)
                       | None => None
                       end
                 end
          else if c <? 32 then None
          else push c (scanstring t)).
  now rewrite H1, H2, H3.
Qed.

Lemma land_shiftl_low (a b : N) : b < 1024 -> N.land (N.shiftl a 10) b = 0.
Proof.
  intros Hb. apply N.bits_inj. intros i.
  rewrite N.land_spec, N.bits_0.
  destruct (N.lt_ge_cases i 10) as [Hi|Hi].
  - now rewrite N.shiftl_spec_low.
  - apply andb_false_iff. right.
    destruct (N.eq_dec b 0) as [->|Hnz]; [apply N.bits_0|].
    apply N.bits_above_log2.
    apply N.lt_le_trans with 10; [|exact Hi].
    apply N.log2_lt_pow2; [lia|exact Hb].
Qed.

Lemma lor_shiftl_low (a b : N) : b < 1024 -> N.lor (N.shiftl a 10) b = 1024 * a + b.
Proof.
  intros Hb.
  rewrite <- N.lxor_lor by now apply land_shiftl_low.
  rewrite <- N.add_nocarry_lxor by now apply land_shiftl_low.
  rewrite N.shiftl_mul_pow2. change (2 ^ 10) with 1024. lia.
Qed.

(** The two halves of a character above the basic plane. *)
Lemma surrogate_halves (n : N) :
  n < 1048576 ->
  N.lor 55296 (N.land (N.shiftr n 10) 1023) = 55296 + n / 1024
  /\ N.lor 56320 (N.land n 1023) = 56320 + n mod 1024
  /\ n / 1024 < 1024 /\ n mod 1024 < 1024.
Proof.
  intros Hn.
  assert (Hq : n / 1024 < 1024) by (apply N.Div0.div_lt_upper_bound; exact Hn).
  assert (Hr : n mod 1024 < 1024) by (apply N.mod_lt; discriminate).
  change 1023 with (N.ones 10). rewrite !N.land_ones, N.shiftr_div_pow2.
  change (2 ^ 10) with 1024. rewrite (N.mod_small (n / 1024)) by exact Hq.
  change 55296 with (N.shiftl 54 10). change 56320 with (N.shiftl 55 10).
  rewrite !lor_shiftl_low by assumption.
  repeat split; auto.
Qed.

Lemma u_escape_app (x : N) (rest : pystr) :
  u_escape x ++ rest
  = c_backslash :: 117 :: hex_digit ((x / 4096) mod 16) :: hex_digit ((x / 256) mod 16)
      :: hex_digit ((x / 16) mod 16) :: hex_digit (x mod 16) :: rest.
Proof. reflexivity. Qed.

(** One character, escaped and decoded again. *)
Lemma scanstring_escape_char (c : codepoint) (rest : pystr) :
  is_scalar c = true ->
  scanstring (escape_char c ++ rest) = push c (scanstring rest).
Proof.
  intros Hc. unfold escape_char.
  destruct (c =? 34) eqn:E34; [apply N.eqb_eq in E34; subst c; reflexivity|].
  destruct (c =? 92) eqn:E92; [apply N.eqb_eq in E92; subst c; reflexivity|].
  destruct (c =? 10) eqn:E10; [apply N.eqb_eq in E10; subst c; reflexivity|].
  destruct (c =? 13) eqn:E13; [apply N.eqb_eq in E13; subst c; reflexivity|].
  destruct (c =? 9) eqn:E9; [apply N.eqb_eq in E9; subst c; reflexivity|].
  destruct (c =? 8) eqn:E8; [apply N.eqb_eq in E8; subst c; reflexivity|].
  destruct (c =? 12) eqn:E12; [apply N.eqb_eq in E12; subst c; reflexivity|].
  destruct ((32 <=? c) && (c <=? 126)) eqn:Eprint.
  - apply andb_true_iff in Eprint as [Hlo _]. apply N.leb_le in Hlo.
    simpl app. apply scanstring_plain; auto. apply N.ltb_ge. exact Hlo.
  - unfold is_scalar in Hc.
    destruct (c <? 65536) eqn:Ebmp.
    + apply N.ltb_lt in Ebmp.
      rewrite u_escape_app.
      apply scanstring_unicode; [now apply hex4_digits|].
      unfold is_high_surrogate.
      apply orb_true_iff in Hc as [Hc|Hc].
      * apply N.ltb_lt in Hc. apply andb_false_iff. left. apply N.leb_gt. exact Hc.
      * apply andb_true_iff in Hc as [Hc _]. apply N.ltb_lt in Hc.
        apply andb_false_iff. right. apply N.leb_gt. lia.
    + apply N.ltb_ge in Ebmp.
      assert (Hmax : c < 1114112).
      { apply orb_true_iff in Hc as [Hc|Hc].
        - apply N.ltb_lt in Hc. lia.
        - apply andb_true_iff in Hc as [_ Hc]. now apply N.ltb_lt in Hc. }
      cbv zeta.
      destruct (surrogate_halves (c - 65536)) as (Hhi & Hlo & Hq & Hr); [lia|].
      rewrite Hhi, Hlo. rewrite <- app_assoc, !u_escape_app.
      rewrite (scanstring_pair _ _ _ _ _ _ _ _ rest
                 (55296 + (c - 65536) / 1024) (56320 + (c - 65536) mod 1024)).
      * f_equal.
        assert (Hdm := N.div_mod' (c - 65536) 1024).
        set (q := (c - 65536) / 1024) in *. set (r := (c - 65536) mod 1024) in *.
        replace (55296 + q - 55296) with q by lia.
        replace (56320 + r - 56320) with r by lia.
        rewrite lor_shiftl_low by exact Hr. lia.
      * apply hex4_digits. generalize dependent ((c - 65536) / 1024). intros; lia.
      * unfold is_high_surrogate. apply andb_true_iff.
        generalize dependent ((c - 65536) / 1024). intros; split; apply N.leb_le; lia.
      * apply hex4_digits. generalize dependent ((c - 65536) mod 1024). intros; lia.
      * unfold is_low_surrogate. apply andb_true_iff.
        generalize dependent ((c - 65536) mod 1024). intros; split; apply N.leb_le; lia.
Qed.

Lemma scanstring_encoded (s : pystr) (rest : pystr) :
  is_text s = true ->
  scanstring (flat_map escape_char s ++ c_quote :: rest) = Some (s, rest).
Proof.
  induction s as [|c s IH]; intros Ht.
  - reflexivity.
  - simpl in Ht. apply andb_true_iff in Ht as [Hc Hs].
    simpl flat_map. rewrite <- app_assoc.
    rewrite scanstring_escape_char by exact Hc.
    now rewrite IH.
Qed.

(** ** Integers through [json.dump] and [json.load] *)

Lemma take_digits_all (ds : pystr) : forall (a : N) (rest : pystr),
  forallb is_digit ds = true ->
  match rest with [] => true | c :: _ => negb (is_digit c) end = true ->
  take_digits a (ds ++ rest) = (digits_value ds a, rest).
Proof.
  induction ds as [|d ds IH]; intros a rest Hds Hrest.
  - simpl. destruct rest as [|c t]; [reflexivity|].
    simpl. apply negb_true_iff in Hrest. now rewrite Hrest.
  - simpl in Hds. apply andb_true_iff in Hds as [Hd Hds].
    simpl. rewrite Hd. now apply IH.
Qed.

Lemma digits_of_spec : forall (fuel : nat) (n : N) (acc : pystr),
  (0 < fuel)%nat -> n < 2 ^ N.of_nat fuel ->
  exists ds,
    digits_of fuel n acc = ds ++ acc
    /\ ds <> []
    /\ forallb is_digit ds = true
    /\ (forall a, digits_value ds a = a * 10 ^ N.of_nat (length ds) + n)
    /\ (n <> 0 -> hd 0 ds <> 48)
    /\ (n = 0 -> ds = [48]).
Proof.
  induction fuel as [|f IH]; intros n acc Hf Hn; [lia|].
  assert (Hm : n mod 10 < 10) by (apply N.mod_lt; discriminate).
  assert (Hdm := N.div_mod' n 10).
  assert (Hdigit : is_digit (48 + n mod 10) = true).
  { unfold is_digit. apply andb_true_iff.
    clear - Hm. generalize dependent (n mod 10). intros; split; apply N.leb_le; lia. }
  cbn [digits_of]. destruct (n / 10 =? 0) eqn:Eq.
  - apply N.eqb_eq in Eq. exists [48 + n mod 10].
    repeat split.
    + discriminate.
    + cbn [forallb]. now rewrite Hdigit.
    + intros a. unfold digits_value. cbn [fold_left length].
      rewrite (N.add_comm 48), N.add_sub. change (N.of_nat 1) with 1. rewrite N.pow_1_r.
      rewrite Hdm at 2. rewrite Eq. lia.
    + intros Hnz. cbn [hd]. generalize dependent (n mod 10). intros. lia.
    + intros ->. reflexivity.
  - apply N.eqb_neq in Eq.
    assert (Hq : n / 10 < 2 ^ N.of_nat f).
    { apply N.Div0.div_lt_upper_bound.
      rewrite Nat2N.inj_succ, N.pow_succ_r' in Hn. lia. }
    assert (Hf' : (0 < f)%nat).
    { destruct f; [|lia]. simpl in Hq. lia. }
    destruct (IH (n / 10) ((48 + n mod 10) :: acc) Hf' Hq)
      as (ds & Hds & Hne & Hall & Hval & Hhd & _).
    exists (ds ++ [48 + n mod 10]).
    repeat split.
    + rewrite Hds. now rewrite <- app_assoc.
    + destruct ds; discriminate.
    + rewrite forallb_app, Hall. cbn [forallb]. now rewrite Hdigit.
    + intros a. unfold digits_value in *. rewrite fold_left_app. cbn [fold_left].
      rewrite Hval, length_app. cbn [length].
      rewrite Nat2N.inj_add. change (N.of_nat 1) with 1. rewrite N.pow_add_r, N.pow_1_r.
      rewrite (N.add_comm 48), N.add_sub.
      revert Hdm.
      generalize (10 ^ N.of_nat (length ds)), (n / 10), (n mod 10). intros; lia.
    + intros _. destruct ds as [|d ds]; [contradiction|]. simpl. apply (Hhd Eq).
    + intros ->. simpl in Eq. contradiction.
Qed.

Lemma digits_of_int (n : N) :
  exists d ds,
    digits_of (S (N.to_nat (N.log2 n))) n [] = d :: ds
    /\ forallb is_digit (d :: ds) = true
    /\ digits_value (d :: ds) 0 = n
    /\ (n <> 0 -> d <> 48)
    /\ (n = 0 -> d :: ds = [48]).
Proof.
  assert (Hfuel : (0 < S (N.to_nat (N.log2 n)))%nat) by lia.
  assert (Hbound : n < 2 ^ N.of_nat (S (N.to_nat (N.log2 n)))).
  { rewrite Nat2N.inj_succ, N2Nat.id.
    destruct (N.eq_dec n 0) as [->|Hnz]; [reflexivity|].
    apply N.log2_spec. lia. }
  destruct (digits_of_spec (S (N.to_nat (N.log2 n))) n [] Hfuel Hbound)
    as (ds & Hds & Hne & Hall & Hval & Hhd & H0).
  destruct ds as [|d ds]; [contradiction|].
  exists d, ds. rewrite app_nil_r in Hds. repeat split; auto.
Qed.

Lemma ends_number_float (rest : pystr) : ends_number rest = true -> float_tail rest = false.
Proof.
  destruct rest as [|c [|d t]]; try reflexivity.
  unfold ends_number, float_tail.
  intros H. apply andb_true_iff in H as [H H69]. apply andb_true_iff in H as [H H101].
  apply andb_true_iff in H as [_ H46].
  apply negb_true_iff in H46, H101, H69. now rewrite H46, H101, H69.
Qed.

Lemma ends_number_digit (rest : pystr) :
  ends_number rest = true ->
  match rest with [] => true | c :: _ => negb (is_digit c) end = true.
Proof.
  destruct rest as [|c t]; [reflexivity|].
  unfold ends_number. intros H.
  apply andb_true_iff in H as [H _]. apply andb_true_iff in H as [H _].
  now apply andb_true_iff in H as [H _].
Qed.

Lemma scan_unsigned_digits (n : N) (rest : pystr) :
  ends_number rest = true ->
  scan_unsigned (digits_of (S (N.to_nat (N.log2 n))) n [] ++ rest) = Some (n, rest).
Proof.
  intros Hrest.
  destruct (digits_of_int n) as (d & ds & Hds & Hall & Hval & Hhd & H0).
  rewrite Hds.
  destruct (N.eq_dec n 0) as [->|Hnz].
  - injection (H0 eq_refl) as -> ->. reflexivity.
  - assert (Hd : d <> 48) by auto.
    change ((d :: ds) ++ rest) with (d :: (ds ++ rest)).
    unfold scan_unsigned. apply N.eqb_neq in Hd. rewrite Hd.
    assert (Hd' : is_digit d = true) by (simpl in Hall; now apply andb_true_iff in Hall as [? _]).
    rewrite Hd'.
    change (d :: (ds ++ rest)) with ((d :: ds) ++ rest).
    rewrite take_digits_all; auto.
    + now rewrite Hval.
    + now apply ends_number_digit.
Qed.

Lemma scan_number_int (z : Z) (rest : pystr) :
  ends_number rest = true ->
  scan_number (int_repr z ++ rest) = Some (PInt z, rest).
Proof.
  intros Hrest. unfold int_repr. cbv zeta.
  destruct (digits_of_int (Z.abs_N z)) as (d & ds & Hds & Hall & _).
  assert (Hd : is_digit d = true) by (simpl in Hall; now apply andb_true_iff in Hall as [? _]).
  assert (H45 : (d =? 45) = false).
  { unfold is_digit in Hd. apply andb_true_iff in Hd as [Hd _].
    apply N.leb_le in Hd. apply N.eqb_neq. lia. }
  destruct (z <? 0)%Z eqn:Ez.
  - apply Z.ltb_lt in Ez.
    change ((45 :: digits_of (S (N.to_nat (N.log2 (Z.abs_N z)))) (Z.abs_N z) []) ++ rest)
      with (45 :: (digits_of (S (N.to_nat (N.log2 (Z.abs_N z)))) (Z.abs_N z) [] ++ rest)).
    unfold scan_number. change (45 =? 45) with true. cbv iota.
    rewrite scan_unsigned_digits by exact Hrest.
    rewrite ends_number_float by exact Hrest.
    do 2 f_equal. f_equal. rewrite N2Z.inj_abs_N. lia.
  - apply Z.ltb_ge in Ez.
    unfold scan_number.
    rewrite Hds at 1. change ((d :: ds) ++ rest) with (d :: (ds ++ rest)).
    cbv beta iota. rewrite H45.
    rewrite scan_unsigned_digits by exact Hrest.
    rewrite ends_number_float by exact Hrest.
    do 2 f_equal. f_equal. rewrite N2Z.inj_abs_N. lia.
Qed.

(** ** Values through [json.dump] and [json.load] *)

Lemma pyval_nested_ind (Q : pyval -> Prop) :
  Q PNone ->
  (forall b, Q (PBool b)) ->
  (forall z, Q (PInt z)) ->
  (forall s, Q (PStr s)) ->
  (forall l, Forall Q l -> Q (PList l)) ->
  (forall d, Forall (fun kv => Q (snd kv)) d -> Q (PDict d)) ->
  forall v, Q v.
Proof.
  intros HNone HBool HInt HStr HList HDict.
  fix IH 1. intros [ | b | z | s | l | d ].
  - exact HNone.
  - apply HBool.
  - apply HInt.
  - apply HStr.
  - apply HList. induction l as [|x l IHl]; constructor; [apply IH|exact IHl].
  - apply HDict. induction d as [|[k x] d IHd]; constructor; [apply IH|exact IHd].
Qed.

Lemma scan_once_eq (f : nat) (s : pystr) :
  scan_once (S f) s
  = match s with
    | [] => None
    | c :: t =>
        if c =? 34 then
          match scanstring t with
          | Some (x, r) => Some (PStr x, r)
          | None => None
          end
        else if c =? 123 then
          match skip_ws t with
          | c1 :: t1 =>
              if c1 =? 125 then Some (PDict [], t1)
              else if c1 =? 34 then
                match object_items f t1 with
                | Some (pairs, r) => Some (PDict (dict_of_pairs pairs), r)
                | None => None
                end
              else None
          | [] => None
          end
        else if c =? 91 then
          match skip_ws t with
          | c1 :: t1 =>
              if c1 =? 93 then Some (PList [], t1)
              else
                match array_items f (c1 :: t1) with
                | Some (items, r) => Some (PList items, r)
                | None => None
                end
          | [] => None
          end
        else if startswith s s_null then Some (PNone, skipn 4 s)
        else if startswith s s_true then Some (PBool true, skipn 4 s)
        else if startswith s s_false then Some (PBool false, skipn 5 s)
        else scan_number s
    end.
Proof. reflexivity. Qed.

Lemma array_items_eq (f : nat) (s : pystr) :
  array_items (S f) s
  = match scan_once f s with
    | None => None
    | Some (v, r) =>
        match skip_ws r with
        | c :: t =>
            if c =? 93 then Some ([v], t)
            else if c =? 44 then
              match array_items f (skip_ws t) with
              | Some (vs, r2) => Some (v :: vs, r2)
              | None => None
              end
            else None
        | [] => None
        end
    end.
Proof. reflexivity. Qed.

Lemma object_items_eq (f : nat) (s : pystr) :
  object_items (S f) s
  = match scanstring s with
    | None => None
    | Some (key, r) =>
        match skip_ws r with
        | c :: t =>
            if c =? 58 then
              match scan_once f (skip_ws t) with
              | None => None
              | Some (v, r1) =>
                  match skip_ws r1 with
                  | c1 :: t1 =>
                      if c1 =? 125 then Some ([(key, v)], t1)
                      else if c1 =? 44 then
                        match skip_ws t1 with
                        | c2 :: t2 =>
                            if c2 =? 34 then
                              match object_items f t2 with
                              | Some (kvs, r2) => Some ((key, v) :: kvs, r2)
                              | None => None
                              end
                            else None
                        | [] => None
                        end
                      else None
                  | [] => None
                  end
              end
            else None
        | [] => None
        end
    end.
Proof. reflexivity. Qed.

Lemma skip_ws_head (c : codepoint) (t : pystr) :
  33 <= c -> skip_ws (c :: t) = c :: t.
Proof.
  intros Hc. cbn [skip_ws]. unfold is_json_ws.
  assert (E1 : (c =? 32) = false) by (apply N.eqb_neq; lia).
  assert (E2 : (c =? 9) = false) by (apply N.eqb_neq; lia).
  assert (E3 : (c =? 10) = false) by (apply N.eqb_neq; lia).
  assert (E4 : (c =? 13) = false) by (apply N.eqb_neq; lia).
  now rewrite E1, E2, E3, E4.
Qed.

Lemma encode_string_app (s rest : pystr) :
  encode_string s ++ rest = c_quote :: flat_map escape_char s ++ c_quote :: rest.
Proof. unfold encode_string. simpl. now rewrite <- app_assoc. Qed.

(** An encoded value starts with a visible ASCII character that closes
    neither an array nor an object. *)
Lemma dumps_head (v : pyval) :
  exists c tl, dumps v = c :: tl /\ 33 <= c /\ c < 128 /\ c <> 93 /\ c <> 125.
Proof.
  destruct v as [ | [|] | z | s | l | d ].
  - eexists _, _. split; [reflexivity|]. repeat split; try discriminate; lia.
  - eexists _, _. split; [reflexivity|]. repeat split; try discriminate; lia.
  - eexists _, _. split; [reflexivity|]. repeat split; try discriminate; lia.
  - simpl dumps. unfold int_repr. cbv zeta.
    destruct (digits_of_int (Z.abs_N z)) as (d & ds & Hds & Hall & _).
    destruct (z <? 0)%Z.
    + eexists _, _. split; [reflexivity|]. repeat split; try discriminate; lia.
    + rewrite Hds. exists d, ds. split; [reflexivity|].
      simpl in Hall. apply andb_true_iff in Hall as [Hd _]. unfold is_digit in Hd.
      apply andb_true_iff in Hd as [H1 H2]. apply N.leb_le in H1, H2.
      repeat split; lia.
  - eexists _, _. split; [reflexivity|]. repeat split; try discriminate; unfold c_quote; lia.
  - eexists _, _. split; [reflexivity|]. repeat split; try discriminate; lia.
  - eexists _, _. split; [reflexivity|]. repeat split; try discriminate; lia.
Qed.

Lemma skip_ws_dumps (v : pyval) (rest : pystr) :
  skip_ws (dumps v ++ rest) = dumps v ++ rest.
Proof.
  destruct (dumps_head v) as (c & tl & -> & Hc & _).
  change ((c :: tl) ++ rest) with (c :: (tl ++ rest)). now apply skip_ws_head.
Qed.

(** A number where a value is expected. *)
Lemma scan_once_number (f : nat) (c : codepoint) (t : pystr) :
  c = 45 \/ is_digit c = true ->
  scan_once (S f) (c :: t) = scan_number (c :: t).
Proof.
  intros Hc.
  assert (Hr : 45 <= c /\ c <= 57).
  { destruct Hc as [->|Hd]; [lia|]. unfold is_digit in Hd.
    apply andb_true_iff in Hd as [H1 H2]. apply N.leb_le in H1, H2. lia. }
  rewrite scan_once_eq.
  assert (E1 : (c =? 34) = false) by (apply N.eqb_neq; lia).
  assert (E2 : (c =? 123) = false) by (apply N.eqb_neq; lia).
  assert (E3 : (c =? 91) = false) by (apply N.eqb_neq; lia).
  assert (E4 : (110 =? c) = false) by (apply N.eqb_neq; lia).
  assert (E5 : (116 =? c) = false) by (apply N.eqb_neq; lia).
  assert (E6 : (102 =? c) = false) by (apply N.eqb_neq; lia).
  rewrite E1, E2, E3. unfold s_null, s_true, s_false. cbn [startswith].
  now rewrite E4, E5, E6.
Qed.

Lemma dict_set_fresh (acc : list (pystr * pyval)) (k : pystr) (v : pyval) :
  (forall k', In k' (map fst acc) -> pystr_eqb k' k = false) ->
  dict_set acc k v = acc ++ [(k, v)].
Proof.
  induction acc as [|[k' v'] acc IH]; intros Hfresh; simpl.
  - reflexivity.
  - rewrite (Hfresh k') by (now left). f_equal. apply IH.
    intros k'' Hin. apply Hfresh. now right.
Qed.

Lemma existsb_false_in (k : pystr) (keys : list pystr) :
  existsb (pystr_eqb k) keys = false ->
  forall k', In k' keys -> pystr_eqb k k' = false.
Proof.
  induction keys as [|x keys IH]; intros H k' Hin; [contradiction|].
  simpl in H. apply orb_false_iff in H as [Hx Hrest].
  destruct Hin as [->|Hin]; [exact Hx|now apply IH].
Qed.

Lemma dict_of_pairs_distinct (d : list (pystr * pyval)) :
  distinct (map fst d) = true -> dict_of_pairs d = d.
Proof.
  unfold dict_of_pairs.
  assert (H : forall acc,
             (forall k, In k (map fst acc) ->
                        forall k', In k' (map fst d) -> pystr_eqb k k' = false) ->
             distinct (map fst d) = true ->
             fold_left (fun d kv => dict_set d (fst kv) (snd kv)) d acc = acc ++ d).
  { induction d as [|[k v] d IH]; intros acc Hacc Hd.
    - simpl. now rewrite app_nil_r.
    - simpl in Hd. apply andb_true_iff in Hd as [Hk Hd]. apply negb_true_iff in Hk.
      cbn [fold_left fst snd].
      rewrite dict_set_fresh.
      + rewrite IH; [now rewrite <- app_assoc| |exact Hd].
        intros k1 Hin k' Hin'. rewrite map_app in Hin. apply in_app_or in Hin as [Hin|Hin].
        * apply (Hacc k1 Hin). now right.
        * simpl in Hin. destruct Hin as [<-|[]]. now apply (existsb_false_in k (map fst d)).
      + intros k1 Hin. apply (Hacc k1 Hin). now left. }
  intros Hd. apply (H [] (fun k Hin => match Hin with end) Hd).
Qed.

Lemma skip_ws_space (t : pystr) : skip_ws (c_space :: t) = skip_ws t.
Proof. reflexivity. Qed.

Lemma join_cons2 (sep p q : pystr) (rest : list pystr) :
  join sep (p :: q :: rest) = p ++ sep ++ join sep (q :: rest).
Proof. reflexivity. Qed.

Lemma skip_ws_join (y : pyval) (l : list pyval) (r : pystr) :
  skip_ws (join s_item_sep (map dumps (y :: l)) ++ r)
  = join s_item_sep (map dumps (y :: l)) ++ r.
Proof.
  destruct l as [|z l]; cbn [map].
  - apply skip_ws_dumps.
  - rewrite join_cons2, <- app_assoc. apply skip_ws_dumps.
Qed.

Lemma array_items_dumps (l : list pyval) :
  Forall decodes l ->
  forall (x : pyval) (f : nat) (rest : pystr),
    decodes x ->
    (list_sum (map (fun y => S (need y)) (x :: l)) <= f)%nat ->
    array_items f (join s_item_sep (map dumps (x :: l)) ++ 93 :: rest) = Some (x :: l, rest).
Proof.
  induction 1 as [|y l Hy Hl IH]; intros x f rest Hx Hf.
  - simpl in Hf. destruct f as [|f]; [lia|].
    cbn [map join]. rewrite array_items_eq.
    rewrite (Hx f (93 :: rest)) by (try reflexivity; lia).
    rewrite skip_ws_head by lia. reflexivity.
  - simpl in Hf. destruct f as [|f]; [lia|].
    cbn [map]. rewrite join_cons2, <- !app_assoc.
    change (s_item_sep ++ join s_item_sep (dumps y :: map dumps l) ++ 93 :: rest)
      with (44 :: c_space :: (join s_item_sep (map dumps (y :: l)) ++ 93 :: rest)).
    rewrite array_items_eq.
    rewrite (Hx f) by (try reflexivity; lia).
    rewrite skip_ws_head by lia.
    change (44 =? 93) with false. change (44 =? 44) with true. cbv iota.
    rewrite skip_ws_space, skip_ws_join.
    rewrite (IH y f rest Hy) by (simpl; lia).
    reflexivity.
Qed.

Lemma join_items_tail (k : pystr) (x : pyval) (d : list (pystr * pyval)) (rest : pystr) :
  join s_item_sep (map dumps_item ((k, x) :: d)) ++ 125 :: rest
  = c_quote :: flat_map escape_char k ++ c_quote :: s_key_sep ++ dumps x
      ++ object_tail d rest.
Proof.
  destruct d as [|kv d]; cbn [map].
  - cbn [join]. unfold dumps_item, object_tail. cbn [fst snd].
    rewrite <- app_assoc, encode_string_app. now rewrite <- app_assoc.
  - rewrite join_cons2. unfold dumps_item at 1, object_tail. cbn [fst snd].
    rewrite <- !app_assoc, encode_string_app. rewrite <- ?app_assoc. reflexivity.
Qed.

Lemma ends_number_object_tail (d : list (pystr * pyval)) (rest : pystr) :
  ends_number (object_tail d rest) = true.
Proof. destruct d; reflexivity. Qed.

Lemma object_items_dumps (d : list (pystr * pyval)) :
  Forall (fun kv => decodes (snd kv)) d ->
  forallb (fun kv => is_text (fst kv)) d = true ->
  forall (k : pystr) (x : pyval) (f : nat) (rest : pystr),
    is_text k = true -> decodes x ->
    (list_sum (map (fun kv => S (need (snd kv))) ((k, x) :: d)) <= f)%nat ->
    object_items f (flat_map escape_char k ++ c_quote :: s_key_sep ++ dumps x
                      ++ object_tail d rest)
    = Some ((k, x) :: d, rest).
Proof.
  induction 1 as [|[k2 x2] d Hx2 Hd IH]; intros Hkeys k x f rest Hk Hx Hf.
  - simpl in Hf. destruct f as [|f]; [lia|].
    rewrite object_items_eq, scanstring_encoded by exact Hk.
    change (s_key_sep ++ dumps x ++ object_tail [] rest)
      with (58 :: c_space :: (dumps x ++ 125 :: rest)).
    rewrite skip_ws_head by lia. change (58 =? 58) with true. cbv iota.
    rewrite skip_ws_space, skip_ws_dumps.
    rewrite (Hx f) by (try reflexivity; lia).
    rewrite skip_ws_head by lia. reflexivity.
  - simpl in Hf. destruct f as [|f]; [lia|].
    cbn [forallb fst] in Hkeys. apply andb_true_iff in Hkeys as [Hk2 Hkeys].
    rewrite object_items_eq, scanstring_encoded by exact Hk.
    change (s_key_sep ++ dumps x ++ object_tail ((k2, x2) :: d) rest)
      with (58 :: c_space :: (dumps x ++ object_tail ((k2, x2) :: d) rest)).
    rewrite skip_ws_head by lia. change (58 =? 58) with true. cbv iota.
    rewrite skip_ws_space, skip_ws_dumps.
    rewrite (Hx f) by (try apply ends_number_object_tail; lia).
    change (object_tail ((k2, x2) :: d) rest)
      with (44 :: c_space :: (join s_item_sep (map dumps_item ((k2, x2) :: d)) ++ 125 :: rest)).
    rewrite skip_ws_head by lia.
    change (44 =? 125) with false. change (44 =? 44) with true. cbv iota.
    rewrite skip_ws_space, join_items_tail.
    rewrite skip_ws_head by (unfold c_quote; lia).
    change (c_quote =? 34) with true. cbv iota.
    rewrite (IH Hkeys k2 x2 f rest Hk2 Hx2) by (simpl; lia).
    reflexivity.
Qed.

Lemma forallb_Forall_decodes (l : list pyval) :
  Forall (fun v => well_formed v = true -> decodes v) l ->
  forallb well_formed l = true -> Forall decodes l.
Proof.
  induction 1 as [|x l Hx Hl IH]; intros Hwf; constructor.
  - simpl in Hwf. apply andb_true_iff in Hwf as [H _]. now apply Hx.
  - simpl in Hwf. apply andb_true_iff in Hwf as [_ H]. now apply IH.
Qed.

Lemma forallb_Forall_items (d : list (pystr * pyval)) :
  Forall (fun kv => well_formed (snd kv) = true -> decodes (snd kv)) d ->
  forallb (fun kv => is_text (fst kv) && well_formed (snd kv)) d = true ->
  Forall (fun kv => decodes (snd kv)) d
  /\ forallb (fun kv => is_text (fst kv)) d = true.
Proof.
  induction 1 as [|kv d Hkv Hd IH]; intros Hwf.
  - split; [constructor|reflexivity].
  - cbn [forallb] in Hwf. apply andb_true_iff in Hwf as [H Hrest].
    apply andb_true_iff in H as [Hk Hv].
    destruct (IH Hrest) as [IH1 IH2]. split.
    + constructor; [now apply Hkv|exact IH1].
    + cbn [forallb]. now rewrite Hk, IH2.
Qed.

(** Every well-formed value is decoded from its encoding. *)
Lemma dumps_decodes (v : pyval) : well_formed v = true -> decodes v.
Proof.
  induction v as [ | b | z | s | l IHl | d IHd ] using pyval_nested_ind;
    intros Hwf fuel rest Hfuel Hrest.
  - destruct fuel as [|f]; [simpl in Hfuel; lia|]. reflexivity.
  - destruct fuel as [|f]; [simpl in Hfuel; lia|]. destruct b; reflexivity.
  - destruct fuel as [|f]; [simpl in Hfuel; lia|].
    cbn [dumps].
    destruct (dumps_head (PInt z)) as (c & tl & Hd & Hc).
    cbn [dumps] in Hd.
    assert (Hkind : c = 45 \/ is_digit c = true).
    { unfold int_repr in Hd. cbv zeta in Hd.
      destruct (digits_of_int (Z.abs_N z)) as (d0 & ds & Hds & Hall & _).
      rewrite Hds in Hd. destruct (z <? 0)%Z.
      - left. congruence.
      - right. injection Hd as <- _. simpl in Hall. now apply andb_true_iff in Hall as [? _]. }
    rewrite <- (scan_number_int z rest Hrest). rewrite Hd.
    change ((c :: tl) ++ rest) with (c :: (tl ++ rest)).
    now apply scan_once_number.
  - destruct fuel as [|f]; [simpl in Hfuel; lia|].
    cbn [dumps well_formed] in *. rewrite encode_string_app, scan_once_eq.
    change (c_quote =? 34) with true. cbv iota.
    now rewrite scanstring_encoded.
  - destruct fuel as [|f]; [simpl in Hfuel; lia|].
    cbn [dumps well_formed need] in *.
    apply forallb_Forall_decodes in IHl; [|exact Hwf].
    rewrite <- !app_assoc. change ([91] ++ ?x) with (91 :: x).
    rewrite scan_once_eq.
    change (91 =? 34) with false. change (91 =? 123) with false.
    change (91 =? 91) with true. cbv iota.
    destruct l as [|x l].
    + reflexivity.
    + inversion IHl as [|? ? Hx Hl]; subst.
      change ([93] ++ rest) with (93 :: rest).
      rewrite skip_ws_join.
      destruct (dumps_head x) as (c & tl & Hd & Hc1 & Hc2 & Hc3 & Hc4).
      assert (Hj : exists tl', join s_item_sep (map dumps (x :: l)) ++ 93 :: rest = c :: tl').
      { destruct l; cbn [map]; [cbn [join]|rewrite join_cons2]; rewrite Hd; eexists; reflexivity. }
      destruct Hj as [tl' Hj]. rewrite Hj.
      apply N.eqb_neq in Hc3. rewrite Hc3. rewrite <- Hj.
      rewrite (array_items_dumps l Hl x f rest Hx) by (simpl in *; lia).
      reflexivity.
  - destruct fuel as [|f]; [simpl in Hfuel; lia|].
    cbn [dumps well_formed need] in *.
    apply andb_true_iff in Hwf as [Hdistinct Hwf].
    apply forallb_Forall_items in IHd; [|exact Hwf]. destruct IHd as [Hdec Htext].
    rewrite <- !app_assoc. change ([123] ++ ?x) with (123 :: x).
    rewrite scan_once_eq.
    change (123 =? 34) with false. change (123 =? 123) with true. cbv iota.
    destruct d as [|[k x] d].
    + reflexivity.
    + inversion Hdec as [|? ? Hx Hd]; subst.
      cbn [forallb fst] in Htext. apply andb_true_iff in Htext as [Hk Htext].
      change ([125] ++ rest) with (125 :: rest).
      change (fun kv : pystr * pyval => encode_string (fst kv) ++ s_key_sep ++ dumps (snd kv))
        with dumps_item.
      rewrite join_items_tail.
      rewrite skip_ws_head by (unfold c_quote; lia).
      change (c_quote =? 125) with false. change (c_quote =? 34) with true. cbv iota.
      rewrite (object_items_dumps d Hd Htext k x f rest Hk Hx) by (simpl in *; lia).
      now rewrite dict_of_pairs_distinct.
Qed.

Lemma sum_need_join (A : Type) (f : A -> nat) (g : A -> pystr) (l : list A) :
  Forall (fun x => (f x <= length (g x))%nat) l ->
  (list_sum (map (fun x => S (f x)) l) <= length (join s_item_sep (map g l)) + 1)%nat.
Proof.
  induction 1 as [|x l Hx Hl IH]; [simpl; lia|].
  destruct l as [|y l].
  - simpl. lia.
  - cbn [map]. rewrite join_cons2, !length_app.
    cbn [map] in IH. change (length s_item_sep) with 2%nat.
    assert (Hsum : forall (a : nat) (r : list nat), list_sum (a :: r) = (a + list_sum r)%nat)
      by reflexivity.
    rewrite (Hsum (S (f x))). lia.
Qed.

Lemma need_le_length (v : pyval) : (need v <= length (dumps v))%nat.
Proof.
  induction v as [ | b | z | s | l IHl | d IHd ] using pyval_nested_ind.
  - simpl. lia.
  - destruct b; simpl; lia.
  - destruct (dumps_head (PInt z)) as (c & tl & -> & _). simpl. lia.
  - cbn [dumps need]. unfold encode_string. rewrite !length_app. simpl. lia.
  - cbn [dumps need]. rewrite !length_app.
    assert (H := sum_need_join _ need dumps l IHl). cbn [length]. lia.
  - cbn [dumps need]. rewrite !length_app.
    assert (Hd : Forall (fun kv => (need (snd kv) <= length (dumps_item kv))%nat) d).
    { apply Forall_impl with (2 := IHd). intros kv H. unfold dumps_item.
      rewrite !length_app. lia. }
    assert (H := sum_need_join _ (fun kv => need (snd kv)) dumps_item d Hd).
    change (fun kv : pystr * pyval => encode_string (fst kv) ++ s_key_sep ++ dumps (snd kv))
      with dumps_item.
    cbv beta in H. cbn [length].
    apply Nat.le_trans with (S (length (join s_item_sep (map dumps_item d)) + 1));
      [apply le_n_S; exact H|].
    rewrite !Nat.add_1_r. apply le_n.
Qed.

(** [json.loads(json.dumps(v)) == v] for every well-formed value. *)
Lemma loads_dumps (v : pyval) : well_formed v = true -> loads (dumps v) = Some v.
Proof.
  intros Hwf. unfold loads.
  assert (Hbom : startswith (dumps v) [65279] = false).
  { destruct (dumps_head v) as (c & tl & -> & _ & Hc & _). cbn [startswith].
    assert (E : (65279 =? c) = false) by (apply N.eqb_neq; lia). now rewrite E. }
  rewrite Hbom.
  rewrite <- (app_nil_r (dumps v)) at 2. rewrite skip_ws_dumps.
  rewrite (dumps_decodes v Hwf).
  - reflexivity.
  - assert (H := need_le_length v). lia.
  - reflexivity.
Qed.

(** Outside text the round trip can fail: a string that holds the two
    halves of a surrogate pair as two characters comes back as the one
    character they encode. *)
Lemma surrogate_pair_is_merged :
  loads (dumps (PStr [55357; 56832])) = Some (PStr [128512]).
Proof. vm_compute. reflexivity. Qed.

Lemma valid_history_well_formed (h : list pyval) :
  valid_history h -> well_formed (PList h) = true.
Proof.
  induction 1 as [|v h (role & content & -> & Hr & Hc) Hh IH]; [reflexivity|].
  cbn [well_formed forallb] in *. rewrite IH.
  unfold turn. cbn [well_formed forallb map fst snd].
  rewrite Hr, Hc. reflexivity.
Qed.

(** ** Sessions *)

Lemma fs_read_written (fs : filesystem) (path content : pystr) :
  fs_read (fs_write fs path content) path = Some content.
Proof. unfold fs_write. simpl. now rewrite pystr_eqb_refl. Qed.

Lemma load_written (dir : pystr) (fs : filesystem) (v : pyval) (n : pystr) :
  well_formed v = true ->
  load_session dir (fs_write fs (path_join dir (strip n)) (dumps v)) n = Returned v.
Proof.
  intros Hwf. unfold load_session.
  now rewrite fs_read_written, loads_dumps.
Qed.

(** The save goes through when the system refuses nothing and the path can
    name a file. *)
Lemma save_session_writes (E : environment) (fs : filesystem) (v : pyval)
    (filename : pystr) :
  E.(refuses) fs (path_join (sessions_data_dir E) filename) = None ->
  names_directory (path_join (sessions_data_dir E) filename) = false ->
  save_session E fs v filename
  = Returned (fs_write fs (path_join (sessions_data_dir E) filename) (dumps v)).
Proof. intros Hr Hd. unfold save_session. now rewrite Hr, Hd. Qed.

Lemma lower_app (a b : pystr) : lower (a ++ b) = lower a ++ lower b.
Proof. unfold lower. apply flat_map_app. Qed.

(** The save command: the name is what follows the six characters of the
    command, stripped. *)
Lemma interactive_loop_save_step (E : environment) (P : providers) (a : cli_args)
    (s : session) (n : pystr) (rest : list pystr) (m : mstate) :
  interactive_loop E P a s ((s_save ++ n) :: rest) m
  = match save_session E m.(m_fs) (heap_get m.(m_st).(st_heap) s.(s_history))
            (strip n) with
    | Raised e => (m, rest, Raised e)
    | Returned fs' =>
        interactive_loop E P a s rest
          (say {| m_fs := fs'; m_st := m.(m_st); m_out := m.(m_out) |}
               [Line (str "Conversation saved to "
                        ++ path_join (sessions_data_dir E) (strip n))])
    end.
Proof.
  cbn [interactive_loop]. rewrite lower_app.
  change (lower s_save) with s_save.
  assert (Hq : pystr_eqb (s_save ++ lower n) s_quit = false) by reflexivity.
  assert (Hs : startswith (s_save ++ lower n) s_save = true)
    by (apply startswith_iff; now exists (lower n)).
  rewrite Hq, Hs. reflexivity.
Qed.

Lemma interactive_loop_save (E : environment) (P : providers) (a : cli_args) (s : session)
    (n : pystr) (rest : list pystr) (m : mstate) :
  E.(refuses) m.(m_fs) (path_join (sessions_data_dir E) (strip n)) = None ->
  names_directory (path_join (sessions_data_dir E) (strip n)) = false ->
  interactive_loop E P a s ((s_save ++ n) :: rest) m
  = interactive_loop E P a s rest
      {| m_fs := fs_write m.(m_fs) (path_join (sessions_data_dir E) (strip n))
                   (dumps (heap_get m.(m_st).(st_heap) s.(s_history)));
         m_st := m.(m_st);
         m_out := m.(m_out)
                  ++ [Line (str "Conversation saved to "
                              ++ path_join (sessions_data_dir E) (strip n))] |}.
Proof.
  intros Hr Hd. rewrite interactive_loop_save_step.
  now rewrite (save_session_writes E _ _ _ Hr Hd).
Qed.

(** A run started with [--load] has for history the value read from the
    session file, and no decorators. *)
Lemma prepare_loads_history (E : environment) (a : cli_args) (g g' : globals) (m : mstate)
    (n model : pystr) (v : pyval) :
  a.(load) = Some n -> n <> [] ->
  load_session (sessions_data_dir E) m.(m_fs) n = Returned v ->
  resolve_model E a = Returned model ->
  credentials E a g = Returned g' ->
  exists m1 s,
    prepare E a g m = (m1, Returned s)
    /\ heap_get m1.(m_st).(st_heap) s.(s_history) = v
    /\ s.(s_decorators) = [].
Proof.
  intros Hload Hn Hfile Hmodel Hcred.
  rewrite (prepare_loading E a g g' m n model v Hload Hn Hfile Hmodel Hcred).
  eexists _, _. split; [reflexivity|]. split; [|reflexivity].
  simpl. unfold heap_get. rewrite app_nth2 by lia.
  replace (S (length m.(m_st).(st_heap)) - length m.(m_st).(st_heap))%nat with 1%nat by lia.
  reflexivity.
Qed.

(** C3, as the code has it: a valid history, a list of records with a role
    and a content that are text, saved by the save command of the interactive
    loop under a name that can name a file (its path does not end with a
    slash or in a component [.] or [..]) and that the system lets the program
    create, and then loaded under that name, is the history that was saved:
    the same records with the same role and content, in the same order.  The
    first part is the save: the file is written and announced, the objects
    are untouched and the loop goes on with the rest of its input.  The
    second is the loading of that file; the third is the loading as [main]
    does it: a later run with [--load] and that name, on a machine with these
    files, starts from the history that was saved. *)
Theorem session_round_trip (E : environment) (P : providers) (a : cli_args) (s : session)
    (m : mstate) (n : pystr) (rest : list pystr) (h : list pyval) :
  heap_get m.(m_st).(st_heap) s.(s_history) = PList h ->
  valid_history h ->
  E.(refuses) m.(m_fs) (path_join (sessions_data_dir E) (strip n)) = None ->
  names_directory (path_join (sessions_data_dir E) (strip n)) = false ->
  interactive_loop E P a s ((s_save ++ n) :: rest) m
  = interactive_loop E P a s rest
      {| m_fs := fs_write m.(m_fs) (path_join (sessions_data_dir E) (strip n))
                   (dumps (PList h));
         m_st := m.(m_st);
         m_out := m.(m_out)
                  ++ [Line (str "Conversation saved to "
                              ++ path_join (sessions_data_dir E) (strip n))] |}
  /\ load_session (sessions_data_dir E)
       (fs_write m.(m_fs) (path_join (sessions_data_dir E) (strip n)) (dumps (PList h))) n
     = Returned (PList h)
  /\ (forall (a2 : cli_args) (g g' : globals) (model : pystr) (m2 : mstate),
        m2.(m_fs) = fs_write m.(m_fs) (path_join (sessions_data_dir E) (strip n))
                      (dumps (PList h)) ->
        a2.(load) = Some n -> n <> [] ->
        resolve_model E a2 = Returned model ->
        credentials E a2 g = Returned g' ->
        exists m3 s2,
          prepare E a2 g m2 = (m3, Returned s2)
          /\ heap_get m3.(m_st).(st_heap) s2.(s_history) = PList h
          /\ s2.(s_decorators) = []).
Proof.
  intros Hget Hvalid Hr Hd.
  assert (Hload : load_session (sessions_data_dir E)
                    (fs_write m.(m_fs) (path_join (sessions_data_dir E) (strip n))
                       (dumps (PList h))) n
                  = Returned (PList h))
    by (apply load_written; now apply valid_history_well_formed).
  split; [|split].
  - rewrite (interactive_loop_save E P a s n rest m Hr Hd). now rewrite Hget.
  - exact Hload.
  - intros a2 g g' model m2 Hfs Ha2 Hn Hmodel Hcred.
    apply (prepare_loads_history E a2 g g' m2 n model (PList h) Ha2 Hn); auto.
    now rewrite Hfs.
Qed.

Lemma session_round_trip_witness :
  valid_history Fixtures.earlier
  /\ names_directory (path_join (sessions_data_dir Fixtures.surroundings)
                        (strip Fixtures.demo)) = false
  /\ interactive_loop Fixtures.surroundings Fixtures.streaming
       (Fixtures.interactive_args e_openai) (Fixtures.session_at_0 Fixtures.gpt4 [])
       [s_save ++ Fixtures.demo; s_quit] (Fixtures.machine_with (PList Fixtures.earlier))
     = ({| m_fs := [(str "/data/sessions/demo.json", dumps (PList Fixtures.earlier))];
           m_st := (Fixtures.machine_with (PList Fixtures.earlier)).(m_st);
           m_out := [Line (str "Conversation saved to /data/sessions/demo.json")] |},
        [], Returned tt)
  /\ load_session (sessions_data_dir Fixtures.surroundings)
       [(str "/data/sessions/demo.json", dumps (PList Fixtures.earlier))] Fixtures.demo
     = Returned (PList Fixtures.earlier).
Proof.
  assert (Hv : valid_history Fixtures.earlier).
  { repeat constructor; eexists _, _; (split; [reflexivity|split; reflexivity]). }
  assert (Hd : names_directory (path_join (sessions_data_dir Fixtures.surroundings)
                                  (strip Fixtures.demo)) = false) by reflexivity.
  split; [exact Hv|]. split; [exact Hd|].
  destruct (session_round_trip Fixtures.surroundings Fixtures.streaming
              (Fixtures.interactive_args e_openai) (Fixtures.session_at_0 Fixtures.gpt4 [])
              (Fixtures.machine_with (PList Fixtures.earlier)) Fixtures.demo [s_quit]
              Fixtures.earlier eq_refl Hv eq_refl Hd) as (Hloop & Hload & _).
  split; [rewrite Hloop; reflexivity|exact Hload].
Defined.

(** C3 as it is written fails: not every name can be saved under.  A name
    that is blank once stripped, or that ends with a slash, gives the path of
    a directory: the save raises [IsADirectoryError], which ends the run;
    nothing is written, and loading the name does not give the history. *)
Lemma directory_name_is_not_saved :
  valid_history Fixtures.earlier
  /\ interactive_loop Fixtures.surroundings Fixtures.streaming
       (Fixtures.interactive_args e_openai) (Fixtures.session_at_0 Fixtures.gpt4 [])
       [s_save ++ Samples.blank; s_quit] (Fixtures.machine_with (PList Fixtures.earlier))
     = (Fixtures.machine_with (PList Fixtures.earlier), [s_quit], Raised IsADirectoryError)
  /\ load_session (sessions_data_dir Fixtures.surroundings)
       (Fixtures.machine_with (PList Fixtures.earlier)).(m_fs) Samples.blank
     <> Returned (PList Fixtures.earlier)
  /\ interactive_loop Fixtures.surroundings Fixtures.streaming
       (Fixtures.interactive_args e_openai) (Fixtures.session_at_0 Fixtures.gpt4 [])
       [s_save ++ Samples.folder; s_quit] (Fixtures.machine_with (PList Fixtures.earlier))
     = (Fixtures.machine_with (PList Fixtures.earlier), [s_quit], Raised IsADirectoryError)
  /\ load_session (sessions_data_dir Fixtures.surroundings)
       (Fixtures.machine_with (PList Fixtures.earlier)).(m_fs) Samples.folder
     <> Returned (PList Fixtures.earlier).
Proof.
  split.
  { repeat constructor; eexists _, _; (split; [reflexivity|split; reflexivity]). }
  split; [vm_compute; reflexivity|].
  split; [vm_compute; discriminate|].
  split; [vm_compute; reflexivity|vm_compute; discriminate].
Qed.


(* ================================================================== *)
(** * Further properties *)

(** ** [chat] *)

(** X1: with the engine ["openai"] and a streamed response that ends
    normally, the reply of [chat] is the texts of the fragments put together
    in the order of arrival; fragments without content add nothing, and a
    stream without any text gives the empty string. *)
Theorem chat_streamed_reply (P : providers) (G : globals) (st : pstate)
    (prompt : option pystr) (decorators : list pystr) (model : pystr) (max_tokens : Z)
    (stream : bool) (request_timeout : Z) (temp : Q) (history : option loc)
    (fragments : list fragment) :
  (forall sent req, P.(openai_create) sent req = Stream fragments None) ->
  snd (chat P G st prompt decorators model max_tokens stream request_timeout temp history
         e_openai)
  = Returned (Some (concat (map fragment_text fragments)))
  /\ (Forall (fun f => fragment_text f = []) fragments ->
      snd (chat P G st prompt decorators model max_tokens stream request_timeout temp
             history e_openai)
      = Returned (Some [])).
Proof.
  intros HP.
  assert (Hr := chat_stream_concatenates P G st prompt decorators model max_tokens stream
                  request_timeout temp history fragments HP).
  split; [exact Hr|].
  intros Hall. rewrite Hr. do 2 f_equal.
  clear HP Hr. induction Hall as [|f fs Hf Hfs IH]; [reflexivity|].
  simpl. now rewrite Hf, IH.
Qed.

Lemma chat_streamed_reply_witness :
  (forall sent req,
     Fixtures.streaming.(openai_create) sent req
     = Stream [Some (str "Hel"); None; Some (str "lo")] None)
  /\ snd (chat Fixtures.streaming Fixtures.no_keys Fixtures.empty_state (Some Fixtures.hi) []
            Fixtures.gpt4 1000%Z true 15%Z (3 # 4) None e_openai)
     = Returned (Some Samples.hello).
Proof.
  assert (HP : forall sent req,
             Fixtures.streaming.(openai_create) sent req
             = Stream [Some (str "Hel"); None; Some (str "lo")] None)
    by (intros; reflexivity).
  split; [exact HP|].
  exact (proj1 (chat_streamed_reply Fixtures.streaming Fixtures.no_keys Fixtures.empty_state
                  (Some Fixtures.hi) [] Fixtures.gpt4 1000%Z true 15%Z (3 # 4) None _ HP)).
Defined.

(** X2: when the stream breaks with an exception after some fragments have
    arrived, [chat] raises that exception: the text received so far is not
    returned.  Every object that existed before the call is as it was. *)
Theorem chat_broken_stream (P : providers) (G : globals) (st : pstate)
    (prompt : option pystr) (decorators : list pystr) (model : pystr) (max_tokens : Z)
    (stream : bool) (request_timeout : Z) (temp : Q) (history : option loc)
    (fragments : list fragment) (e : exn) :
  (forall sent req, P.(openai_create) sent req = Stream fragments (Some e)) ->
  snd (chat P G st prompt decorators model max_tokens stream request_timeout temp history
         e_openai)
  = Raised e
  /\ forall l, (l < length st.(st_heap))%nat ->
       heap_get (fst (chat P G st prompt decorators model max_tokens stream request_timeout
                        temp history e_openai)).(st_heap) l
       = heap_get st.(st_heap) l.
Proof.
  intros HP. split.
  - destruct (chat_openai P G st prompt decorators model max_tokens stream request_timeout
                temp history) as (h & l & _ & Hc).
    rewrite Hc. cbv zeta. simpl snd. now rewrite HP.
  - destruct (chat P G st prompt decorators model max_tokens stream request_timeout temp
                history e_openai) as [st' r] eqn:Hc.
    apply chat_keeps_objects in Hc. now destruct Hc as (_ & Hkeep & _).
Qed.

Lemma chat_broken_stream_witness :
  (forall sent req,
     Samples.breaking.(openai_create) sent req
     = Stream [Some (str "Hel")] (Some (APIError Fixtures.cause)))
  /\ snd (chat Samples.breaking Fixtures.no_keys Fixtures.empty_state (Some Fixtures.hi) []
            Fixtures.gpt4 1000%Z true 15%Z (3 # 4) None e_openai)
     = Raised (APIError Fixtures.cause).
Proof.
  assert (HP : forall sent req,
             Samples.breaking.(openai_create) sent req
             = Stream [Some (str "Hel")] (Some (APIError Fixtures.cause)))
    by (intros; reflexivity).
  split; [exact HP|].
  exact (proj1 (chat_broken_stream Samples.breaking Fixtures.no_keys Fixtures.empty_state
                  (Some Fixtures.hi) [] Fixtures.gpt4 1000%Z true 15%Z (3 # 4) None _ _ HP)).
Defined.

(** X3: with the engine ["openai"], a history that is supplied and is not
    empty is sent as it is: [chat] adds neither the decorators nor the
    prompt to it, so that the request is the same whatever these two
    arguments are, and the heap is left as it was. *)
Theorem chat_supplied_history_sent_as_is (P : providers) (G : globals) (st : pstate)
    (prompt : option pystr) (decorators : list pystr) (model : pystr) (max_tokens : Z)
    (stream : bool) (request_timeout : Z) (temp : Q) (l : loc)
    (first : pyval) (others : list pyval) :
  heap_get st.(st_heap) l = PList (first :: others) ->
  fst (chat P G st prompt decorators model max_tokens stream request_timeout temp (Some l)
         e_openai)
  = {| st_heap := st.(st_heap);
       st_sent := st.(st_sent)
         ++ [ToOpenAI {| o_max_tokens := max_tokens; o_model := model;
                         o_request_timeout := request_timeout; o_stream := stream;
                         o_temperature := temp;
                         o_messages := PList (first :: others);
                         o_api_key := G.(openai_api_key) |}] |}.
Proof.
  intros Hget.
  destruct (chat_openai P G st prompt decorators model max_tokens stream request_timeout
              temp (Some l)) as (h & l' & Hm & Hc).
  rewrite Hc. cbv zeta. simpl fst.
  rewrite chat_messages_supplied in Hm by (now rewrite Hget).
  inversion Hm; subst. now rewrite Hget.
Qed.

Lemma chat_supplied_history_sent_as_is_witness :
  heap_get (Samples.state_with (PList Fixtures.earlier)).(st_heap) 0%nat
    = PList Fixtures.earlier
  /\ fst (chat Fixtures.streaming Fixtures.no_keys (Samples.state_with (PList Fixtures.earlier))
            (Some Fixtures.hi) [Fixtures.be_concise] Fixtures.gpt4 1000%Z true 15%Z (3 # 4)
            (Some 0%nat) e_openai)
     = {| st_heap := [PList Fixtures.earlier];
          st_sent := [ToOpenAI {| o_max_tokens := 1000; o_model := Fixtures.gpt4;
                                  o_request_timeout := 15; o_stream := true;
                                  o_temperature := 3 # 4;
                                  o_messages := PList Fixtures.earlier;
                                  o_api_key := None |}] |}.
Proof.
  split; [reflexivity|].
  exact (chat_supplied_history_sent_as_is Fixtures.streaming Fixtures.no_keys
           (Samples.state_with (PList Fixtures.earlier)) (Some Fixtures.hi)
           [Fixtures.be_concise] Fixtures.gpt4 1000%Z true 15%Z (3 # 4) 0%nat _ _ eq_refl).
Defined.

(** X4: an empty list given for history counts as no history: the request
    is the one built from the decorators and the prompt, as when [None] is
    given.  The list is built in a new object: the list of the caller is
    still empty after the call. *)
Theorem chat_empty_history_is_rebuilt (P : providers) (G : globals) (st : pstate)
    (prompt : option pystr) (decorators : list pystr) (model : pystr) (max_tokens : Z)
    (stream : bool) (request_timeout : Z) (temp : Q) (l : loc) :
  (l < length st.(st_heap))%nat ->
  heap_get st.(st_heap) l = PList [] ->
  transmitted st
    (fst (chat P G st prompt decorators model max_tokens stream request_timeout temp
            (Some l) e_openai))
  = [ToOpenAI {| o_max_tokens := max_tokens; o_model := model;
                 o_request_timeout := request_timeout; o_stream := stream;
                 o_temperature := temp;
                 o_messages := PList (map system_turn decorators
                                        ++ [turn r_user (of_opt prompt)]);
                 o_api_key := G.(openai_api_key) |}]
  /\ transmitted st
       (fst (chat P G st prompt decorators model max_tokens stream request_timeout temp
               (Some l) e_openai))
     = transmitted st
         (fst (chat P G st prompt decorators model max_tokens stream request_timeout temp
                 None e_openai))
  /\ heap_get (fst (chat P G st prompt decorators model max_tokens stream request_timeout
                      temp (Some l) e_openai)).(st_heap) l
     = PList [].
Proof.
  intros Hl Hget.
  assert (Hsame : chat_messages st.(st_heap) prompt decorators (Some l)
                  = chat_messages st.(st_heap) prompt decorators None).
  { unfold chat_messages. now rewrite Hget. }
  assert (Hreq : forall history,
             chat_messages st.(st_heap) prompt decorators history
             = chat_messages st.(st_heap) prompt decorators None ->
             transmitted st
               (fst (chat P G st prompt decorators model max_tokens stream request_timeout
                       temp history e_openai))
             = [ToOpenAI {| o_max_tokens := max_tokens; o_model := model;
                            o_request_timeout := request_timeout; o_stream := stream;
                            o_temperature := temp;
                            o_messages := PList (map system_turn decorators
                                                   ++ [turn r_user (of_opt prompt)]);
                            o_api_key := G.(openai_api_key) |}]).
  { intros history Hh.
    destruct (chat_openai P G st prompt decorators model max_tokens stream request_timeout
                temp history) as (h & l' & Hm & Hc).
    rewrite Hc. cbv zeta. simpl fst. rewrite transmitted_app.
    rewrite Hh, chat_messages_built in Hm. inversion Hm; subst.
    rewrite heap_get_set_same by (rewrite length_app; simpl; lia). reflexivity. }
  split; [now apply Hreq|]. split; [now rewrite !Hreq|].
  destruct (chat P G st prompt decorators model max_tokens stream request_timeout temp
              (Some l) e_openai) as [st' r] eqn:Hc.
  apply chat_keeps_objects in Hc. destruct Hc as (_ & Hkeep & _).
  simpl fst. now rewrite Hkeep.
Qed.

Lemma chat_empty_history_is_rebuilt_witness :
  (0 < length (Samples.state_with (PList [])).(st_heap))%nat
  /\ heap_get (Samples.state_with (PList [])).(st_heap) 0%nat = PList []
  /\ heap_get (fst (chat Fixtures.streaming Fixtures.no_keys (Samples.state_with (PList []))
                      (Some Fixtures.hi) [Fixtures.be_concise] Fixtures.gpt4 1000%Z true
                      15%Z (3 # 4) (Some 0%nat) e_openai)).(st_heap) 0%nat
     = PList [].
Proof.
  assert (H1 : (0 < length (Samples.state_with (PList [])).(st_heap))%nat) by (simpl; lia).
  split; [exact H1|]. split; [reflexivity|].
  exact (proj2 (proj2 (chat_empty_history_is_rebuilt Fixtures.streaming Fixtures.no_keys
                         (Samples.state_with (PList [])) (Some Fixtures.hi)
                         [Fixtures.be_concise] Fixtures.gpt4 1000%Z true 15%Z (3 # 4) 0%nat
                         H1 eq_refl))).
Defined.

(** X5: whatever its arguments, the engine and the answer of the provider,
    and whether it returns or raises, [chat] changes no object that existed
    before the call (the history of the caller among them) and transmits at
    most one request. *)
Theorem chat_leaves_objects_alone (P : providers) (G : globals) (st : pstate)
    (prompt : option pystr) (decorators : list pystr) (model : pystr) (max_tokens : Z)
    (stream : bool) (request_timeout : Z) (temp : Q) (history : option loc)
    (engine : pystr) :
  (forall l, (l < length st.(st_heap))%nat ->
     heap_get (fst (chat P G st prompt decorators model max_tokens stream request_timeout
                      temp history engine)).(st_heap) l
     = heap_get st.(st_heap) l)
  /\ (length (transmitted st
                (fst (chat P G st prompt decorators model max_tokens stream request_timeout
                        temp history engine))) <= 1)%nat.
Proof.
  destruct (chat P G st prompt decorators model max_tokens stream request_timeout temp
              history engine) as [st' r] eqn:Hc.
  apply chat_keeps_objects in Hc. destruct Hc as (_ & Hkeep & more & Hs & Hlen).
  simpl fst. split; [exact Hkeep|].
  unfold transmitted. rewrite Hs, skipn_length_app. exact Hlen.
Qed.

(** ** The interactive loop *)

Lemma ask_sends_at_most_one (P : providers) (a : cli_args) (s : session) (m : mstate)
    (prompt : option pystr) :
  exists more,
    (fst (ask P a s m prompt)).(m_st).(st_sent) = m.(m_st).(st_sent) ++ more
    /\ (length more <= 1)%nat.
Proof.
  unfold ask.
  destruct (py_append _ _ _) as [h1|e].
  - destruct (chat _ _ _ _ _ _ _ _ _ _ _ _) as [st2 r] eqn:Hc.
    apply chat_keeps_objects in Hc. destruct Hc as (_ & _ & more & Hs & Hlen).
    exists more. split; [exact Hs|exact Hlen].
  - exists []. simpl. rewrite app_nil_r. split; [reflexivity|lia].
Qed.

Lemma ask_other_engine (P : providers) (a : cli_args) (s : session) (m : mstate)
    (H : list pyval) (prompt : option pystr) :
  a.(engine) <> e_openai -> a.(engine) <> e_anthropic ->
  heap_get m.(m_st).(st_heap) s.(s_history) = PList H ->
  ask P a s m prompt
  = (with_heap m (heap_set m.(m_st).(st_heap) s.(s_history)
                    (PList (H ++ [turn r_user (of_opt prompt)]))),
     Returned None).
Proof.
  intros H1 H2 Hget. rewrite (ask_unfold P a s m H prompt Hget).
  rewrite chat_other_engine by assumption. reflexivity.
Qed.

(** One prompt that is answered: both turns are appended and the loop goes
    on. *)
Lemma interactive_loop_reply (E : environment) (P : providers) (a : cli_args) (s : session)
    (m : mstate) (H : list pyval) (prompt : pystr) (rest : list pystr)
    (reply : option pystr) :
  (s.(s_history) < length m.(m_st).(st_heap))%nat ->
  heap_get m.(m_st).(st_heap) s.(s_history) = PList H ->
  lower prompt <> s_quit ->
  startswith (lower prompt) s_save = false ->
  snd (ask P a s m (Some prompt)) = Returned reply ->
  exists m',
    interactive_loop E P a s (prompt :: rest) m = interactive_loop E P a s rest m'
    /\ heap_get m'.(m_st).(st_heap) s.(s_history)
       = PList (H ++ [user_turn prompt; turn r_assistant (of_opt reply)])
    /\ (forall l, (l < length m.(m_st).(st_heap))%nat -> l <> s.(s_history) ->
          heap_get m'.(m_st).(st_heap) l = heap_get m.(m_st).(st_heap) l)
    /\ (length m.(m_st).(st_heap) <= length m'.(m_st).(st_heap))%nat
    /\ m'.(m_st).(st_sent) = (fst (ask P a s m (Some prompt))).(m_st).(st_sent)
    /\ m'.(m_out) = m.(m_out) ++ [Line (str "rbot: " ++ format_opt reply)]
    /\ m'.(m_fs) = m.(m_fs).
Proof.
  intros Hl Hget Hq Hs Hr.
  destruct (ask_history P a s m H (Some prompt) Hl Hget) as (Hh & Hkeep & Hlen & Hout & Hfs).
  rewrite (interactive_loop_prompt E P a s prompt rest m Hq Hs).
  destruct (ask P a s m (Some prompt)) as [m1 r]. simpl in Hr, Hh, Hkeep, Hlen, Hout, Hfs.
  subst r. simpl fst.
  rewrite (py_append_list _ _ _ _ Hh).
  eexists. split; [reflexivity|].
  assert (Hl1 : (s.(s_history) < length m1.(m_st).(st_heap))%nat) by lia.
  simpl. repeat split.
  - rewrite heap_get_set_same by exact Hl1. now rewrite <- app_assoc.
  - intros l Hl' Hne. rewrite heap_get_set_other by congruence. now apply Hkeep.
  - rewrite heap_set_length. exact Hlen.
  - now rewrite Hout.
  - exact Hfs.
Qed.



(** X7: the interactive loop only ever appends to the history: whatever
    the input lines are and however the loop ends (a quit command, the end of
    the input, an exception), the history it leaves starts with the history
    it was given. *)
Theorem loop_history_only_grows (E : environment) (P : providers) (a : cli_args)
    (s : session) (inputs : list pystr) (m : mstate) (H : list pyval) :
  (s.(s_history) < length m.(m_st).(st_heap))%nat ->
  heap_get m.(m_st).(st_heap) s.(s_history) = PList H ->
  exists more,
    heap_get (fst (fst (interactive_loop E P a s inputs m))).(m_st).(st_heap) s.(s_history)
    = PList (H ++ more).
Proof.
  revert m H. induction inputs as [|prompt rest IH]; intros m H Hl Hget.
  - exists []. simpl. now rewrite app_nil_r.
  - destruct (pystr_eqb (lower prompt) s_quit) eqn:Eq.
    { exists []. cbn [interactive_loop]. rewrite Eq. simpl. now rewrite app_nil_r. }
    destruct (startswith (lower prompt) s_save) eqn:Es.
    { cbn [interactive_loop]. rewrite Eq, Es.
      destruct (save_session _ _ _ _) as [fs'|e].
      - match goal with |- context [interactive_loop E P a s rest ?m0] =>
          destruct (IH m0 H) as [more Hm]; [exact Hl|exact Hget|] end.
        exists more. exact Hm.
      - exists []. cbn [fst]. now rewrite app_nil_r. }
    apply pystr_eqb_neq in Eq.
    destruct (snd (ask P a s m (Some prompt))) as [reply|e] eqn:Hr.
    + destruct (interactive_loop_reply E P a s m H prompt rest reply Hl Hget Eq Es Hr)
        as (m' & Hloop & Hh & _ & Hlen & _).
      rewrite Hloop.
      destruct (IH m' _ (Nat.lt_le_trans _ _ _ Hl Hlen) Hh) as [more Hm].
      exists ([user_turn prompt; turn r_assistant (of_opt reply)] ++ more).
      rewrite Hm. now rewrite <- app_assoc.
    + destruct (ask_history P a s m H (Some prompt) Hl Hget) as (Hh & _).
      rewrite (interactive_loop_prompt E P a s prompt rest m Eq Es).
      destruct (ask P a s m (Some prompt)) as [m1 r]. simpl in Hr, Hh. subst r.
      exists [user_turn prompt]. exact Hh.
Qed.

Lemma loop_history_only_grows_witness :
  ((Fixtures.session_at_0 Fixtures.gpt4 []).(s_history)
   < length (Fixtures.machine_with (PList Fixtures.earlier)).(m_st).(st_heap))%nat
  /\ exists more,
       heap_get (fst (fst (interactive_loop Fixtures.surroundings Fixtures.streaming
                             (Fixtures.interactive_args e_openai)
                             (Fixtures.session_at_0 Fixtures.gpt4 [])
                             [Fixtures.hi; s_save ++ Fixtures.demo; Samples.again]
                             (Fixtures.machine_with (PList Fixtures.earlier))))).(m_st).(st_heap)
         0%nat
       = PList (Fixtures.earlier ++ more).
Proof.
  assert (H1 : ((Fixtures.session_at_0 Fixtures.gpt4 []).(s_history)
                < length (Fixtures.machine_with (PList Fixtures.earlier)).(m_st).(st_heap))%nat)
    by (simpl; lia).
  split; [exact H1|].
  exact (loop_history_only_grows Fixtures.surroundings Fixtures.streaming
           (Fixtures.interactive_args e_openai) (Fixtures.session_at_0 Fixtures.gpt4 [])
           [Fixtures.hi; s_save ++ Fixtures.demo; Samples.again]
           (Fixtures.machine_with (PList Fixtures.earlier)) Fixtures.earlier H1 eq_refl).
Defined.

(** X8: the interactive loop transmits at most one request for each line
    it reads; the commands transmit none. *)
Theorem loop_one_request_per_line (E : environment) (P : providers) (a : cli_args)
    (s : session) (inputs : list pystr) (m : mstate) :
  (length (transmitted m.(m_st) (fst (fst (interactive_loop E P a s inputs m))).(m_st))
   + length (snd (fst (interactive_loop E P a s inputs m)))
   <= length inputs)%nat.
Proof.
  assert (Hgen : forall inputs m, exists more,
             (fst (fst (interactive_loop E P a s inputs m))).(m_st).(st_sent)
             = m.(m_st).(st_sent) ++ more
             /\ (length more + length (snd (fst (interactive_loop E P a s inputs m)))
                 <= length inputs)%nat).
  { clear inputs m. induction inputs as [|prompt rest IH]; intros m.
    - exists []. cbn [interactive_loop fst snd]. rewrite app_nil_r.
      split; [reflexivity|cbn [length]; lia].
    - cbn [interactive_loop].
      destruct (pystr_eqb (lower prompt) s_quit).
      { exists []. cbn [fst snd]. rewrite app_nil_r. split; [reflexivity|cbn [length]; lia]. }
      destruct (startswith (lower prompt) s_save).
      { destruct (save_session _ _ _ _) as [fs'|e].
        - match goal with |- context [interactive_loop E P a s rest ?m0] =>
            destruct (IH m0) as (more & Hm & Hlen) end.
          exists more. split; [exact Hm|]. cbn [length]. lia.
        - exists []. cbn [fst snd]. rewrite app_nil_r.
          split; [reflexivity|cbn [length]; lia]. }
      destruct (ask_sends_at_most_one P a s m (Some prompt)) as (more1 & H1 & Hlen1).
      destruct (ask P a s m (Some prompt)) as [m1 [reply|e]]; simpl fst in H1.
      + destruct (py_append _ _ _) as [h2|e].
        * match goal with |- context [interactive_loop E P a s rest ?m0] =>
            destruct (IH m0) as (more2 & H2 & Hlen2) end.
          exists (more1 ++ more2). split.
          -- rewrite H2. simpl. rewrite H1. now rewrite app_assoc.
          -- rewrite length_app. cbn [length]. lia.
        * exists more1. split; [exact H1|]. cbn [fst snd length]. lia.
      + exists more1. split; [exact H1|]. cbn [fst snd length]. lia. }
  destruct (Hgen inputs m) as (more & Hm & Hlen).
  unfold transmitted. rewrite Hm, skipn_length_app. exact Hlen.
Qed.

Lemma loop_first_request (E : environment) (P : providers) (a : cli_args) (s : session)
    (m : mstate) (H : list pyval) (prompt : pystr) (rest : list pystr) :
  a.(engine) = e_openai ->
  (s.(s_history) < length m.(m_st).(st_heap))%nat ->
  heap_get m.(m_st).(st_heap) s.(s_history) = PList H ->
  lower prompt <> s_quit ->
  startswith (lower prompt) s_save = false ->
  exists more,
    (fst (fst (interactive_loop E P a s (prompt :: rest) m))).(m_st).(st_sent)
    = m.(m_st).(st_sent)
      ++ ToOpenAI {| o_max_tokens := 1000; o_model := s.(s_model);
                     o_request_timeout := 15; o_stream := true;
                     o_temperature := a.(temperature);
                     o_messages := PList (H ++ [user_turn prompt]);
                     o_api_key := s.(s_globals).(openai_api_key) |} :: more.
Proof.
  intros He Hl Hget Hq Hs.
  assert (Hask := ask_openai P a s m H (Some prompt) He Hl Hget).
  destruct (snd (ask P a s m (Some prompt))) as [reply|e] eqn:Hr.
  - destruct (interactive_loop_reply E P a s m H prompt rest reply Hl Hget Hq Hs Hr)
      as (m' & Hloop & _ & _ & _ & Hsent & _).
    rewrite Hloop.
    destruct (interactive_loop_sent_grows E P a s rest m') as [more Hmore].
    exists more. rewrite Hmore, Hsent, Hask. simpl. now rewrite <- app_assoc.
  - rewrite (interactive_loop_prompt E P a s prompt rest m Hq Hs).
    destruct (ask P a s m (Some prompt)) as [m1 r]. simpl in Hr. subst r.
    exists []. simpl fst. inversion Hask; subst. reflexivity.
Qed.

(** X9: the conversation is carried from one prompt to the next.  With the
    engine ["openai"], when a first prompt is answered, the request for the
    prompt that follows has for messages the history, the first prompt,
    its reply as an assistant turn, and the second prompt. *)
Theorem second_request_carries_first_exchange (E : environment) (P : providers)
    (a : cli_args) (s : session) (m : mstate) (H : list pyval)
    (prompt1 reply1 prompt2 : pystr) (rest : list pystr) :
  a.(engine) = e_openai ->
  (s.(s_history) < length m.(m_st).(st_heap))%nat ->
  heap_get m.(m_st).(st_heap) s.(s_history) = PList H ->
  lower prompt1 <> s_quit -> startswith (lower prompt1) s_save = false ->
  lower prompt2 <> s_quit -> startswith (lower prompt2) s_save = false ->
  snd (ask P a s m (Some prompt1)) = Returned (Some reply1) ->
  exists more,
    transmitted m.(m_st)
      (fst (fst (interactive_loop E P a s (prompt1 :: prompt2 :: rest) m))).(m_st)
    = ToOpenAI {| o_max_tokens := 1000; o_model := s.(s_model);
                  o_request_timeout := 15; o_stream := true;
                  o_temperature := a.(temperature);
                  o_messages := PList (H ++ [user_turn prompt1]);
                  o_api_key := s.(s_globals).(openai_api_key) |}
      :: ToOpenAI {| o_max_tokens := 1000; o_model := s.(s_model);
                     o_request_timeout := 15; o_stream := true;
                     o_temperature := a.(temperature);
                     o_messages := PList (H ++ [user_turn prompt1; assistant_turn reply1;
                                                user_turn prompt2]);
                     o_api_key := s.(s_globals).(openai_api_key) |}
      :: more.
Proof.
  intros He Hl Hget Hq1 Hs1 Hq2 Hs2 Hr.
  assert (Hask := ask_openai P a s m H (Some prompt1) He Hl Hget).
  destruct (interactive_loop_reply E P a s m H prompt1 (prompt2 :: rest) (Some reply1)
              Hl Hget Hq1 Hs1 Hr) as (m' & Hloop & Hh & _ & Hlen & Hsent & _).
  rewrite Hloop.
  destruct (loop_first_request E P a s m' _ prompt2 rest He
              (Nat.lt_le_trans _ _ _ Hl Hlen) Hh Hq2 Hs2) as [more Hmore].
  exists more. unfold transmitted. rewrite Hmore, Hsent, Hask.
  cbn [fst with_st m_st st_sent].
  rewrite <- !app_assoc, skipn_length_app. reflexivity.
Qed.

Lemma second_request_carries_first_exchange_witness :
  (Fixtures.interactive_args e_openai).(engine) = e_openai
  /\ snd (ask Fixtures.streaming (Fixtures.interactive_args e_openai)
            (Fixtures.session_at_0 Fixtures.gpt4 [])
            (Fixtures.machine_with (PList Fixtures.earlier)) (Some Fixtures.hi))
     = Returned (Some Samples.hello)
  /\ exists more,
       transmitted (Fixtures.machine_with (PList Fixtures.earlier)).(m_st)
         (fst (fst (interactive_loop Fixtures.surroundings Fixtures.streaming
                      (Fixtures.interactive_args e_openai)
                      (Fixtures.session_at_0 Fixtures.gpt4 [])
                      [Fixtures.hi; Samples.again; s_quit]
                      (Fixtures.machine_with (PList Fixtures.earlier))))).(m_st)
       = ToOpenAI {| o_max_tokens := 1000; o_model := Fixtures.gpt4;
                     o_request_timeout := 15; o_stream := true; o_temperature := 3 # 4;
                     o_messages := PList (Fixtures.earlier ++ [user_turn Fixtures.hi]);
                     o_api_key := None |}
         :: ToOpenAI {| o_max_tokens := 1000; o_model := Fixtures.gpt4;
                        o_request_timeout := 15; o_stream := true; o_temperature := 3 # 4;
                        o_messages :=
                          PList (Fixtures.earlier
                                   ++ [user_turn Fixtures.hi; assistant_turn Samples.hello;
                                       user_turn Samples.again]);
                        o_api_key := None |}
         :: more.
Proof.
  assert (H0 : (Fixtures.interactive_args e_openai).(engine) = e_openai) by reflexivity.
  assert (H1 : ((Fixtures.session_at_0 Fixtures.gpt4 []).(s_history)
                < length (Fixtures.machine_with (PList Fixtures.earlier)).(m_st).(st_heap))%nat)
    by (simpl; lia).
  assert (H3 : lower Fixtures.hi <> s_quit) by (vm_compute; discriminate).
  assert (H4 : startswith (lower Fixtures.hi) s_save = false) by (vm_compute; reflexivity).
  assert (H5 : lower Samples.again <> s_quit) by (vm_compute; discriminate).
  assert (H6 : startswith (lower Samples.again) s_save = false) by (vm_compute; reflexivity).
  assert (H7 : snd (ask Fixtures.streaming (Fixtures.interactive_args e_openai)
                      (Fixtures.session_at_0 Fixtures.gpt4 [])
                      (Fixtures.machine_with (PList Fixtures.earlier)) (Some Fixtures.hi))
               = Returned (Some Samples.hello)) by (vm_compute; reflexivity).
  split; [exact H0|]. split; [exact H7|].
  exact (second_request_carries_first_exchange Fixtures.surroundings Fixtures.streaming
           (Fixtures.interactive_args e_openai) (Fixtures.session_at_0 Fixtures.gpt4 [])
           (Fixtures.machine_with (PList Fixtures.earlier)) Fixtures.earlier
           Fixtures.hi Samples.hello Samples.again [s_quit] H0 H1 eq_refl H3 H4 H5 H6 H7).
Defined.

Lemma lower_char_length (c : codepoint) :
  ~ In 775 (lower_char c) -> length (lower_char c) = 1%nat.
Proof.
  unfold lower_char.
  destruct ((65 <=? c) && (c <=? 90)); [reflexivity|].
  destruct (c =? 8490); [reflexivity|].
  destruct (c =? 304); [|reflexivity].
  intros Hn. exfalso. apply Hn. simpl. auto.
Qed.

Lemma lower_length (s : pystr) : ~ In 775 (lower s) -> length (lower s) = length s.
Proof.
  induction s as [|c s IH]; intros Hn; [reflexivity|].
  unfold lower in *. cbn [flat_map] in *. rewrite length_app.
  rewrite lower_char_length, IH.
  - reflexivity.
  - intros Hin. apply Hn. apply in_or_app. now right.
  - intros Hin. apply Hn. apply in_or_app. now left.
Qed.

(** X10: the save command is recognised whatever the case of its letters,
    and the name of the file is taken from the line as it was typed, its case
    kept and the white space around it removed.  When the system refuses
    nothing: for a path that can name a file the command writes the history
    to that file and prints the path; it transmits nothing, leaves every
    object, the history among them, as it was, and the loop goes on.  For a
    path that names a directory (a name that is blank, [.] or [..], or that
    ends with a slash) the command raises [IsADirectoryError], which ends the
    run: nothing is written or printed and the lines that follow are not
    read. *)
Theorem save_command_any_case (E : environment) (P : providers) (a : cli_args)
    (s : session) (cmd n : pystr) (rest : list pystr) (m : mstate) :
  lower cmd = s_save ->
  E.(refuses) m.(m_fs) (path_join (sessions_data_dir E) (strip n)) = None ->
  (names_directory (path_join (sessions_data_dir E) (strip n)) = false ->
   interactive_loop E P a s ((cmd ++ n) :: rest) m
   = interactive_loop E P a s rest
       {| m_fs := fs_write m.(m_fs) (path_join (sessions_data_dir E) (strip n))
                    (dumps (heap_get m.(m_st).(st_heap) s.(s_history)));
          m_st := m.(m_st);
          m_out := m.(m_out)
                   ++ [Line (str "Conversation saved to "
                               ++ path_join (sessions_data_dir E) (strip n))] |})
  /\ (names_directory (path_join (sessions_data_dir E) (strip n)) = true ->
      interactive_loop E P a s ((cmd ++ n) :: rest) m = (m, rest, Raised IsADirectoryError)).
Proof.
  intros Hcmd Hr.
  assert (Hlen : length cmd = 6%nat).
  { rewrite <- (lower_length cmd); rewrite Hcmd; [reflexivity|].
    intros Hin. simpl in Hin. repeat (destruct Hin as [Hin|Hin]; [discriminate Hin|]).
    exact Hin. }
  assert (Hskip : skipn 6 (cmd ++ n) = n) by (rewrite <- Hlen; apply skipn_length_app).
  cbn [interactive_loop]. rewrite lower_app, Hcmd.
  assert (Hq : pystr_eqb (s_save ++ lower n) s_quit = false) by reflexivity.
  assert (Hs : startswith (s_save ++ lower n) s_save = true)
    by (apply startswith_iff; now exists (lower n)).
  rewrite Hq, Hs, Hskip. unfold save_session. rewrite Hr.
  split; intros Hd; rewrite Hd; reflexivity.
Qed.

Lemma save_command_any_case_witness :
  lower Samples.shouted_save = s_save
  /\ interactive_loop Fixtures.surroundings Fixtures.streaming
       (Fixtures.interactive_args e_openai) (Fixtures.session_at_0 Fixtures.gpt4 [])
       [Samples.shouted_save ++ Fixtures.demo; s_quit]
       (Fixtures.machine_with (PList Fixtures.earlier))
     = interactive_loop Fixtures.surroundings Fixtures.streaming
         (Fixtures.interactive_args e_openai) (Fixtures.session_at_0 Fixtures.gpt4 [])
         [s_quit]
         {| m_fs := fs_write [] (path_join (str "/data/sessions") (strip Fixtures.demo))
                      (dumps (PList Fixtures.earlier));
            m_st := (Fixtures.machine_with (PList Fixtures.earlier)).(m_st);
            m_out := [Line (str "Conversation saved to "
                              ++ path_join (str "/data/sessions") (strip Fixtures.demo))] |}
  /\ interactive_loop Fixtures.surroundings Fixtures.streaming
       (Fixtures.interactive_args e_openai) (Fixtures.session_at_0 Fixtures.gpt4 [])
       [Samples.shouted_save ++ Samples.folder; s_quit]
       (Fixtures.machine_with (PList Fixtures.earlier))
     = (Fixtures.machine_with (PList Fixtures.earlier), [s_quit], Raised IsADirectoryError).
Proof.
  assert (H1 : lower Samples.shouted_save = s_save) by reflexivity.
  split; [exact H1|]. split.
  - exact (proj1 (save_command_any_case Fixtures.surroundings Fixtures.streaming
                    (Fixtures.interactive_args e_openai)
                    (Fixtures.session_at_0 Fixtures.gpt4 [])
                    Samples.shouted_save Fixtures.demo [s_quit]
                    (Fixtures.machine_with (PList Fixtures.earlier)) H1 eq_refl) eq_refl).
  - exact (proj2 (save_command_any_case Fixtures.surroundings Fixtures.streaming
                    (Fixtures.interactive_args e_openai)
                    (Fixtures.session_at_0 Fixtures.gpt4 [])
                    Samples.shouted_save Samples.folder [s_quit]
                    (Fixtures.machine_with (PList Fixtures.earlier)) H1 eq_refl) eq_refl).
Defined.




(** ** Session files *)

Lemma fs_read_other (fs : filesystem) (path path' content : pystr) :
  path' <> path -> fs_read (fs_write fs path content) path' = fs_read fs path'.
Proof.
  intros Hne. unfold fs_write. simpl.
  assert (E : pystr_eqb path path' = false) by (apply pystr_eqb_neq; congruence).
  now rewrite E.
Qed.

(** The sessions directory is never the empty path and never ends with a
    slash: it ends with [sessions]. *)
Lemma sessions_dir_shape (E : environment) :
  exists pre, sessions_data_dir E = pre ++ s_sessions.
Proof.
  unfold sessions_data_dir, path_join.
  change (startswith s_sessions [47]) with false. cbv iota.
  destruct E.(data_dir) as [|c d]; [now exists []|].
  destruct (last (c :: d) 0 =? 47).
  - now exists (c :: d).
  - exists ((c :: d) ++ [47]). now rewrite <- app_assoc.
Qed.

Lemma plain_name_spec (n : pystr) :
  plain_name n = true ->
  n <> [] /\ ~ In 47 n /\ n <> [46] /\ n <> [46; 46].
Proof.
  unfold plain_name. intros H.
  apply andb_true_iff in H as [H H4]. apply andb_true_iff in H as [H H3].
  apply andb_true_iff in H as [H1 H2].
  apply negb_true_iff in H1, H2, H3, H4.
  apply pystr_eqb_neq in H1, H3, H4.
  repeat split; auto.
  intros Hin. assert (Hex : existsb (N.eqb 47) n = true).
  { apply existsb_exists. exists 47. split; [exact Hin|apply N.eqb_refl]. }
  congruence.
Qed.

(** A plain name is joined to the sessions directory with one slash. *)
Lemma plain_name_path (E : environment) (n : pystr) :
  plain_name n = true ->
  path_join (sessions_data_dir E) n = sessions_data_dir E ++ 47 :: n.
Proof.
  intros Hp. destruct (plain_name_spec n Hp) as (Hne & Hslash & _).
  destruct (sessions_dir_shape E) as [pre Hsd].
  unfold path_join.
  assert (Hs : startswith n [47] = false).
  { destruct n as [|c t]; [contradiction|]. cbn [startswith].
    destruct (N.eqb_spec 47 c) as [<-|Hc]; [|reflexivity].
    exfalso. apply Hslash. now left. }
  rewrite Hs, Hsd.
  assert (Hlast : last (pre ++ s_sessions) 0 = 115).
  { change s_sessions with (removelast s_sessions ++ [115]).
    rewrite app_assoc. apply last_last. }
  destruct (pre ++ s_sessions) as [|c t] eqn:Ed.
  - destruct pre; discriminate Ed.
  - now rewrite Hlast.
Qed.

Lemma until_slash_app (l r : pystr) :
  ~ In 47 l -> until_slash (l ++ 47 :: r) = l.
Proof.
  induction l as [|c l IH]; intros Hn; [reflexivity|].
  cbn [app until_slash].
  destruct (N.eqb_spec c 47) as [->|Hc]; [exfalso; apply Hn; now left|].
  rewrite IH; [reflexivity|]. intros Hin. apply Hn. now right.
Qed.

Lemma basename_app (x n : pystr) : ~ In 47 n -> basename (x ++ 47 :: n) = n.
Proof.
  intros Hn. unfold basename.
  rewrite rev_app_distr. cbn [rev]. rewrite <- app_assoc. cbn [app].
  rewrite until_slash_app by (now rewrite <- in_rev).
  apply rev_involutive.
Qed.

(** The path of a plain name can name a file. *)
Lemma plain_name_file (E : environment) (n : pystr) :
  plain_name n = true ->
  names_directory (path_join (sessions_data_dir E) n) = false.
Proof.
  intros Hp. rewrite (plain_name_path E n Hp).
  destruct (plain_name_spec n Hp) as (H1 & H2 & H3 & H4).
  unfold names_directory. rewrite (basename_app _ n H2).
  apply pystr_eqb_neq in H1, H3, H4. now rewrite H1, H3, H4.
Qed.

(** X12: among the plain names of the sessions directory (no slash, not
    blank, not [.] or [..]) a save replaces what was saved before under the
    same name and only that.  When the system refuses nothing, two saves
    under a name both go through; loading the name then gives the value of
    the second, and a session of another plain name loads as it did before
    the saves. *)
Theorem save_replaces_only_its_file (E : environment) (fs : filesystem)
    (v0 v : pyval) (n n' : pystr) :
  well_formed v = true -> modest v = true ->
  plain_name (strip n) = true -> plain_name (strip n') = true ->
  strip n' <> strip n ->
  E.(refuses) fs (path_join (sessions_data_dir E) (strip n)) = None ->
  E.(refuses) (fs_write fs (path_join (sessions_data_dir E) (strip n)) (dumps v0))
    (path_join (sessions_data_dir E) (strip n)) = None ->
  exists fs1 fs2,
    save_session E fs v0 (strip n) = Returned fs1
    /\ save_session E fs1 v (strip n) = Returned fs2
    /\ load_session (sessions_data_dir E) fs2 n = Returned v
    /\ load_session (sessions_data_dir E) fs1 n' = load_session (sessions_data_dir E) fs n'
    /\ load_session (sessions_data_dir E) fs2 n' = load_session (sessions_data_dir E) fs n'.
Proof.
  intros Hwf _ Hp Hp' Hne Hr1 Hr2.
  assert (Hd := plain_name_file E (strip n) Hp).
  assert (Hpath : path_join (sessions_data_dir E) (strip n')
                  <> path_join (sessions_data_dir E) (strip n)).
  { rewrite (plain_name_path E _ Hp), (plain_name_path E _ Hp').
    intros Heq. apply app_inv_head in Heq. congruence. }
  eexists _, _.
  split; [apply (save_session_writes E fs v0 (strip n) Hr1 Hd)|].
  split; [apply (save_session_writes E _ v (strip n) Hr2 Hd)|].
  split; [now apply load_written|].
  unfold load_session. now rewrite !fs_read_other.
Qed.

Lemma save_replaces_only_its_file_witness :
  well_formed (PList Fixtures.earlier) = true
  /\ plain_name (strip Fixtures.demo) = true
  /\ plain_name (strip Samples.other) = true
  /\ strip Samples.other <> strip Fixtures.demo
  /\ exists fs1 fs2,
       save_session Fixtures.surroundings [] (PList []) (strip Fixtures.demo) = Returned fs1
       /\ save_session Fixtures.surroundings fs1 (PList Fixtures.earlier)
            (strip Fixtures.demo) = Returned fs2
       /\ load_session (sessions_data_dir Fixtures.surroundings) fs2 Fixtures.demo
          = Returned (PList Fixtures.earlier).
Proof.
  assert (H1 : well_formed (PList Fixtures.earlier) = true) by reflexivity.
  assert (H2 : plain_name (strip Fixtures.demo) = true) by reflexivity.
  assert (H3 : plain_name (strip Samples.other) = true) by reflexivity.
  assert (H4 : strip Samples.other <> strip Fixtures.demo) by (vm_compute; discriminate).
  repeat (split; [assumption|]).
  destruct (save_replaces_only_its_file Fixtures.surroundings [] (PList [])
              (PList Fixtures.earlier) Fixtures.demo Samples.other
              H1 eq_refl H2 H3 H4 eq_refl eq_refl)
    as (fs1 & fs2 & Hs1 & Hs2 & Hload & _).
  exists fs1, fs2. repeat split; assumption.
Defined.

(** X13: a session name that starts with a slash is not put under the
    sessions directory: when the path can name a file and the system refuses
    nothing, the save command writes the file at that very path and
    announces that path. *)
Theorem absolute_name_leaves_sessions_dir (E : environment) (P : providers) (a : cli_args)
    (s : session) (n p : pystr) (m : mstate) :
  strip n = 47 :: p ->
  E.(refuses) m.(m_fs) (47 :: p) = None ->
  names_directory (47 :: p) = false ->
  interactive_loop E P a s [s_save ++ n; s_quit] m
  = ({| m_fs := fs_write m.(m_fs) (47 :: p)
                  (dumps (heap_get m.(m_st).(st_heap) s.(s_history)));
        m_st := m.(m_st);
        m_out := m.(m_out) ++ [Line (str "Conversation saved to " ++ 47 :: p)] |},
     [], Returned tt)
  /\ fs_read (fst (fst (interactive_loop E P a s [s_save ++ n; s_quit] m))).(m_fs) (47 :: p)
     = Some (dumps (heap_get m.(m_st).(st_heap) s.(s_history))).
Proof.
  intros Hn Hr Hd.
  assert (Hp : path_join (sessions_data_dir E) (strip n) = 47 :: p)
    by (rewrite Hn; reflexivity).
  assert (Hloop : interactive_loop E P a s [s_save ++ n; s_quit] m
                  = ({| m_fs := fs_write m.(m_fs) (47 :: p)
                                  (dumps (heap_get m.(m_st).(st_heap) s.(s_history)));
                        m_st := m.(m_st);
                        m_out := m.(m_out)
                                 ++ [Line (str "Conversation saved to " ++ 47 :: p)] |},
                     [], Returned tt)).
  { rewrite interactive_loop_save by (rewrite Hp; assumption).
    rewrite Hp. reflexivity. }
  split; [exact Hloop|]. rewrite Hloop. cbn [fst m_fs]. apply fs_read_written.
Qed.

Lemma absolute_name_leaves_sessions_dir_witness :
  strip Samples.absolute = 47 :: tl Samples.absolute
  /\ names_directory (47 :: tl Samples.absolute) = false
  /\ fs_read (fst (fst (interactive_loop Fixtures.surroundings Fixtures.streaming
                          (Fixtures.interactive_args e_openai)
                          (Fixtures.session_at_0 Fixtures.gpt4 [])
                          [s_save ++ Samples.absolute; s_quit]
                          (Fixtures.machine_with (PList Fixtures.earlier))))).(m_fs)
       Samples.absolute
     = Some (dumps (PList Fixtures.earlier)).
Proof.
  assert (H1 : strip Samples.absolute = 47 :: tl Samples.absolute) by reflexivity.
  assert (H3 : names_directory (47 :: tl Samples.absolute) = false) by reflexivity.
  split; [exact H1|]. split; [exact H3|].
  exact (proj2 (absolute_name_leaves_sessions_dir Fixtures.surroundings Fixtures.streaming
                  (Fixtures.interactive_args e_openai)
                  (Fixtures.session_at_0 Fixtures.gpt4 [])
                  Samples.absolute (tl Samples.absolute)
                  (Fixtures.machine_with (PList Fixtures.earlier)) H1 eq_refl H3)).
Defined.

(** X14: not only lists of role and content records go through a session
    file.  Every value of the model whose strings are text and whose
    integers are within the digit limit of the interpreter (a turn whose
    content is [None], a record with more fields, integers, nested lists;
    there are no floats in the model), saved by the save command under a
    name whose path can name a file while the system refuses nothing, is
    read back by the loading as the same value. *)
Theorem any_history_value_round_trips (E : environment) (P : providers) (a : cli_args)
    (s : session) (m : mstate) (n : pystr) (v : pyval) :
  heap_get m.(m_st).(st_heap) s.(s_history) = v ->
  well_formed v = true -> modest v = true ->
  E.(refuses) m.(m_fs) (path_join (sessions_data_dir E) (strip n)) = None ->
  names_directory (path_join (sessions_data_dir E) (strip n)) = false ->
  interactive_loop E P a s [s_save ++ n; s_quit] m
  = ({| m_fs := fs_write m.(m_fs) (path_join (sessions_data_dir E) (strip n)) (dumps v);
        m_st := m.(m_st);
        m_out := m.(m_out)
                 ++ [Line (str "Conversation saved to "
                             ++ path_join (sessions_data_dir E) (strip n))] |},
     [], Returned tt)
  /\ load_session (sessions_data_dir E)
       (fst (fst (interactive_loop E P a s [s_save ++ n; s_quit] m))).(m_fs) n
     = Returned v.
Proof.
  intros Hget Hwf _ Hr Hd.
  assert (Hloop : interactive_loop E P a s [s_save ++ n; s_quit] m
                  = ({| m_fs := fs_write m.(m_fs)
                                  (path_join (sessions_data_dir E) (strip n)) (dumps v);
                        m_st := m.(m_st);
                        m_out := m.(m_out)
                                 ++ [Line (str "Conversation saved to "
                                             ++ path_join (sessions_data_dir E)
                                                  (strip n))] |},
                     [], Returned tt)).
  { rewrite (interactive_loop_save E P a s n [s_quit] m Hr Hd). now rewrite Hget. }
  split; [exact Hloop|]. rewrite Hloop. cbn [fst m_fs]. now apply load_written.
Qed.

Lemma any_history_value_round_trips_witness :
  well_formed Samples.odd_history = true
  /\ modest Samples.odd_history = true
  /\ names_directory (path_join (sessions_data_dir Fixtures.surroundings)
                        (strip Fixtures.demo)) = false
  /\ load_session (sessions_data_dir Fixtures.surroundings)
       (fst (fst (interactive_loop Fixtures.surroundings Fixtures.streaming
                    (Fixtures.interactive_args e_openai)
                    (Fixtures.session_at_0 Fixtures.gpt4 [])
                    [s_save ++ Fixtures.demo; s_quit]
                    (Fixtures.machine_with Samples.odd_history)))).(m_fs)
       Fixtures.demo
     = Returned Samples.odd_history.
Proof.
  assert (H1 : well_formed Samples.odd_history = true) by reflexivity.
  assert (H2 : modest Samples.odd_history = true) by (vm_compute; reflexivity).
  assert (H3 : names_directory (path_join (sessions_data_dir Fixtures.surroundings)
                                  (strip Fixtures.demo)) = false) by reflexivity.
  repeat (split; [assumption|]).
  exact (proj2 (any_history_value_round_trips Fixtures.surroundings Fixtures.streaming
                  (Fixtures.interactive_args e_openai)
                  (Fixtures.session_at_0 Fixtures.gpt4 [])
                  (Fixtures.machine_with Samples.odd_history) Fixtures.demo
                  Samples.odd_history eq_refl H1 H2 eq_refl H3)).
Defined.



(** X16: a session file that holds JSON which is not a list is loaded
    without complaint; the run then fails on the first prompt, with
    [AttributeError], when the user turn is to be appended.  Nothing has been
    transmitted and the lines after the prompt are not read. *)
Theorem loaded_non_list_fails_on_prompt (E : environment) (P : providers) (a : cli_args)
    (g g' : globals) (m : mstate) (n model prompt : pystr) (rest : list pystr)
    (v : pyval) :
  a.(list_saved) = false ->
  a.(load) = Some n -> n <> [] ->
  load_session (sessions_data_dir E) m.(m_fs) n = Returned v ->
  (forall items, v <> PList items) ->
  resolve_model E a = Returned model ->
  credentials E a g = Returned g' ->
  lower prompt <> s_quit ->
  startswith (lower prompt) s_save = false ->
  exists m',
    main E P a g (prompt :: rest) m = (m', rest, Raised AttributeError)
    /\ m'.(m_st).(st_sent) = m.(m_st).(st_sent)
    /\ m'.(m_fs) = m.(m_fs).
Proof.
  intros Hls Hload Hn Hfile Hv Hmodel Hcred Hq Hs.
  unfold main. rewrite Hls.
  rewrite (prepare_loading E a g g' m n model v Hload Hn Hfile Hmodel Hcred).
  cbv iota beta. simpl s_interactive. cbv iota.
  rewrite (interactive_loop_prompt E P a _ prompt rest _ Hq Hs).
  unfold ask, py_append. simpl s_history. simpl st_heap.
  cbn [app].
  assert (Hcell : heap_get (m.(m_st).(st_heap) ++ [PList []; v])
                    (S (length m.(m_st).(st_heap))) = v).
  { unfold heap_get. rewrite app_nth2 by lia.
    replace (S (length m.(m_st).(st_heap)) - length m.(m_st).(st_heap))%nat with 1%nat by lia.
    reflexivity. }
  rewrite Hcell.
  destruct v as [ | b | z | t | items | d ];
    try (eexists; split; [reflexivity|split; reflexivity]).
  now destruct (Hv items).
Qed.

Lemma loaded_non_list_fails_on_prompt_witness :
  load_session (sessions_data_dir Fixtures.surroundings)
    Samples.machine_with_object.(m_fs) Fixtures.demo
  = Returned (PDict [])
  /\ (forall items, PDict [] <> PList items)
  /\ exists m',
       main Fixtures.surroundings Fixtures.streaming
         (Fixtures.loading_args e_openai Fixtures.demo) Fixtures.no_keys
         [Fixtures.hi; s_quit] Samples.machine_with_object
       = (m', [s_quit], Raised AttributeError)
       /\ m'.(m_st).(st_sent) = Samples.machine_with_object.(m_st).(st_sent)
       /\ m'.(m_fs) = Samples.machine_with_object.(m_fs).
Proof.
  assert (H4 : load_session (sessions_data_dir Fixtures.surroundings)
                 Samples.machine_with_object.(m_fs) Fixtures.demo
               = Returned (PDict [])) by (vm_compute; reflexivity).
  assert (H5 : forall items, PDict [] <> PList items) by discriminate.
  assert (H3 : Fixtures.demo <> []) by discriminate.
  assert (H8 : lower Fixtures.hi <> s_quit) by (vm_compute; discriminate).
  assert (H9 : startswith (lower Fixtures.hi) s_save = false) by (vm_compute; reflexivity).
  split; [exact H4|]. split; [exact H5|].
  exact (loaded_non_list_fails_on_prompt Fixtures.surroundings Fixtures.streaming
           (Fixtures.loading_args e_openai Fixtures.demo) Fixtures.no_keys Fixtures.no_keys
           Samples.machine_with_object Fixtures.demo Fixtures.gpt4 Fixtures.hi [s_quit]
           (PDict []) eq_refl eq_refl H3 H4 H5 eq_refl eq_refl H8 H9).
Defined.

(** ** A run that is not interactive *)

Lemma heap_set_fresh (h : heap) (x v : pyval) : heap_set (h ++ [x]) (length h) v = h ++ [v].
Proof. induction h as [|y h IH]; simpl; [reflexivity|now rewrite IH]. Qed.

(** Without [--load], the history that [main] builds is a new list with one
    system turn per decorator. *)
Lemma prepare_fresh (E : environment) (a : cli_args) (g g' : globals) (m : mstate)
    (model : pystr) (decorators files : list pystr) :
  a.(load) = None ->
  read_decorators E a a.(nodecorator) = (decorators, files) ->
  resolve_model E a = Returned model ->
  credentials E a g = Returned g' ->
  prepare E a g m
  = ({| m_fs := m.(m_fs);
        m_st := {| st_heap := m.(m_st).(st_heap) ++ [PList (map system_turn decorators)];
                   st_sent := m.(m_st).(st_sent) |};
        m_out := (m.(m_out) ++ decorator_report files)
                 ++ [Line (str "Using AI engine " ++ a.(engine) ++ str " with model " ++ model);
                     TemperatureLine a.(temperature)] |},
     Returned {| s_interactive := a.(interactive); s_decorators := decorators;
                 s_model := model; s_history := length m.(m_st).(st_heap);
                 s_globals := g' |}).
Proof.
  intros Hload Hdec Hmodel Hcred.
  unfold prepare. rewrite Hload. simpl of_opt. simpl truthy. cbv iota.
  rewrite Hdec. cbv zeta. unfold heap_alloc.
  assert (Hl : (length m.(m_st).(st_heap) < length (m.(m_st).(st_heap) ++ [PList []]))%nat)
    by (rewrite length_app; simpl; lia).
  simpl m_st. simpl st_heap.
  rewrite (append_decorators_list decorators _ _ [] Hl (heap_get_fresh _ _)).
  rewrite heap_set_fresh. simpl app.
  rewrite Hmodel, Hcred. reflexivity.
Qed.

(** C1, as the code has it: rbot.py holds the instruction and the dataset
    material in one ordered list of texts, [decorators], and does not tell
    the two kinds apart.  With no session loaded, the history is one system
    turn per text, in the order of the list, then one user turn with the
    prompt.  The first part is [main] building the history (lines 223-230)
    and appending the prompt to it (line 268 or 284); the second and the
    third are what a run sends for its first prompt, not interactive and
    interactive; the fourth is [chat] called without a history (lines
    92-106); the last is the scenario of the specification. *)
Theorem history_builder_fresh (E : environment) (P : providers) (a : cli_args)
    (g g' : globals) (m : mstate) (model : pystr) (decorators files : list pystr) :
  a.(list_saved) = false -> a.(load) = None ->
  read_decorators E a a.(nodecorator) = (decorators, files) ->
  resolve_model E a = Returned model ->
  credentials E a g = Returned g' ->
  (exists m1 s,
     prepare E a g m = (m1, Returned s)
     /\ heap_get m1.(m_st).(st_heap) s.(s_history) = PList (map system_turn decorators)
     /\ forall prompt,
          heap_get (fst (ask P a s m1 prompt)).(m_st).(st_heap) s.(s_history)
          = PList (map system_turn decorators ++ [turn r_user (of_opt prompt)]))
  /\ (forall (p : pystr) (stdin : list pystr),
        a.(interactive) = false -> a.(arg_prompt) = Some p -> p <> [] ->
        a.(engine) = e_openai ->
        transmitted m.(m_st) (fst (fst (main E P a g stdin m))).(m_st)
        = [ToOpenAI {| o_max_tokens := 1000; o_model := model; o_request_timeout := 15;
                       o_stream := true; o_temperature := a.(temperature);
                       o_messages := PList (map system_turn decorators ++ [user_turn p]);
                       o_api_key := g'.(openai_api_key) |}])
  /\ (forall (p : pystr) (rest : list pystr),
        a.(interactive) = true ->
        lower p <> s_quit -> startswith (lower p) s_save = false ->
        a.(engine) = e_openai ->
        exists more,
          transmitted m.(m_st) (fst (fst (main E P a g (p :: rest) m))).(m_st)
          = ToOpenAI {| o_max_tokens := 1000; o_model := model; o_request_timeout := 15;
                        o_stream := true; o_temperature := a.(temperature);
                        o_messages := PList (map system_turn decorators ++ [user_turn p]);
                        o_api_key := g'.(openai_api_key) |} :: more)
  /\ (forall (G : globals) (st : pstate) (prompt : option pystr) (texts : list pystr)
             (max_tokens request_timeout : Z) (stream : bool) (temp : Q),
        transmitted st
          (fst (chat P G st prompt texts model max_tokens stream request_timeout temp
                  None e_openai))
        = [ToOpenAI {| o_max_tokens := max_tokens; o_model := model;
                       o_request_timeout := request_timeout; o_stream := stream;
                       o_temperature := temp;
                       o_messages := PList (map system_turn texts
                                              ++ [turn r_user (of_opt prompt)]);
                       o_api_key := G.(openai_api_key) |}])
  /\ chat_messages [] (Some Fixtures.hi) [Fixtures.be_concise] None
     = Returned ([PList [system_turn Fixtures.be_concise; user_turn Fixtures.hi]], 0%nat).
Proof.
  intros Hls Hload Hdec Hmodel Hcred.
  assert (Hprep := prepare_fresh E a g g' m model decorators files Hload Hdec Hmodel Hcred).
  assert (Hl : (length m.(m_st).(st_heap)
                < length (m.(m_st).(st_heap) ++ [PList (map system_turn decorators)]))%nat)
    by (rewrite length_app; simpl; lia).
  split; [|split; [|split; [|split]]].
  - eexists _, _. split; [exact Hprep|]. cbn [s_history m_st st_heap].
    split; [apply heap_get_fresh|].
    intros prompt. apply ask_history; cbn [s_history m_st st_heap];
      [exact Hl|apply heap_get_fresh].
  - intros p stdin Hint Hp Hne He.
    unfold main. rewrite Hls, Hprep. cbv iota beta. cbn [s_interactive].
    rewrite Hint. cbv iota.
    match goal with
    | |- context [run_once P a ?s stdin ?m0] =>
        assert (Hrp : resolve_prompt a m0.(m_fs) stdin = Returned (Some p));
        [|rewrite (run_once_state P a s stdin m0 (Some p) Hrp);
          rewrite (ask_openai P a s m0 (map system_turn decorators) (Some p) He);
          [|exact Hl|apply heap_get_fresh]]
    end.
    + unfold resolve_prompt. rewrite Hp.
      assert (Ht : truthy (of_opt (Some p)) = true)
        by (destruct p; [contradiction|reflexivity]).
      now rewrite Ht.
    + cbn [fst with_st m_st st_sent s_model s_globals].
      unfold transmitted. cbn [st_sent]. now rewrite skipn_length_app.
  - intros p rest Hint Hq Hs He.
    unfold main. rewrite Hls, Hprep. cbv iota beta. cbn [s_interactive].
    rewrite Hint. cbv iota.
    match goal with
    | |- context [interactive_loop E P a ?s (p :: rest) ?m0] =>
        destruct (loop_first_request E P a s m0 (map system_turn decorators) p rest He)
          as [more Hmore]; [exact Hl|apply heap_get_fresh|exact Hq|exact Hs|]
    end.
    exists more. unfold transmitted. rewrite Hmore.
    cbn [say m_st st_sent s_model s_globals]. now rewrite skipn_length_app.
  - intros G st prompt texts max_tokens request_timeout stream temp.
    destruct (chat_openai P G st prompt texts model max_tokens stream request_timeout
                temp None) as (h & l & Hm & Hc).
    rewrite Hc. cbv zeta. cbn [fst]. rewrite transmitted_app.
    rewrite chat_messages_built in Hm. inversion Hm; subst; clear Hm.
    rewrite heap_get_set_same by (rewrite length_app; simpl; lia).
    reflexivity.
  - reflexivity.
Qed.

Lemma history_builder_fresh_witness :
  read_decorators Samples.keyed
    (Samples.prompt_args e_openai (Some Fixtures.hi) None [Samples.facts] false) false
  = ([Samples.style; Samples.facts], [Samples.style; Samples.facts])
  /\ Fixtures.hi <> []
  /\ transmitted Fixtures.empty_machine.(m_st)
       (fst (fst (main Samples.keyed Fixtures.streaming
                    (Samples.prompt_args e_openai (Some Fixtures.hi) None [Samples.facts]
                       false)
                    Fixtures.no_keys [] Fixtures.empty_machine))).(m_st)
     = [ToOpenAI {| o_max_tokens := 1000; o_model := Fixtures.gpt4;
                    o_request_timeout := 15; o_stream := true; o_temperature := 3 # 4;
                    o_messages := PList [system_turn Samples.style;
                                         system_turn Samples.facts;
                                         user_turn Fixtures.hi];
                    o_api_key := Some Samples.secret |}].
Proof.
  assert (H3 : read_decorators Samples.keyed
                 (Samples.prompt_args e_openai (Some Fixtures.hi) None [Samples.facts]
                    false) false
               = ([Samples.style; Samples.facts], [Samples.style; Samples.facts]))
    by reflexivity.
  assert (H8 : Fixtures.hi <> []) by discriminate.
  split; [exact H3|]. split; [exact H8|].
  exact (proj1 (proj2 (history_builder_fresh Samples.keyed Fixtures.streaming
                         (Samples.prompt_args e_openai (Some Fixtures.hi) None
                            [Samples.facts] false)
                         Fixtures.no_keys
                         {| openai_api_key := Some Samples.secret;
                            anthropic_api_key := None |}
                         Fixtures.empty_machine Fixtures.gpt4
                         [Samples.style; Samples.facts] [Samples.style; Samples.facts]
                         eq_refl eq_refl H3 eq_refl eq_refl))
           Fixtures.hi [] eq_refl eq_refl H8 eq_refl).
Defined.

(** C1 as it is written fails: the system turns of the instructions do not
    come first whatever the order of the material.  [chat] is given a dataset
    text and then an instruction text: the history it builds and sends has
    the turn of the dataset first.  So has the history of a run to which the
    loader hands the two texts in that order. *)
Lemma listed_order_is_kept :
  transmitted Fixtures.empty_state
    (fst (chat Fixtures.streaming Fixtures.no_keys Fixtures.empty_state (Some Fixtures.hi)
            [Samples.capital; Fixtures.be_concise] Fixtures.gpt4 1000%Z true 15%Z (3 # 4)
            None e_openai))
  = [ToOpenAI {| o_max_tokens := 1000; o_model := Fixtures.gpt4; o_request_timeout := 15;
                 o_stream := true; o_temperature := 3 # 4;
                 o_messages := PList [system_turn Samples.capital;
                                      system_turn Fixtures.be_concise;
                                      user_turn Fixtures.hi];
                 o_api_key := None |}]
  /\ [system_turn Samples.capital; system_turn Fixtures.be_concise; user_turn Fixtures.hi]
     <> map system_turn [Fixtures.be_concise] ++ map system_turn [Samples.capital]
        ++ [user_turn Fixtures.hi]
  /\ (fst (fst (main Fixtures.surroundings Fixtures.streaming
                  (Samples.prompt_args e_openai (Some Fixtures.hi) None
                     [Samples.capital; Fixtures.be_concise] false)
                  Fixtures.no_keys [] Fixtures.empty_machine))).(m_st).(st_sent)
     = [ToOpenAI {| o_max_tokens := 1000; o_model := Fixtures.gpt4; o_request_timeout := 15;
                    o_stream := true; o_temperature := 3 # 4;
                    o_messages := PList [system_turn Samples.capital;
                                         system_turn Fixtures.be_concise;
                                         user_turn Fixtures.hi];
                    o_api_key := None |}].
Proof.
  split; [vm_compute; reflexivity|].
  split; [vm_compute; discriminate|vm_compute; reflexivity].
Qed.

(** X17: a run with [-p], from the command line to the last line printed,
    with OpenAI.  Exactly one request is transmitted; its messages are one
    system turn per decorator, in order, then the prompt; the key is the one
    the configuration gives.  The reply is printed after the lines about the
    decorators, the engine and the temperature, through the extraction of the
    structured output.  The input is not read, no file is written, and the
    history ends with the user turn: the reply is not appended to it. *)
Theorem single_run_openai (E : environment) (P : providers) (a : cli_args)
    (g g' : globals) (stdin : list pystr) (m : mstate) (model p reply : pystr)
    (decorators files : list pystr) (req : openai_request) :
  a.(list_saved) = false -> a.(load) = None -> a.(interactive) = false ->
  a.(arg_prompt) = Some p -> p <> [] ->
  a.(engine) = e_openai ->
  read_decorators E a a.(nodecorator) = (decorators, files) ->
  resolve_model E a = Returned model ->
  credentials E a g = Returned g' ->
  req = {| o_max_tokens := 1000; o_model := model; o_request_timeout := 15;
           o_stream := true; o_temperature := a.(temperature);
           o_messages := PList (map system_turn decorators ++ [user_turn p]);
           o_api_key := g'.(openai_api_key) |} ->
  drain (P.(openai_create) m.(m_st).(st_sent) req) = Returned reply ->
  exists m',
    main E P a g stdin m = (m', stdin, Returned tt)
    /\ m'.(m_st).(st_sent) = m.(m_st).(st_sent) ++ [ToOpenAI req]
    /\ m'.(m_out)
       = m.(m_out) ++ decorator_report files
         ++ [Line (str "Using AI engine " ++ a.(engine) ++ str " with model " ++ model);
             TemperatureLine a.(temperature);
             Line (structured reply)]
    /\ m'.(m_fs) = m.(m_fs)
    /\ heap_get m'.(m_st).(st_heap) (length m.(m_st).(st_heap))
       = PList (map system_turn decorators ++ [user_turn p]).
Proof.
  intros Hls Hload Hint Hp Hne He Hdec Hmodel Hcred Hreq Hreply.
  unfold main. rewrite Hls.
  rewrite (prepare_fresh E a g g' m model decorators files Hload Hdec Hmodel Hcred).
  cbv iota beta. simpl s_interactive. rewrite Hint. cbv iota.
  unfold run_once, resolve_prompt. rewrite Hp.
  assert (Ht : truthy (of_opt (Some p)) = true) by (destruct p; [contradiction|reflexivity]).
  rewrite Ht. simpl orb. cbv iota.
  match goal with
  | |- context [ask P a ?s ?m0 (Some p)] =>
      assert (Hask := ask_openai P a s m0 (map system_turn decorators) (Some p) He)
  end.
  simpl s_history in Hask. simpl m_st in Hask. simpl st_heap in Hask.
  simpl st_sent in Hask. simpl s_model in Hask. simpl s_globals in Hask.
  simpl of_opt in Hask.
  change (turn r_user (PStr p)) with (user_turn p) in Hask.
  rewrite <- Hreq, Hreply in Hask.
  rewrite Hask.
  - rewrite heap_set_fresh. eexists. split; [reflexivity|].
    simpl. repeat split.
    + now rewrite <- !app_assoc.
    + apply heap_get_fresh.
  - rewrite length_app. simpl. lia.
  - apply heap_get_fresh.
Qed.

Lemma single_run_openai_witness :
  Fixtures.hi <> []
  /\ exists m',
       main Samples.keyed Fixtures.streaming
         (Samples.prompt_args e_openai (Some Fixtures.hi) None [Samples.facts] false)
         Fixtures.no_keys [Samples.again] Fixtures.empty_machine
       = (m', [Samples.again], Returned tt)
       /\ m'.(m_st).(st_sent)
          = [ToOpenAI {| o_max_tokens := 1000; o_model := Fixtures.gpt4;
                         o_request_timeout := 15; o_stream := true;
                         o_temperature := 3 # 4;
                         o_messages := PList [system_turn Samples.style;
                                              system_turn Samples.facts;
                                              user_turn Fixtures.hi];
                         o_api_key := Some Samples.secret |}].
Proof.
  assert (H5 : Fixtures.hi <> []) by discriminate.
  split; [exact H5|].
  destruct (single_run_openai Samples.keyed Fixtures.streaming
              (Samples.prompt_args e_openai (Some Fixtures.hi) None [Samples.facts] false)
              Fixtures.no_keys
              {| openai_api_key := Some Samples.secret; anthropic_api_key := None |}
              [Samples.again] Fixtures.empty_machine Fixtures.gpt4 Fixtures.hi Samples.hello
              [Samples.style; Samples.facts] [Samples.style; Samples.facts] _
              eq_refl eq_refl eq_refl eq_refl H5 eq_refl eq_refl eq_refl eq_refl eq_refl
              eq_refl)
    as (m' & Hmain & Hsent & _).
  exists m'. split; [exact Hmain|exact Hsent].
Defined.



(** X19: a run that is not interactive, with an engine that is neither
    [openai] nor [anthropic]: [chat] returns [None] and the search of the
    structured output in it raises [TypeError].  Nothing is transmitted and
    nothing is printed by the dispatch; the user turn has been appended. *)
Theorem single_run_unknown_engine (P : providers) (a : cli_args) (s : session)
    (stdin : list pystr) (m : mstate) (H : list pyval) (prompt : option pystr) :
  a.(engine) <> e_openai -> a.(engine) <> e_anthropic ->
  (s.(s_history) < length m.(m_st).(st_heap))%nat ->
  heap_get m.(m_st).(st_heap) s.(s_history) = PList H ->
  resolve_prompt a m.(m_fs) stdin = Returned prompt ->
  exists m',
    snd (run_once P a s stdin m) = Raised TypeError
    /\ fst (fst (run_once P a s stdin m)) = m'
    /\ m'.(m_st).(st_sent) = m.(m_st).(st_sent)
    /\ m'.(m_out) = m.(m_out)
    /\ m'.(m_fs) = m.(m_fs)
    /\ heap_get m'.(m_st).(st_heap) s.(s_history)
       = PList (H ++ [turn r_user (of_opt prompt)]).
Proof.
  intros H1 H2 Hl Hget Hp. unfold run_once. rewrite Hp.
  rewrite (ask_other_engine P a s m H prompt H1 H2 Hget).
  eexists. split; [reflexivity|]. split; [reflexivity|].
  simpl. repeat split. now apply heap_get_set_same.
Qed.

Lemma single_run_unknown_engine_witness :
  Fixtures.google <> e_openai /\ Fixtures.google <> e_anthropic
  /\ snd (run_once Fixtures.streaming
            (Samples.prompt_args Fixtures.google (Some Fixtures.hi) None [] false)
            (Fixtures.session_at_0 Fixtures.gpt4 [])
            [] (Fixtures.machine_with (PList [])))
     = Raised TypeError.
Proof.
  assert (H1 : Fixtures.google <> e_openai) by discriminate.
  assert (H2 : Fixtures.google <> e_anthropic) by discriminate.
  split; [exact H1|]. split; [exact H2|].
  destruct (single_run_unknown_engine Fixtures.streaming
              (Samples.prompt_args Fixtures.google (Some Fixtures.hi) None [] false)
              (Fixtures.session_at_0 Fixtures.gpt4 [])
              [] (Fixtures.machine_with (PList [])) [] (Some Fixtures.hi)
              H1 H2 (le_n 1) eq_refl eq_refl) as (m' & Hr & _).
  exact Hr.
Defined.

(** ** The default decorators *)

Lemma split_on_line (sep : codepoint) (l : pystr) :
  ~ In sep l -> split_on sep l = [l].
Proof.
  induction l as [|c l IH]; intros Hn; [reflexivity|].
  cbn [split_on].
  assert (Hc : (c =? sep) = false) by (apply N.eqb_neq; intros ->; apply Hn; now left).
  rewrite Hc, IH; [reflexivity|]. intros Hin. apply Hn. now right.
Qed.

Lemma split_on_app (sep : codepoint) (l rest : pystr) :
  ~ In sep l -> split_on sep (l ++ sep :: rest) = l :: split_on sep rest.
Proof.
  induction l as [|c l IH]; intros Hn.
  - cbn [app split_on]. now rewrite N.eqb_refl.
  - cbn [app split_on].
    assert (Hc : (c =? sep) = false) by (apply N.eqb_neq; intros ->; apply Hn; now left).
    rewrite Hc, IH; [reflexivity|]. intros Hin. apply Hn. now right.
Qed.

Lemma split_on_join (sep : codepoint) (lines : list pystr) :
  lines <> [] ->
  Forall (fun l => ~ In sep l) lines ->
  split_on sep (join [sep] lines) = lines.
Proof.
  induction lines as [|l rest IH]; intros Hne Hall; [contradiction|].
  inversion Hall as [|? ? Hl Hrest]; subst.
  destruct rest as [|l2 rest].
  - now apply split_on_line.
  - rewrite join_cons2. cbn [app].
    rewrite (split_on_app sep l _ Hl). f_equal.
    apply IH; [discriminate|exact Hrest].
Qed.

(** X20: when [DECORATORS] holds paths one per line, the loader of the
    decorator files is given the lines that are not blank, in their order,
    then the paths of [-d]; when the variable is not set, the paths of [-d]
    alone.  With [--nodecorator] the loader is not consulted and there are no
    decorators, whatever the variable and [-d] say. *)
Theorem default_decorators_one_per_line (E : environment) (a : cli_args)
    (lines : list pystr) :
  Forall (fun l => ~ In c_newline l) lines ->
  (E.(getenv) s_DECORATORS = Some (join [c_newline] lines) ->
   read_decorators E a false
   = E.(load_decorator_files)
       (filter (fun path => negb (pystr_eqb (strip path) [])) lines ++ a.(decorator)))
  /\ (E.(getenv) s_DECORATORS = None ->
      read_decorators E a false = E.(load_decorator_files) a.(decorator))
  /\ read_decorators E a true = ([], []).
Proof.
  intros Hall. split; [|split].
  - intros Henv. unfold read_decorators. rewrite Henv.
    destruct lines as [|l rest]; [reflexivity|].
    rewrite split_on_join; [reflexivity|discriminate|exact Hall].
  - intros Henv. unfold read_decorators. now rewrite Henv.
  - reflexivity.
Qed.

Lemma default_decorators_one_per_line_witness :
  Forall (fun l => ~ In c_newline l) [Samples.style; []; []]
  /\ read_decorators Samples.keyed
       (Samples.prompt_args e_openai (Some Fixtures.hi) None [Samples.facts] false) false
     = ([Samples.style; Samples.facts], [Samples.style; Samples.facts]).
Proof.
  assert (H1 : Forall (fun l => ~ In c_newline l) [Samples.style; []; []]).
  { repeat constructor; intros Hin; vm_compute in Hin; intuition discriminate. }
  split; [exact H1|].
  exact (proj1 (default_decorators_one_per_line Samples.keyed
                  (Samples.prompt_args e_openai (Some Fixtures.hi) None [Samples.facts] false)
                  [Samples.style; []; []] H1) eq_refl).
Defined.

(** ** The text of a session file *)

Lemma hex_digit_printable (d : N) : d < 16 -> printable (hex_digit d) = true.
Proof.
  intros H.
  assert (Hd : d = 0 \/ d = 1 \/ d = 2 \/ d = 3 \/ d = 4 \/ d = 5 \/ d = 6 \/ d = 7
               \/ d = 8 \/ d = 9 \/ d = 10 \/ d = 11 \/ d = 12 \/ d = 13 \/ d = 14 \/ d = 15)
    by lia.
  repeat (destruct Hd as [->|Hd]; [reflexivity|]). subst d. reflexivity.
Qed.

Lemma u_escape_printable (c : N) : forallb printable (u_escape c) = true.
Proof.
  unfold u_escape. cbn [forallb].
  rewrite !hex_digit_printable by (apply N.mod_lt; discriminate).
  reflexivity.
Qed.

Lemma escape_char_printable (c : codepoint) : forallb printable (escape_char c) = true.
Proof.
  unfold escape_char.
  repeat (match goal with
          | |- context [if ?b then _ else _] => destruct b eqn:?
          end; try reflexivity).
  - cbn [forallb]. unfold printable.
    match goal with H : _ && _ = true |- _ => now rewrite H end.
  - apply u_escape_printable.
  - cbv zeta. rewrite forallb_app, !u_escape_printable. reflexivity.
Qed.

Lemma encode_string_printable (s : pystr) : forallb printable (encode_string s) = true.
Proof.
  unfold encode_string. rewrite !forallb_app. cbn [forallb].
  assert (H : forallb printable (flat_map escape_char s) = true).
  { induction s as [|c s IH]; [reflexivity|].
    cbn [flat_map]. now rewrite forallb_app, escape_char_printable, IH. }
  now rewrite H.
Qed.

Lemma digit_printable (c : codepoint) : is_digit c = true -> printable c = true.
Proof.
  unfold is_digit, printable. intros H. apply andb_true_iff in H as [H1 H2].
  apply N.leb_le in H1, H2. apply andb_true_iff. split; apply N.leb_le; lia.
Qed.

Lemma int_repr_printable (z : Z) : forallb printable (int_repr z) = true.
Proof.
  unfold int_repr. cbv zeta.
  destruct (digits_of_int (Z.abs_N z)) as (d & ds & Hd & Hall & _).
  rewrite Hd.
  assert (H : forallb printable (d :: ds) = true).
  { apply forallb_forall. intros c Hc. apply digit_printable.
    now apply (proj1 (forallb_forall _ _) Hall). }
  destruct (z <? 0)%Z; [|exact H].
  cbn [forallb] in *. now rewrite H.
Qed.

Lemma join_printable (sep : pystr) (parts : list pystr) :
  forallb printable sep = true ->
  Forall (fun p => forallb printable p = true) parts ->
  forallb printable (join sep parts) = true.
Proof.
  intros Hsep Hall. induction Hall as [|p rest Hp Hrest IH]; [reflexivity|].
  destruct rest as [|q rest]; [exact Hp|].
  rewrite join_cons2, !forallb_app, Hp, Hsep. exact IH.
Qed.

Lemma dumps_printable (v : pyval) : forallb printable (dumps v) = true.
Proof.
  induction v as [ | b | z | s | l IH | d IH ] using pyval_nested_ind.
  - reflexivity.
  - now destruct b.
  - apply int_repr_printable.
  - apply encode_string_printable.
  - cbn [dumps]. rewrite !forallb_app. cbn [forallb].
    rewrite join_printable; [reflexivity|reflexivity|].
    induction IH as [|x l Hx Hl IHl]; cbn [map]; constructor; assumption.
  - cbn [dumps]. rewrite !forallb_app. cbn [forallb].
    rewrite join_printable; [reflexivity|reflexivity|].
    induction IH as [|x l Hx Hl IHl]; cbn [map]; constructor; [|assumption].
    rewrite !forallb_app, encode_string_printable, Hx. reflexivity.
Qed.

(** X21: a session file is plain ASCII on one line.  Whatever the history
    holds (text of any script, control characters, line breaks, characters
    beyond the basic plane), every character of the text that the save
    command hands to the file is a printable ASCII character; when the save
    goes through (the path can name a file and the system refuses nothing),
    that text is what the file holds. *)
Theorem session_file_is_printable_ascii (E : environment) (P : providers) (a : cli_args)
    (s : session) (n : pystr) (m : mstate) :
  forallb printable (dumps (heap_get m.(m_st).(st_heap) s.(s_history))) = true
  /\ (E.(refuses) m.(m_fs) (path_join (sessions_data_dir E) (strip n)) = None ->
      names_directory (path_join (sessions_data_dir E) (strip n)) = false ->
      fs_read (fst (fst (interactive_loop E P a s [s_save ++ n; s_quit] m))).(m_fs)
        (path_join (sessions_data_dir E) (strip n))
      = Some (dumps (heap_get m.(m_st).(st_heap) s.(s_history)))).
Proof.
  split; [apply dumps_printable|].
  intros Hr Hd. rewrite (interactive_loop_save E P a s n [s_quit] m Hr Hd).
  assert (Hq : forall m0, interactive_loop E P a s [s_quit] m0 = (m0, [], Returned tt))
    by reflexivity.
  rewrite Hq. cbn [fst m_fs]. apply fs_read_written.
Qed.

Lemma session_file_is_printable_ascii_witness :
  names_directory (path_join (sessions_data_dir Fixtures.surroundings)
                     (strip Fixtures.demo)) = false
  /\ fs_read (fst (fst (interactive_loop Fixtures.surroundings Fixtures.streaming
                          (Fixtures.interactive_args e_openai)
                          (Fixtures.session_at_0 Fixtures.gpt4 [])
                          [s_save ++ Fixtures.demo; s_quit]
                          (Fixtures.machine_with Samples.odd_history)))).(m_fs)
       (path_join (sessions_data_dir Fixtures.surroundings) (strip Fixtures.demo))
     = Some (dumps Samples.odd_history).
Proof.
  assert (H2 : names_directory (path_join (sessions_data_dir Fixtures.surroundings)
                                  (strip Fixtures.demo)) = false) by reflexivity.
  split; [exact H2|].
  exact (proj2 (session_file_is_printable_ascii Fixtures.surroundings Fixtures.streaming
                  (Fixtures.interactive_args e_openai)
                  (Fixtures.session_at_0 Fixtures.gpt4 [])
                  Fixtures.demo (Fixtures.machine_with Samples.odd_history)) eq_refl H2).
Defined.

(** ** The structured output *)

Lemma search_some : forall reply g,
  search reply = Some g -> exists pre s, reply = pre ++ s /\ match_here s = Some g.
Proof.
  induction reply as [|c t IH]; intros g H; rewrite search_step in H.
  - destruct (match_here []) as [g0|] eqn:Hg; [|discriminate].
    exists [], []. split; [reflexivity|]. now rewrite Hg.
  - destruct (match_here (c :: t)) as [g0|] eqn:Hg.
    + exists [], (c :: t). split; [reflexivity|]. now rewrite Hg.
    + destruct (IH g H) as (pre & s & -> & Hm).
      exists (c :: pre), s. split; [reflexivity|exact Hm].
Qed.

Lemma search_finds : forall pre s inner,
  block_at s inner -> exists g, search (pre ++ s) = Some g.
Proof.
  induction pre as [|c pre IH]; intros s inner Hb.
  - destruct (block_is_matched s inner Hb) as [g Hg].
    exists g. cbn [app]. rewrite search_step. now rewrite Hg.
  - cbn [app]. rewrite search_step.
    destruct (match_here (c :: pre ++ s)) as [g|]; [now exists g|].
    now apply (IH s inner).
Qed.

Lemma lazy_group_no_delimiter (s g : pystr) :
  lazy_group s = Some g -> forall x y, g <> x ++ triple_quote ++ y.
Proof.
  intros H x y Hg. apply lazy_group_sound in H as [[post Hs] Hmin].
  assert (Hle := Hmin x (y ++ triple_quote ++ post)).
  rewrite Hs, Hg, <- !app_assoc in Hle. specialize (Hle eq_refl).
  rewrite !length_app in Hle. simpl in Hle. lia.
Qed.

Lemma lstrip_inside (s : pystr) : exists a, s = a ++ lstrip s.
Proof.
  induction s as [|c s [a IH]]; [now exists []|].
  cbn [lstrip]. destruct (is_space c); [|now exists []].
  exists (c :: a). cbn [app]. now rewrite <- IH.
Qed.

Lemma strip_inside (s : pystr) : exists a b, s = a ++ strip s ++ b.
Proof.
  unfold strip, rstrip.
  destruct (lstrip_inside s) as [a Ha].
  destruct (lstrip_inside (rev (lstrip s))) as [b Hb].
  exists a, (rev b). rewrite <- rev_app_distr, <- Hb, rev_involutive. exact Ha.
Qed.

(** X22: when the reply holds a block somewhere, what is printed is the
    stripped text of a block of the reply, and it never holds the delimiter
    of three quotes: the extraction cannot print a block's closing quotes or
    a second block. *)
Theorem extracted_text_has_no_delimiter (reply pre s inner : pystr) :
  reply = pre ++ s -> block_at s inner ->
  (exists pre' s' g,
     reply = pre' ++ s' /\ block_at s' g /\ structured reply = strip g)
  /\ forall x y, structured reply <> x ++ triple_quote ++ y.
Proof.
  intros -> Hb. destruct (search_finds pre s inner Hb) as [g Hg].
  destruct (search_some _ _ Hg) as (pre' & s' & Hr & Hm).
  unfold structured. rewrite Hg. split.
  - exists pre', s', g. split; [exact Hr|]. split; [|reflexivity].
    now apply match_here_block.
  - intros x y Hx.
    apply match_here_iff in Hm as (sp1 & sp2 & rest & _ & _ & _ & Hl).
    destruct (strip_inside g) as (u & w & Hu).
    apply (lazy_group_no_delimiter rest g Hl (u ++ x) (y ++ w)).
    rewrite Hu at 1. rewrite Hx, <- !app_assoc. reflexivity.
Qed.

Lemma extracted_text_has_no_delimiter_witness :
  block_at (s_OUTPUT ++ [61] ++ triple_quote ++ Fixtures.result_42 ++ triple_quote)
    Fixtures.result_42
  /\ forall x y,
       structured (Samples.hello ++ s_OUTPUT ++ [61] ++ triple_quote ++ Fixtures.result_42
                     ++ triple_quote)
       <> x ++ triple_quote ++ y.
Proof.
  assert (Hb : block_at (s_OUTPUT ++ [61] ++ triple_quote ++ Fixtures.result_42
                           ++ triple_quote) Fixtures.result_42).
  { exists [], [], []. split; [now left|]. split; [now left|reflexivity]. }
  split; [exact Hb|].
  exact (proj2 (extracted_text_has_no_delimiter _ Samples.hello _ Fixtures.result_42
                  eq_refl Hb)).
Defined.


(** ** The end of the loop and the arguments of a loading run *)

(** X23: the interactive loop ends normally only on the quit command.  When
    it does, the input holds a line that is [/quit] in some case, no line
    before it is, and the lines after it are left unread.  An input that runs
    out, or an exception of the dispatch, never ends the loop normally. *)
Theorem loop_ends_only_on_quit (E : environment) (P : providers) (a : cli_args)
    (s : session) (inputs : list pystr) (m : mstate) :
  snd (interactive_loop E P a s inputs m) = Returned tt ->
  exists before cmd,
    inputs = before ++ cmd :: snd (fst (interactive_loop E P a s inputs m))
    /\ lower cmd = s_quit
    /\ Forall (fun line => lower line <> s_quit) before.
Proof.
  revert m. induction inputs as [|prompt rest IH]; intros m Hend; [discriminate Hend|].
  cbn [interactive_loop] in *.
  destruct (pystr_eqb (lower prompt) s_quit) eqn:Eq.
  - exists [], prompt. cbn [fst snd app]. split; [reflexivity|].
    split; [now apply pystr_eqb_eq|constructor].
  - assert (Hq : lower prompt <> s_quit) by now apply pystr_eqb_neq.
    assert (Hstep : forall m0,
               snd (interactive_loop E P a s rest m0) = Returned tt ->
               exists before cmd,
                 prompt :: rest
                 = before ++ cmd :: snd (fst (interactive_loop E P a s rest m0))
                 /\ lower cmd = s_quit
                 /\ Forall (fun line => lower line <> s_quit) before).
    { intros m0 H0. destruct (IH m0 H0) as (before & cmd & Hin & Hcmd & Hall).
      exists (prompt :: before), cmd. cbn [app]. split; [now rewrite <- Hin|].
      split; [exact Hcmd|now constructor]. }
    destruct (startswith (lower prompt) s_save).
    + destruct (save_session _ _ _ _) as [fs'|e]; [|discriminate Hend].
      now apply Hstep.
    + destruct (ask P a s m (Some prompt)) as [m1 [reply|e]]; [|discriminate Hend].
      destruct (py_append _ _ _) as [h2|e]; [|discriminate Hend].
      now apply Hstep.
Qed.

Lemma loop_ends_only_on_quit_witness :
  snd (interactive_loop Fixtures.surroundings Fixtures.streaming
         (Fixtures.interactive_args e_openai) (Fixtures.session_at_0 Fixtures.gpt4 [])
         [Fixtures.hi; Samples.shouted_quit; Samples.again] (Fixtures.machine_with (PList [])))
  = Returned tt
  /\ exists before cmd,
       [Fixtures.hi; Samples.shouted_quit; Samples.again]
       = before ++ cmd
           :: snd (fst (interactive_loop Fixtures.surroundings Fixtures.streaming
                          (Fixtures.interactive_args e_openai)
                          (Fixtures.session_at_0 Fixtures.gpt4 [])
                          [Fixtures.hi; Samples.shouted_quit; Samples.again]
                          (Fixtures.machine_with (PList []))))
       /\ lower cmd = s_quit
       /\ Forall (fun line => lower line <> s_quit) before.
Proof.
  assert (H1 : snd (interactive_loop Fixtures.surroundings Fixtures.streaming
                      (Fixtures.interactive_args e_openai)
                      (Fixtures.session_at_0 Fixtures.gpt4 [])
                      [Fixtures.hi; Samples.shouted_quit; Samples.again]
                      (Fixtures.machine_with (PList [])))
               = Returned tt) by (vm_compute; reflexivity).
  split; [exact H1|].
  exact (loop_ends_only_on_quit Fixtures.surroundings Fixtures.streaming
           (Fixtures.interactive_args e_openai) (Fixtures.session_at_0 Fixtures.gpt4 [])
           [Fixtures.hi; Samples.shouted_quit; Samples.again]
           (Fixtures.machine_with (PList [])) H1).
Defined.

Lemma ask_same_engine (P : providers) (a a' : cli_args) (s : session) (m : mstate)
    (prompt : option pystr) :
  a'.(engine) = a.(engine) -> a'.(temperature) = a.(temperature) ->
  ask P a' s m prompt = ask P a s m prompt.
Proof. intros He Ht. unfold ask. now rewrite He, Ht. Qed.

Lemma interactive_loop_same_engine (E : environment) (P : providers) (a a' : cli_args)
    (s : session) (inputs : list pystr) :
  a'.(engine) = a.(engine) -> a'.(temperature) = a.(temperature) ->
  forall m, interactive_loop E P a' s inputs m = interactive_loop E P a s inputs m.
Proof.
  intros He Ht. induction inputs as [|prompt rest IH]; intros m; [reflexivity|].
  cbn [interactive_loop].
  destruct (pystr_eqb (lower prompt) s_quit); [reflexivity|].
  destruct (startswith (lower prompt) s_save).
  { destruct (save_session _ _ _ _) as [fs'|e]; [apply IH|reflexivity]. }
  rewrite (ask_same_engine P a a' s m (Some prompt) He Ht).
  destruct (ask P a s m (Some prompt)) as [m1 [reply|e]]; [|reflexivity].
  destruct (py_append _ _ _) as [h2|e]; [apply IH|reflexivity].
Qed.

Lemma prepare_loading_interactive (E : environment) (a : cli_args) (g : globals)
    (m m1 : mstate) (n : pystr) (s : session) :
  a.(load) = Some n -> n <> [] ->
  prepare E a g m = (m1, Returned s) -> s.(s_interactive) = true.
Proof.
  intros Hload Hn. unfold prepare. rewrite Hload.
  assert (Ht : truthy (of_opt (Some n)) = true) by (destruct n; [contradiction|reflexivity]).
  rewrite Ht. unfold read_decorators. cbv iota. unfold heap_alloc. simpl append_decorators.
  cbv iota beta zeta.
  destruct (load_session _ _ _) as [v|e]; [|discriminate].
  destruct (resolve_model E a) as [model|e]; [|discriminate].
  destruct (credentials E a g) as [g'|e]; [|discriminate].
  intros [= _ <-]. reflexivity.
Qed.

(** X24: in a run that loads a session, the prompt arguments ([-p], [-f],
    [--stdin]), [-i], the decorators of [-d] and [--nodecorator] have no
    effect at all: two command lines that load the same session with the
    same engine, model and temperature give the same run, whatever they say
    for the rest. *)
Theorem loading_run_ignores_prompt_arguments (E : environment) (P : providers)
    (a a' : cli_args) (g : globals) (stdin : list pystr) (m : mstate) (n : pystr) :
  a.(list_saved) = false -> a'.(list_saved) = false ->
  a.(load) = Some n -> a'.(load) = Some n -> n <> [] ->
  a'.(engine) = a.(engine) ->
  a'.(arg_model) = a.(arg_model) ->
  a'.(temperature) = a.(temperature) ->
  main E P a' g stdin m = main E P a g stdin m.
Proof.
  intros Hls Hls' Hload Hload' Hn He Hm Ht.
  assert (Hprep : prepare E a' g m = prepare E a g m).
  { unfold prepare, resolve_model, credentials.
    rewrite Hload, Hload', He, Hm, Ht.
    assert (Htr : truthy (of_opt (Some n)) = true)
      by (destruct n; [contradiction|reflexivity]).
    rewrite Htr. reflexivity. }
  unfold main. rewrite Hls, Hls', Hprep.
  destruct (prepare E a g m) as [m1 [s|e]] eqn:Ep; [|reflexivity].
  rewrite (prepare_loading_interactive E a g m m1 n s Hload Hn Ep).
  apply interactive_loop_same_engine; assumption.
Qed.

Lemma loading_run_ignores_prompt_arguments_witness :
  Fixtures.demo <> []
  /\ main Fixtures.surroundings Fixtures.streaming
       (Samples.loading_with_prompt e_openai Fixtures.demo) Fixtures.no_keys
       [Fixtures.hi; s_quit] Fixtures.machine_with_session
     = main Fixtures.surroundings Fixtures.streaming
         (Fixtures.loading_args e_openai Fixtures.demo) Fixtures.no_keys
         [Fixtures.hi; s_quit] Fixtures.machine_with_session.
Proof.
  assert (H5 : Fixtures.demo <> []) by discriminate.
  split; [exact H5|].
  exact (loading_run_ignores_prompt_arguments Fixtures.surroundings Fixtures.streaming
           (Fixtures.loading_args e_openai Fixtures.demo)
           (Samples.loading_with_prompt e_openai Fixtures.demo) Fixtures.no_keys
           [Fixtures.hi; s_quit] Fixtures.machine_with_session Fixtures.demo
           eq_refl eq_refl eq_refl eq_refl H5 eq_refl eq_refl eq_refl).
Defined.
